(** * hcp-asl: the pipeline ledger, the staged fit driver and the
      re-entrancy guards of the correction scripts

    A shallow embedding of the Python sources of hcp-asl
    ([hcpasl/m0_mt_correction.py], [hcpasl/analysis_on_surface.py],
    [hcpasl/asl_perfusion.py], [scripts/distcorr_warps.py],
    [scripts/prepare_t1asl_space.py]) and the properties of them that the
    design specification states.  The definitions come first, module by
    module as the sources; the properties follow.  What the sources take
    from outside (external programs, the regtricks and json libraries) is
    a parameter of the definitions or is modelled where it is used, and
    is said to be so there.

    Python values are modelled as follows.
    - [str] is [string]; a character is a code point below 256.
    - [int] is [Z].
    - [pathlib.Path] is the record [Path] (POSIX flavour).
    - [dict] with string keys and string values is [gmap string string];
      every place where the sources depend on the order of a dict sorts
      it first ([json.dump] with [sort_keys=True]).
    - a function with effects is a computation in the monad [Py S], which
      threads a state [S] and may raise a Python exception. *)

From Stdlib Require Import ZArith List String Ascii DecimalString Decimal QArith Qround Permutation Sorted Lia.
From stdpp Require Import gmap strings list fin_maps sorting.
Import ListNotations.

Local Open Scope string_scope.
Local Open Scope Z_scope.
Local Open Scope list_scope.

(* ===================================================================== *)
(** ** Python strings *)
(* ===================================================================== *)

Module PyStr.

(** [str(i)] for an [int] *)
Definition str_of_Z (i : Z) : string := NilZero.string_of_int (Z.to_int i).

(** [sep.join(l)] *)
Fixpoint join (sep : string) (l : list string) : string :=
  match l with
  | [] => ""
  | [x] => x
  | x :: rest => x +:+ sep +:+ join sep rest
  end.

(** [s.split(sep)] for a separator of one character *)
Fixpoint split (sep : ascii) (s : string) : list string :=
  match s with
  | EmptyString => [""]
  | String c s' =>
      if Ascii.eqb c sep then "" :: split sep s'
      else match split sep s' with
           | h :: t => String c h :: t
           | [] => [String c ""]
           end
  end.

(** [s.startswith(p)], returning what follows [p] *)
Fixpoint strip_prefix (p s : string) : option string :=
  match p with
  | EmptyString => Some s
  | String a p' =>
      match s with
      | EmptyString => None
      | String b s' => if Ascii.eqb a b then strip_prefix p' s' else None
      end
  end.

Definition startswith (s p : string) : bool :=
  match strip_prefix p s with Some _ => true | None => false end.

(** [f"{x}"] where [x] may be [None]: [format(None)] is ["None"] *)
Definition format_opt (x : option string) : string :=
  match x with
  | Some s => s
  | None => "None"
  end.

(** [sub in s] *)
Definition contains (sub s : string) : Prop :=
  exists pre post, s = pre +:+ sub +:+ post.

(** [s.rfind(c)] for a character [c]: the index of its last occurrence *)
Fixpoint rfind (c : ascii) (s : string) : option nat :=
  match s with
  | EmptyString => None
  | String a s' =>
      match rfind c s' with
      | Some i => Some (S i)
      | None => if Ascii.eqb a c then Some 0%nat else None
      end
  end.

(** [c in chars] *)
Fixpoint mem_char (c : ascii) (chars : string) : bool :=
  match chars with
  | EmptyString => false
  | String a rest => Ascii.eqb c a || mem_char c rest
  end.

(** [s.lstrip(chars)], [s.rstrip(chars)] and [s.strip(chars)]: the
    characters of [chars] are removed from the ends, one by one *)
Fixpoint lstrip (chars s : string) : string :=
  match s with
  | EmptyString => ""
  | String c s' => if mem_char c chars then lstrip chars s' else s
  end.

Fixpoint rstrip (chars s : string) : string :=
  match s with
  | EmptyString => ""
  | String c s' =>
      match rstrip chars s' with
      | EmptyString => if mem_char c chars then "" else String c ""
      | r => String c r
      end
  end.

Definition strip (chars s : string) : string := rstrip chars (lstrip chars s).

End PyStr.

(* ===================================================================== *)
(** ** pathlib.PurePosixPath and os.path.join *)
(* ===================================================================== *)

Record Path : Type := MkPath {
  root : string;            (* "", "/" or "//" *)
  parts : list string       (* the components after the root *)
}.

Module PathLib.
Import PyStr.

Definition keep_part (seg : string) : bool :=
  negb (String.eqb seg "") && negb (String.eqb seg ".").

Definition path_parts (s : string) : list string :=
  List.filter keep_part (split "/" s).

(** one or at least three leading slashes make the root "/", exactly two
    make it "//" *)
Definition path_root (s : string) : string :=
  match s with
  | String "/" (String "/" (String "/" _)) => "/"
  | String "/" (String "/" _) => "//"
  | String "/" _ => "/"
  | _ => ""
  end.

(** [Path(s)] *)
Definition of_str (s : string) : Path :=
  {| root := path_root s; parts := path_parts s |}.

(** [str(p)] *)
Definition str (p : Path) : string :=
  match parts p with
  | [] => if String.eqb (root p) "" then "." else root p
  | _ => root p +:+ join "/" (parts p)
  end.

(** [p / s] *)
Definition truediv (p : Path) (s : string) : Path :=
  if String.eqb (path_root s) "" then
    {| root := root p; parts := parts p ++ path_parts s |}
  else of_str s.

(** [p.parent] *)
Definition parent (p : Path) : Path :=
  {| root := root p; parts := removelast (parts p) |}.

(** [os.path.join(a, b)] *)
Definition op_join (a b : string) : string :=
  if startswith b "/" then b
  else if String.eqb a "" then b
  else if String.eqb (substring (String.length a - 1) 1 a) "/" then a +:+ b
  else a +:+ "/" +:+ b.

(** [os.path.join(a, b1, ..., bn)] *)
Definition op_joins (a : string) (bs : list string) : string :=
  fold_left op_join bs a.

(** [p.name]: the last component, or the empty string *)
Definition name (p : Path) : string := List.last (parts p) "".

(** [p.stem]: the name without its last suffix *)
Definition stem (p : Path) : string :=
  let name := name p in
  match rfind "." name with
  | Some i =>
      if (0 <? i)%nat && (i <? String.length name - 1)%nat
      then substring 0 i name else name
  | None => name
  end.

End PathLib.

Notation "p </> s" := (PathLib.truediv p s) (at level 40, left associativity).

(* ===================================================================== *)
(** ** Exceptions and the state-and-exception monad *)
(* ===================================================================== *)

Inductive PyExc : Type :=
| CalledProcessError (returncode : Z) (cmd : list string)
| KeyError (key : string)
| Exception (msg : string)
| RuntimeError (msg : string)
| OSError (filename : string)
| JSONDecodeError.

Inductive Result (A : Type) : Type :=
| Ok (a : A)
| Raise (e : PyExc).
Arguments Ok {A} a.
Arguments Raise {A} e.

Definition Py (S A : Type) : Type := S -> Result A * S.

Module PyMonad.

Definition ret {S A} (a : A) : Py S A := fun s => (Ok a, s).

Definition bind {S A B} (m : Py S A) (k : A -> Py S B) : Py S B :=
  fun s =>
    match m s with
    | (Ok a, s') => k a s'
    | (Raise e, s') => (Raise e, s')
    end.

Definition raise {S A} (e : PyExc) : Py S A := fun s => (Raise e, s).

Definition get {S} : Py S S := fun s => (Ok s, s).

Definition modify {S} (f : S -> S) : Py S unit := fun s => (Ok tt, f s).

(** [try: m  except RuntimeError as e: h e] *)
Definition try_except_RuntimeError {S A} (m : Py S A) (h : string -> Py S A)
  : Py S A :=
  fun s =>
    match m s with
    | (Raise (RuntimeError msg), s') => h msg s'
    | r => r
    end.

(** [for x in l: body x] *)
Fixpoint for_each {S A} (l : list A) (body : A -> Py S unit) : Py S unit :=
  match l with
  | [] => ret tt
  | x :: rest => bind (body x) (fun _ => for_each rest body)
  end.

End PyMonad.

Declare Scope py_scope.
Delimit Scope py_scope with py.
Notation "x <- m ;; k" := (PyMonad.bind m (fun x => k))
  (at level 100, m at next level, right associativity) : py_scope.
Notation "m ;; k" := (PyMonad.bind m (fun _ => k))
  (at level 100, right associativity) : py_scope.

(** [range(n)] and [enumerate(l)] *)
Definition range (n : Z) : list Z := List.map Z.of_nat (seq 0 (Z.to_nat n)).

Definition enumerate {A} (l : list A) : list (Z * A) :=
  combine (range (Z.of_nat (length l))) l.

(* ===================================================================== *)
(** ** External processes: [subprocess.run] *)
(* ===================================================================== *)

(** The outside world is a state [W]; an external program is a function
    from its argument vector and the world to an exit status and a new
    world.  Every invocation is recorded. *)

Record Event (W : Type) : Type := MkEvent {
  ev_cmd : list string;
  ev_before : W;
  ev_status : Z;
  ev_after : W
}.
Arguments MkEvent {W}.
Arguments ev_cmd {W}.
Arguments ev_before {W}.
Arguments ev_status {W}.
Arguments ev_after {W}.

Record Proc (W : Type) : Type := MkProc {
  world : W;
  trace : list (Event W)
}.
Arguments MkProc {W}.
Arguments world {W}.
Arguments trace {W}.

Section Subprocess.
Context {W : Type}.
Variable exec : list string -> W -> Z * W.

(** [subprocess.run(cmd, check=check)] *)
Definition subprocess_run (cmd : list string) (check : bool) : Py (Proc W) Z :=
  fun st =>
    let '(status, w') := exec cmd (world st) in
    let st' := {| world := w';
                  trace := trace st ++ [MkEvent cmd (world st) status w'] |} in
    if check && negb (status =? 0)
    then (Raise (CalledProcessError status cmd), st')
    else (Ok status, st').

End Subprocess.

(* ===================================================================== *)
(** ** hcpasl/analysis_on_surface.py: the staged fit driver *)
(* ===================================================================== *)

Module AnalysisOnSurface.
Import PyStr PathLib PyMonad.

Definition REPEATS : list Z := [6; 6; 6; 10; 15].

Definition base_command (surf_name : string) (tiimg_name : Path) : list string :=
  [ "fabber_asl";
    "--surface=" +:+ surf_name;
    "--model=aslrest";
    "--casl";
    "--save-mvn";
    "--overwrite";
    "--incart";
    "--inctiss";
    "--infertiss";
    "--incbat";
    "--inferbat";
    "--noise=white";
    "--save-mean";
    "--tau=1.5";
    "--bat=1.3";
    "--batsd=1.0";
    "--allow-bad-voxels";
    "--convergence=trialmode";
    "--data-order=singlefile";
    "--disp=none";
    "--exch=mix";
    "--max-iterations=20";
    "--max-trials=10";
    "--tiimg=" +:+ str tiimg_name ].

(** [temp_out = out_dir / f'fabber_{iteration}'] *)
Definition temp_out (out_dir : Path) (iteration : Z) : Path :=
  out_dir </> ("fabber_" +:+ str_of_Z iteration).

(** The iteration-specific command of the loop body of [do_basil]
    (what [it_command] holds when [subprocess.run] is reached). *)
Definition it_command (perf_name mean_name : Path) (surf_name : string)
    (tiimg_name out_dir : Path) (iteration : Z) : list string :=
  let repeats := REPEATS in
  let it_command := base_command surf_name tiimg_name in
  (* data *)
  let data :=
    if (iteration =? 0) || (iteration =? 1) then mean_name else perf_name in
  let it_command := it_command ++ ["--data=" +:+ str data] in
  (* inferart *)
  let it_command :=
    if (iteration =? 1) || (iteration =? 3)
    then it_command ++ ["--inferart"] else it_command in
  (* output dir *)
  let temp_out := temp_out out_dir iteration in
  let it_command := it_command ++ ["--output=" +:+ str temp_out] in
  (* continue from mvn *)
  let it_command :=
    if negb (iteration =? 0) then
      let mvn := parent temp_out
                 </> ("fabber_" +:+ str_of_Z (iteration - 1) +:+ "/finalMVN.nii.gz") in
      it_command ++ ["--continue-from-mvn=" +:+ str mvn]
    else it_command in
  (* repeats *)
  let it_command :=
    if 2 <=? iteration then
      fold_left (fun cmd '(n, repeat) =>
                   cmd ++ ["--rpt" +:+ str_of_Z (n + 1) +:+ "=" +:+ str_of_Z repeat])
                (enumerate repeats) it_command
    else it_command in
  (* spatial or not *)
  let method := if iteration <? 4 then "vb" else "spatialvb" in
  it_command ++ ["--method=" +:+ method].

(** The thresholding command that follows each estimation run. *)
Definition threshold_cmd (out_dir : Path) (iteration : Z) : list string :=
  let ftiss_name := temp_out out_dir iteration </> "mean_ftiss.func.gii" in
  [ "wb_command";
    "-metric-math";
    "max(x, 0)";
    str ftiss_name;
    "-var"; "x"; str ftiss_name ].

Section Driver.
Context {W : Type}.
Variable exec : list string -> W -> Z * W.

(** [do_basil(perf_name, mean_name, surf_name, tiimg_name, out_dir)].
    The two [print] calls write the commands to standard output and
    are not modelled. *)
Definition do_basil (perf_name mean_name : Path) (surf_name : string)
    (tiimg_name out_dir : Path) : Py (Proc W) unit :=
  for_each (range 5) (fun iteration =>
    (* run *)
    (_ <- subprocess_run exec
            (it_command perf_name mean_name surf_name tiimg_name out_dir iteration)
            true ;;
     (* threshold from below at 0 *)
     _ <- subprocess_run exec (threshold_cmd out_dir iteration) true ;;
     ret tt)%py).

End Driver.

(** Observations on an argument vector: the values given to a flag *)
Definition flag_values (flag : string) (cmd : list string) : list string :=
  omap (strip_prefix flag) cmd.

Definition has_flag (flag : string) (cmd : list string) : bool :=
  existsb (String.eqb flag) cmd.

End AnalysisOnSurface.

(* ===================================================================== *)
(** ** The ledger file format: [json.dump] and [json.load] *)
(* ===================================================================== *)

(** [json.dump(d, fp, sort_keys=True, indent=4)] and [json.load(fp)] for a
    dict whose keys and values are strings.  The encoder is the one of
    Python's [json] with [ensure_ascii=True]; the decoder accepts an object
    whose members are strings, with any JSON white space. A document of
    another shape, or one that escapes a code point of 256 or more, is
    outside this model and is rejected. *)

Module Json.
Import PyStr.

Definition dquote : ascii := ascii_of_nat 34.
Definition backslash : ascii := ascii_of_nat 92.
Definition newline : string := String (ascii_of_nat 10) "".

Definition hex_digit (n : N) : ascii :=
  if (n <? 10)%N then ascii_of_N (48 + n) else ascii_of_N (87 + n).

(** the replacement of one character ([ESCAPE_ASCII] and [ESCAPE_DCT] of
    [json.encoder]) *)
Definition escape_char (c : ascii) : string :=
  let n := N_of_ascii c in
  if (n =? 34)%N then String backslash (String dquote "")
  else if (n =? 92)%N then String backslash (String backslash "")
  else if (n =? 10)%N then String backslash "n"
  else if (n =? 13)%N then String backslash "r"
  else if (n =? 9)%N then String backslash "t"
  else if (n =? 8)%N then String backslash "b"
  else if (n =? 12)%N then String backslash "f"
  else if ((32 <=? n) && (n <=? 126))%N then String c ""
  else String backslash
         ("u00" +:+ String (hex_digit (n / 16)) (String (hex_digit (n mod 16)) "")).

Fixpoint escape (s : string) : string :=
  match s with
  | EmptyString => ""
  | String c s' => escape_char c +:+ escape s'
  end.

Definition encode_str (s : string) : string :=
  String dquote (escape s +:+ String dquote "").

(** [sorted(d.items())]: the keys of a dict are distinct, so the order is
    the order of the keys, which Python compares code point by code point *)
Definition item_le (a b : string * string) : Prop := String.leb (fst a) (fst b) = true.

Definition item_le_dec (a b : string * string) : Decision (item_le a b) :=
  decide (String.leb (fst a) (fst b) = true).
#[global] Existing Instance item_le_dec.

Definition sorted_items (d : gmap string string) : list (string * string) :=
  merge_sort item_le (map_to_list d).

(** one member, [key: value] *)
Definition item_core (kv : string * string) : string :=
  encode_str (fst kv) +:+ ": " +:+ encode_str (snd kv).

Definition render_item (kv : string * string) : string := "    " +:+ item_core kv.

(** the text of an object with the given members, [indent=4] *)
Definition render (items : list (string * string)) : string :=
  match items with
  | [] => "{}"
  | _ => "{" +:+ newline
         +:+ join ("," +:+ newline) (List.map render_item items)
         +:+ newline +:+ "}"
  end.

Definition dumps (d : gmap string string) : string := render (sorted_items d).

(** *** Decoding *)

Definition is_ws (c : ascii) : bool :=
  let n := N_of_ascii c in
  ((n =? 32) || (n =? 9) || (n =? 10) || (n =? 13))%N.

Fixpoint skip_ws (s : string) : string :=
  match s with
  | EmptyString => ""
  | String c s' => if is_ws c then skip_ws s' else s
  end.

Definition hex_value (c : ascii) : option N :=
  let n := N_of_ascii c in
  if ((48 <=? n) && (n <=? 57))%N then Some (n - 48)%N
  else if ((97 <=? n) && (n <=? 102))%N then Some (n - 87)%N
  else if ((65 <=? n) && (n <=? 70))%N then Some (n - 55)%N
  else None.

(** the character a two-character escape stands for *)
Definition unescape_char (e : ascii) : option ascii :=
  let n := N_of_ascii e in
  if (n =? 34)%N then Some dquote
  else if (n =? 92)%N then Some backslash
  else if (n =? 47)%N then Some (ascii_of_nat 47)
  else if (n =? 98)%N then Some (ascii_of_nat 8)
  else if (n =? 102)%N then Some (ascii_of_nat 12)
  else if (n =? 110)%N then Some (ascii_of_nat 10)
  else if (n =? 114)%N then Some (ascii_of_nat 13)
  else if (n =? 116)%N then Some (ascii_of_nat 9)
  else None.

Definition cons_char (c : ascii) (r : option (string * string)) : option (string * string) :=
  match r with
  | Some (t, rest) => Some (String c t, rest)
  | None => None
  end.

(** the inside of a string literal, from after the opening quote: the
    decoded string and what follows the closing quote *)
Fixpoint scan_string (s : string) : option (string * string) :=
  match s with
  | EmptyString => None
  | String c s' =>
      if Ascii.eqb c dquote then Some ("", s')
      else if Ascii.eqb c backslash then
        match s' with
        | EmptyString => None
        | String e s'' =>
            if Ascii.eqb e "u" then
              match s'' with
              | String h1 (String h2 (String h3 (String h4 rest))) =>
                  match hex_value h1, hex_value h2, hex_value h3, hex_value h4 with
                  | Some a, Some b, Some c', Some d =>
                      let cp := (((a * 16 + b) * 16 + c') * 16 + d)%N in
                      if (cp <? 256)%N then cons_char (ascii_of_N cp) (scan_string rest)
                      else None
                  | _, _, _, _ => None
                  end
              | _ => None
              end
            else
              match unescape_char e with
              | Some ch => cons_char ch (scan_string s'')
              | None => None
              end
        end
      else if (N_of_ascii c <? 32)%N then None
      else cons_char c (scan_string s')
  end.

Definition parse_string (s : string) : option (string * string) :=
  match s with
  | String c s' => if Ascii.eqb c dquote then scan_string s' else None
  | EmptyString => None
  end.

(** the members of an object, from the first key on; a key that occurs
    twice keeps its last value, as in Python *)
Fixpoint parse_members (fuel : nat) (s : string) (acc : gmap string string)
  : option (gmap string string * string) :=
  match fuel with
  | O => None
  | S fuel' =>
      match parse_string s with
      | None => None
      | Some (k, s1) =>
          match skip_ws s1 with
          | String c1 s2 =>
              if Ascii.eqb c1 ":" then
                match parse_string (skip_ws s2) with
                | None => None
                | Some (v, s3) =>
                    let acc' := <[k := v]> acc in
                    match skip_ws s3 with
                    | String c2 s4 =>
                        if Ascii.eqb c2 "," then parse_members fuel' (skip_ws s4) acc'
                        else if Ascii.eqb c2 "}" then Some (acc', s4)
                        else None
                    | EmptyString => None
                    end
                end
              else None
          | EmptyString => None
          end
      end
  end.

Definition at_end (s : string) : bool := String.eqb (skip_ws s) "".

Definition loads (s : string) : option (gmap string string) :=
  match skip_ws s with
  | String c s1 =>
      if Ascii.eqb c "{" then
        match skip_ws s1 with
        | String c' s2 =>
            if Ascii.eqb c' "}" then (if at_end s2 then Some ∅ else None)
            else match parse_members (String.length s) (String c' s2) ∅ with
                 | Some (d, s3) => if at_end s3 then Some d else None
                 | None => None
                 end
        | EmptyString => None
        end
      else None
  | EmptyString => None
  end.

(** *** What the proofs speak of *)

(** the text that follows the first member of a rendered object *)
Fixpoint tail_text (items : list (string * string)) (tail : string) : string :=
  match items with
  | [] => newline +:+ "}" +:+ tail
  | kv :: rest => "," +:+ newline +:+ "    " +:+ item_core kv +:+ tail_text rest tail
  end.

(** [d[k] = v] for a member [(k, v)] *)
Definition put_item (acc : gmap string string) (kv : string * string) : gmap string string :=
  <[fst kv := snd kv]> acc.

End Json.

(* ===================================================================== *)
(** ** hcpasl/m0_mt_correction.py: the ledger and the asl-to-structural
       registration *)
(* ===================================================================== *)

Module M0MtCorrection.
Import PyStr PathLib PyMonad.

(** *** The ledger *)

(** The file system maps the text of a path to the text of the file; a
    path names a file when it is in the map.  Directories are not
    modelled: opening an absent file for writing creates it. *)

(** [load_json(subject_dir)]; the state is the file system, and
    [json_name.exists()] holds when the path is in it *)
Definition load_json (subject_dir : Path) : Py (gmap string string) (gmap string string) :=
  let json_name := subject_dir </> "ASL/ASL.json" in
  (fs <- get ;;
   match fs !! str json_name with
   | Some text =>
       match Json.loads text with
       | Some json_dict => ret json_dict
       | None => raise JSONDecodeError
       end
   | None =>
       raise (Exception ("File " +:+ str json_name +:+ " does not exist."
                         +:+ "Please run initial_processing() first."))
   end)%py.

(** The state of [update_json]: the dict object that [old_dict] refers
    to, which the function mutates, and the file system. *)
Record LedgerState : Type := MkLedgerState {
  old_dict : gmap string string;
  files : gmap string string
}.

(** [update_json(new_dict, old_dict)] *)
Definition update_json (new_dict : gmap string string) : Py LedgerState unit :=
  (modify (fun st => {| old_dict := new_dict ∪ old_dict st; files := files st |}) ;;
   st <- get ;;
   match old_dict st !! "json_name" with
   | None => raise (KeyError "json_name")
   | Some json_name =>
       modify (fun st =>
                 {| old_dict := old_dict st;
                    files := <[str (of_str json_name) := Json.dumps (old_dict st)]> (files st) |})
   end)%py.

(** the value most recently put for a key by a sequence of calls of
    [update_json], the first call first *)
Fixpoint last_put (puts : list (gmap string string)) (k : string) : option string :=
  match puts with
  | [] => None
  | new_dict :: rest =>
      match last_put rest k with
      | Some v => Some v
      | None => new_dict !! k
      end
  end.

(** the ledger of the state is the one of the subject, and the ledger
    file of the subject holds its text *)
Definition persisted (subject_dir : Path) (st : LedgerState) : Prop :=
  (exists p, old_dict st !! "json_name" = Some p
             /\ of_str p = subject_dir </> "ASL/ASL.json")
  /\ files st !! str (subject_dir </> "ASL/ASL.json") = Some (Json.dumps (old_dict st)).

(** *** [generate_asl2struct] *)

(** A text file that holds a matrix is modelled by the matrix of the
    numbers written in it. *)
Definition Matrix : Type := list (list Q).

Definition round_half_even (q : Q) : Z :=
  let f := Qfloor q in
  match Qcompare (q - inject_Z f) (1 # 2) with
  | Lt => f
  | Gt => f + 1
  | Eq => if Z.even f then f else f + 1
  end.

(** the number that ['%.5f'] prints *)
Definition round5 (q : Q) : Q := Qmake (round_half_even (q * inject_Z 100000)) 100000.

Inductive IOEvent : Type :=
| EvShell (cmd : string)
| EvFromFlirt (path : string)
| EvLoadtxt (path : string)
| EvSavetxt (path : string) (fmt : string).

Record RegWorld : Type := MkRegWorld {
  mat_files : gmap string Matrix;
  environ : gmap string string;
  cwd : string;
  io_log : list IOEvent
}.

Definition log_io (e : IOEvent) : Py RegWorld unit :=
  modify (fun w => {| mat_files := mat_files w; environ := environ w; cwd := cwd w;
                      io_log := io_log w ++ [e] |}).

Definition set_mat_files (f : gmap string Matrix -> gmap string Matrix) : Py RegWorld unit :=
  modify (fun w => {| mat_files := f (mat_files w); environ := environ w; cwd := cwd w;
                      io_log := io_log w |}).

(** [os.chdir(d)] *)
Definition chdir (d : string) : Py RegWorld unit :=
  modify (fun w => {| mat_files := mat_files w; environ := environ w; cwd := d;
                      io_log := io_log w |}).

(** [os.environ[k] = v] *)
Definition environ_set (k v : string) : Py RegWorld unit :=
  modify (fun w => {| mat_files := mat_files w; environ := <[k := v]> (environ w);
                      cwd := cwd w; io_log := io_log w |}).

Fixpoint rstrip_slash (s : string) : string :=
  match s with
  | EmptyString => ""
  | String c s' =>
      match rstrip_slash s' with
      | EmptyString => if Ascii.eqb c "/" then "" else String c ""
      | r => String c r
      end
  end.

(** [os.path.split(p)] *)
Definition op_split (p : string) : string * string :=
  match split "/" p with
  | [] | [_] => ("", p)
  | segs =>
      let head := join "/" (removelast segs) +:+ "/" in
      (match rstrip_slash head with
       | EmptyString => head
       | h => h
       end, List.last segs "")
  end.

(** [np.loadtxt(path)] *)
Definition loadtxt (path : string) : Py RegWorld Matrix :=
  (log_io (EvLoadtxt path) ;;
   w <- get ;;
   match mat_files w !! path with
   | Some m => ret m
   | None => raise (OSError path)
   end)%py.

(** [np.savetxt(path, arr, fmt='%.5f')] *)
Definition savetxt_5f (path : string) (arr : Matrix) : Py RegWorld unit :=
  (log_io (EvSavetxt path "%.5f") ;;
   set_mat_files (fun fs => <[path := List.map (List.map round5) arr]> fs))%py.

(** [np.savetxt(path, arr)]: the default format prints every digit *)
Definition savetxt (path : string) (arr : Matrix) : Py RegWorld unit :=
  (log_io (EvSavetxt path "%.18e") ;;
   set_mat_files (fun fs => <[path := arr]> fs))%py.

Section Registration.

(** What the sources take from outside: the registration objects of
    regtricks, its reading of a FLIRT matrix (which raises [RuntimeError]
    with a message when it rejects the matrix), its writing of one, and
    what a shell command does to the matrix files. *)
Variable Registration : Type.
Variable flirt_matrix : Matrix -> string -> string -> string + Registration.
Variable to_flirt : Registration -> string -> string -> Matrix.
Variable shell : string -> gmap string Matrix -> gmap string Matrix.

(** [rt.Registration.from_flirt(path, src, ref)] *)
Definition from_flirt (path src ref : string) : Py RegWorld Registration :=
  (log_io (EvFromFlirt path) ;;
   w <- get ;;
   match mat_files w !! path with
   | None => raise (OSError path)
   | Some m =>
       match flirt_matrix m src ref with
       | inl msg => raise (RuntimeError msg)
       | inr reg => ret reg
       end
   end)%py.

(** [subprocess.run(cmd, shell=True)] *)
Definition run_shell (cmd : string) : Py RegWorld unit :=
  (log_io (EvShell cmd) ;; set_mat_files (shell cmd))%py.

(** [generate_asl2struct(asl_vol0, struct, fsdir, reg_dir)].  The two
    [print] calls of the handler are not modelled. *)
Definition generate_asl2struct (asl_vol0 struct fsdir reg_dir : string)
  : Py RegWorld unit :=
  (let new_sd := fst (op_split fsdir) in
   let sid := snd (op_split fsdir) in
   w0 <- get ;;
   let old_sd := environ w0 !! "SUBJECTS_DIR" in
   let pwd := cwd w0 in
   let orig_mgz := op_joins fsdir ["mri"; "orig.mgz"] in
   chdir reg_dir ;;
   let omat_path := op_join reg_dir "asl2struct.mat" in
   environ_set "SUBJECTS_DIR" new_sd ;;
   let cmd := "$FREESURFER_HOME/bin/bbregister --s " +:+ sid
              +:+ " --mov " +:+ asl_vol0 +:+ " --t2 " in
   let cmd := cmd +:+ "--reg asl2orig_mgz_initial_bbr.dat --fslmat " +:+ omat_path
              +:+ " --init-fsl" in
   run_shell cmd ;;
   asl2orig_fsl <-
     try_except_RuntimeError
       (from_flirt omat_path asl_vol0 orig_mgz)
       (fun e =>
          (* final row != [0 0 0 1], round to 5 d.p. and try again *)
          arr <- loadtxt omat_path ;;
          savetxt_5f omat_path arr ;;
          from_flirt omat_path asl_vol0 orig_mgz) ;;
   chdir pwd ;;
   match old_sd with
   | Some sd => if negb (String.eqb sd "") then environ_set "SUBJECTS_DIR" sd else ret tt
   | None => ret tt
   end ;;
   let asl2struct_fsl := to_flirt asl2orig_fsl asl_vol0 struct in
   savetxt (op_join reg_dir "asl2struct.mat") asl2struct_fsl)%py.

End Registration.

(** Observations on the log *)
Definition is_import (e : IOEvent) : bool :=
  match e with EvFromFlirt _ => true | _ => false end.

Definition is_rounding (e : IOEvent) : bool :=
  match e with EvSavetxt _ fmt => String.eqb fmt "%.5f" | _ => false end.

(** A reading of FLIRT matrices for experiments: the matrix itself, when
    it has four rows and its last row is 0 0 0 1; the images are not
    looked at. *)
Definition example_flirt_matrix (m : Matrix) (src ref : string) : string + Matrix :=
  match m with
  | [_; _; _; [a; b; c; d]] =>
      if Qeq_bool a 0 && Qeq_bool b 0 && Qeq_bool c 0 && Qeq_bool d 1
      then inr m
      else inl "last row must be 0 0 0 1"
  | _ => inl "not a 4x4 matrix"
  end.

(** Two matrices that bbregister may leave: the last row of the first is
    0 0 0 1 after rounding to 5 decimal places, the last row of the second
    is not. *)
Definition near_affine : Matrix :=
  [ [1; 0; 0; 2.5]; [0; 1; 0; -1.25]; [0; 0; 1; 0];
    [0.000000001; 0; 0; 0.999999999] ]%Q.

Definition not_affine : Matrix :=
  [ [1; 0; 0; 2.5]; [0; 1; 0; -1.25]; [0; 0; 1; 0];
    [0; 0; 0.5; 1] ]%Q.

End M0MtCorrection.

(* ===================================================================== *)
(** ** hcpasl/asl_perfusion.py *)
(* ===================================================================== *)

Module AslPerfusion.
Import PyStr PathLib PyMonad M0MtCorrection.

(** [d[k]] *)
Definition getitem {S} (d : gmap string string) (k : string) : Py S string :=
  match d !! k with
  | Some v => ret v
  | None => raise (KeyError k)
  end.

(** a computation on the file system, run on the world of a process state *)
Definition on_world {W A} (m : Py W A) : Py (Proc W) A :=
  fun st =>
    let '(r, w') := m (world st) in (r, {| world := w'; trace := trace st |}).

(** [update_json(new_dict, d)] where [d] is a local dict: the mutated dict
    is returned *)
Definition update_local (new_dict d : gmap string string)
  : Py (Proc (gmap string string)) (gmap string string) :=
  fun st =>
    let '(r, ls) := update_json new_dict {| old_dict := d; files := world st |} in
    (match r with Ok _ => Ok (old_dict ls) | Raise e => Raise e end,
     {| world := files ls; trace := trace st |}).

(** the extension for the pipeline without banding correction *)
Definition ext_of (nobc : bool) : option string :=
  if nobc then Some "_nobc" else None.

(** the paths that [run_oxford_asl] derives from [structasl_dir] and [ext] *)
Definition oxford_dir (structasl_dir : Path) (ext : option string) : Path :=
  structasl_dir </> ("TIs" +:+ format_opt ext +:+ "/OxfordASL").
Definition pvgm_name (structasl_dir : Path) (ext : option string) : Path :=
  structasl_dir </> ("PVEs" +:+ format_opt ext +:+ "/pve_GM.nii.gz").
Definition pvwm_name (structasl_dir : Path) (ext : option string) : Path :=
  structasl_dir </> ("PVEs" +:+ format_opt ext +:+ "/pve_WM.nii.gz").
Definition calib_name (structasl_dir : Path) (ext : option string) : Path :=
  structasl_dir </> ("Calib/Calib0/DistCorr" +:+ format_opt ext +:+ "/calib0_dcorr.nii.gz").
Definition brain_mask (structasl_dir : Path) (ext : option string) : Path :=
  structasl_dir
  </> ("reg" +:+ format_opt ext +:+ "/ASL_grid_T1w_acpc_dc_restore_brain_mask.nii.gz").

(** the argument list [cmd] of [run_oxford_asl] *)
Definition oxford_asl_cmd (structasl_dir : Path) (ext : option string)
    (beta_perf T1w_acpc T1w_acpc_brain : string) : list string :=
  [ "oxford_asl";
    "-i " +:+ beta_perf;
    "-o " +:+ str (oxford_dir structasl_dir ext);
    "--casl";
    "--ibf=tis";
    "--iaf=diff";
    "--tis=1.7,2.2,2.7,3.2,3.7";
    "--rpts=6,6,6,10,15";
    "--fixbolus";
    "--bolus=1.5";
    "--pvcorr";
    "-c " +:+ str (calib_name structasl_dir ext);
    "--cmethod=single";
    "-m " +:+ str (brain_mask structasl_dir ext);
    "--pvgm=" +:+ str (pvgm_name structasl_dir ext);
    "--pvwm=" +:+ str (pvwm_name structasl_dir ext);
    "--te=19";
    "--debug";
    "--spatial=off";
    "--slicedt=0.059";
    "-s " +:+ T1w_acpc;
    "--sbrain=" +:+ T1w_acpc_brain;
    "--sliceband=10" ].

Section Run.
Variable exec : list string -> gmap string string -> Z * gmap string string.

(** [run_oxford_asl(subject_dir, nobc=False)]; [subprocess.run] with
    [shell=True] hands the joined command to the shell *)
Definition run_oxford_asl (subject_dir : Path) (nobc : bool)
  : Py (Proc (gmap string string)) unit :=
  ((* load subject's json *)
   json_dict <- on_world (load_json subject_dir) ;;
   (* extension for pipeline without banding correction *)
   let ext := if nobc then Some "_nobc" else None in
   (* directory for oxford_asl results *)
   structasl <- getitem json_dict "structasl" ;;
   let structasl_dir := of_str structasl in
   beta_perf <- getitem json_dict "beta_perf" ;;
   T1w_acpc <- getitem json_dict "T1w_acpc" ;;
   T1w_acpc_brain <- getitem json_dict "T1w_acpc_brain" ;;
   let cmd := oxford_asl_cmd structasl_dir ext beta_perf T1w_acpc T1w_acpc_brain in
   _ <- subprocess_run exec ["/bin/sh"; "-c"; join " " cmd] false ;;
   (* add oxford_asl directory to the json *)
   let important_names : gmap string string :=
     {[ "oxford_asl" := str (oxford_dir structasl_dir ext) ]} in
   _ <- update_local important_names json_dict ;;
   ret tt)%py.

End Run.

End AslPerfusion.

(* ===================================================================== *)
(** ** The scripts: re-entrancy guards *)
(* ===================================================================== *)

(** The two scripts are modelled by their control skeleton.  What a block
    computes (resampling by regtricks, saving by nibabel, FSL and
    FreeSurfer programs) is outside the sources; a block body is one
    action that recomputes its output, reading an input is one action,
    and each may raise.  The log records the existence checks with their
    answers and the actions, in the order of execution. *)

Module Stage.
Import PyMonad.

Inductive Action : Type :=
| Makedirs (d : string)
| LoadInput (p : string)
| Recompute (output : string).

Inductive StepEvent : Type :=
| Checked (p : string) (found : bool)
| Did (a : Action).

Record Run (W : Type) : Type := MkRun {
  rworld : W;
  rlog : list StepEvent
}.
Arguments MkRun {W}.
Arguments rworld {W}.
Arguments rlog {W}.

Section World.
Context {W : Type}.
Variable path_exists : string -> W -> bool.
Variable perform : Action -> W -> option PyExc * W.

(** [op.exists(p)] *)
Definition op_exists (p : string) : Py (Run W) bool :=
  fun r =>
    let found := path_exists p (rworld r) in
    (Ok found, {| rworld := rworld r; rlog := rlog r ++ [Checked p found] |}).

Definition act (a : Action) : Py (Run W) unit :=
  fun r =>
    let '(e, w') := perform a (rworld r) in
    (match e with None => Ok tt | Some ex => Raise ex end,
     {| rworld := w'; rlog := rlog r ++ [Did a] |}).

End World.

(** [if c: body] *)
Definition when {S} (c : bool) (body : Py S unit) : Py S unit :=
  if c then body else ret tt.

(** Observations on the log *)
Definition is_check_of (p : string) (e : StepEvent) : bool :=
  match e with
  | Checked q _ => String.eqb p q
  | Did _ => false
  end.

(** Every recomputation of an output that is not in [exempt] comes
    immediately after the check of the existence of that output, and an
    output that was found is recomputed only under [force_refresh]. *)
Definition checked_before (force_refresh : bool) (exempt : list string)
    (log : list StepEvent) : Prop :=
  forall (i : nat) (p : string),
    log !! i = Some (Did (Recompute p)) -> ~ In p exempt ->
    exists (j : nat) (found : bool),
      i = S j /\ log !! j = Some (Checked p found)
      /\ (found = true -> force_refresh = true).

(** the event without the answer of the check *)
Definition forget_found (e : StepEvent) : StepEvent :=
  match e with
  | Checked p _ => Checked p true
  | Did a => Did a
  end.

(** two runs are in the same world and have logged the same events, the
    answers of the checks apart *)
Definition same_run {W : Type} (r1 r2 : Run W) : Prop :=
  rworld r1 = rworld r2
  /\ List.map forget_found (rlog r1) = List.map forget_found (rlog r2).

(** two computations do the same from such runs *)
Definition same_steps {W A : Type} (m1 m2 : Py (Run W) A) : Prop :=
  forall r1 r2, same_run r1 r2 ->
    fst (m1 r1) = fst (m2 r2) /\ same_run (snd (m1 r1)) (snd (m2 r2)).

(** a computation keeps the log in that shape *)
Definition keeps {W A : Type} (force_refresh : bool) (exempt : list string)
    (m : Py (Run W) A) : Prop :=
  forall r, checked_before force_refresh exempt (rlog r) ->
            checked_before force_refresh exempt (rlog (snd (m r))).

(** the outputs whose recomputation was started, in the order of the log *)
Definition recomputed (log : list StepEvent) : list string :=
  omap (fun e => match e with Did (Recompute p) => Some p | _ => None end) log.

(** a computation starts the recomputation of the outputs [outs], in
    this order and of nothing else: of all of them when it returns
    normally, of the first ones when it raises *)
Definition emits {W A : Type} (m : Py (Run W) A) (outs : list string) : Prop :=
  forall r, exists n : nat,
    (n <= length outs)%nat
    /\ recomputed (rlog (snd (m r))) = recomputed (rlog r) ++ firstn n outs
    /\ (forall a, fst (m r) = Ok a -> n = length outs).

(** a computation returns normally from every run *)
Definition returns {W A : Type} (m : Py (Run W) A) : Prop :=
  forall r, exists a, fst (m r) = Ok a.

End Stage.

(** *** scripts/distcorr_warps.py *)

Module DistcorrWarps.
Import PyStr PathLib PyMonad Stage.

(** the parsed command line *)
Record Args : Type := MkArgs {
  study_dir : string;
  sub_id : string;
  grads : string;
  target : string;
  fmap_ap : string;
  fmap_pa : string;
  use_t1 : bool;
  mtname : option string;
  cores : Z;
  interpolation : Z;
  nobandingcorr : bool;
  outdir : string
}.

Section Main.
Context {W : Type}.
Variable path_exists : string -> W -> bool.
Variable perform : Action -> W -> option PyExc * W.
(** [op.abspath], which depends on the working directory *)
Variable abspath : string -> string.

Abbreviation op_exists := (Stage.op_exists path_exists).
Abbreviation act := (Stage.act perform).

Definition sub_base (args : Args) : string :=
  abspath (op_join (study_dir args) (sub_id args)).

Definition t1_asl_dir (args : Args) : string :=
  op_joins (sub_base args) [outdir args; "ASLT1w"].

Definition reg_dir (args : Args) : string := op_join (t1_asl_dir args) "reg".

(** the output of the field-map block, which no check guards *)
Definition fmap_struct_name (args : Args) : string :=
  op_join (op_joins (sub_base args) [outdir args; "ASL"; "topup"; "fmap_struct_reg"])
          "fmapmag_aslstruct.nii.gz".

(** The body of [main] after the command line is parsed and
    [force_refresh] is assigned. *)
Definition main_body (force_refresh : bool) (args : Args) : Py (Run W) unit :=
  (let target := target args in
   let sub_id := sub_id args in
   (* Input, output and intermediate directories *)
   let sub_base := sub_base args in
   let t1_asl_dir := t1_asl_dir args in
   let distcorr_dir := op_joins sub_base [outdir args; "ASL"; "TIs"; "DistCorr"] in
   let reg_dir := reg_dir args in
   let pvs_dir := op_join t1_asl_dir "PVEs" in
   let t1_dir := op_joins sub_base [sub_id +:+ "_V1_MR"; "resources";
                                    "Structural_preproc"; "files";
                                    sub_id +:+ "_V1_MR"; "T1w"] in
   let asl_dir :=
     if negb (nobandingcorr args)
     then op_joins sub_base [outdir args; "ASL"; "TIs"; "STCorr2"]
     else op_joins sub_base [outdir args; "ASL"; "TIs"; "MoCo"] in
   let asl_out_dir := op_joins t1_asl_dir ["TIs"; "DistCorr"] in
   let calib_out_dir :=
     if String.eqb target "structural"
     then op_joins t1_asl_dir ["Calib"; "Calib0"; "DistCorr"]
     else op_joins sub_base [outdir args; "ASL"; "Calib"; "Calib0"; "DistCorr"] in
   for_each [pvs_dir; t1_asl_dir; distcorr_dir; reg_dir; asl_out_dir; calib_out_dir]
            (fun d => act (Makedirs d)) ;;
   (* Images required for processing *)
   let asl :=
     if negb (nobandingcorr args)
     then op_join asl_dir "tis_stcorr.nii.gz"
     else op_join asl_dir "reg_gdc_dc_tis_biascorr.nii.gz" in
   let struct := op_join t1_dir "T1w_acpc_dc_restore.nii.gz" in
   let struct_brain := op_join t1_dir "T1w_acpc_dc_restore_brain.nii.gz" in
   let struct_brain_mask := op_join t1_dir "brainmask_fs.nii.gz" in
   let asl_vol0 := op_join asl_dir "tis_vol1.nii.gz" in
   (found <- op_exists asl_vol0 ;;
    when ((negb found || force_refresh) && String.eqb target "asl")
         (act (Recompute asl_vol0))) ;;
   (* Create ASL-gridded version of T1 image *)
   let t1_asl_grid := op_join reg_dir "ASL_grid_T1w_acpc_dc_restore.nii.gz" in
   (found <- op_exists t1_asl_grid ;;
    when ((negb found || force_refresh) && String.eqb target "asl")
         (act (Recompute t1_asl_grid))) ;;
   (* Create ASL-gridded version of T1 image *)
   let t1_asl_grid_mask :=
     op_join reg_dir "ASL_grid_T1w_acpc_dc_restore_brain_mask.nii.gz" in
   (found <- op_exists t1_asl_grid_mask ;;
    when ((negb found || force_refresh) && String.eqb target "asl")
         (act (Recompute t1_asl_grid_mask))) ;;
   (* MCFLIRT ASL using the calibration as reference *)
   let calib := op_joins sub_base [outdir args; "ASL"; "Calib"; "Calib0"; "calib0.nii.gz"] in
   let asl := op_joins sub_base [outdir args; "ASL"; "TIs"; "tis.nii.gz"] in
   let mcdir := op_joins sub_base [outdir args; "ASL"; "TIs"; "MoCo"; "asln2m0.mat"] in
   act (LoadInput mcdir) ;;
   (* load the gradient distortion correction warp *)
   let gdc_path :=
     op_joins sub_base [outdir args; "ASL"; "gradient_unwarp"; "fullWarp_abs.nii.gz"] in
   act (LoadInput gdc_path) ;;
   (* load the epi distortion correction warp from topup *)
   let dc_path := op_joins sub_base [outdir args; "ASL"; "topup"; "WarpField_01.nii.gz"] in
   act (LoadInput dc_path) ;;
   (* set correct output directory *)
   let distcorr_out_dir :=
     if String.eqb target "structural" then asl_out_dir else distcorr_dir in
   (* get asl to structural registration, via bbregister *)
   let asl2struct_path := op_join reg_dir "asl2struct.mat" in
   (found <- op_exists asl2struct_path ;;
    when ((negb found || force_refresh) && String.eqb target "structural")
         (act (Recompute asl2struct_path))) ;;
   (if String.eqb target "structural" then act (LoadInput asl2struct_path)
    else if String.eqb target "asl"
         then act (LoadInput (op_join calib_out_dir "asl2struct.mat"))
         else ret tt) ;;
   (* Get brain mask in asl space for use with oxford_asl later *)
   let mask_name := op_join reg_dir "asl_vol1_mask_init.nii.gz" in
   (found <- op_exists mask_name ;;
    when ((negb found || force_refresh) && String.eqb target "asl")
         (act (Recompute mask_name))) ;;
   (* Final ASL transforms *)
   let asl_outpath := op_join distcorr_out_dir "tis_distcorr.nii.gz" in
   (found <- op_exists asl_outpath ;;
    when ((negb found || force_refresh) && String.eqb target "structural")
         (act (Recompute asl_outpath))) ;;
   (* Final calibration transforms *)
   let calib_outpath := op_join calib_out_dir "calib0_dcorr.nii.gz" in
   (found <- op_exists calib_outpath ;;
    when ((negb found || force_refresh) && String.eqb target "structural")
         (act (Recompute calib_outpath))) ;;
   (* apply registrations to fmapmag.nii.gz *)
   when (String.eqb target "structural")
        (let fmap_struct_dir :=
           op_joins sub_base [outdir args; "ASL"; "topup"; "fmap_struct_reg"] in
         act (LoadInput (op_join fmap_struct_dir "asl2struct.mat")) ;;
         let fmap_struct_name := op_join fmap_struct_dir "fmapmag_aslstruct.nii.gz" in
         act (Recompute fmap_struct_name)) ;;
   (* apply registrations to satrecov-estimated T1 image *)
   let reg_est_t1_name := op_join reg_dir "mean_T1t_filt.nii.gz" in
   (found <- op_exists reg_est_t1_name ;;
    when ((negb found || force_refresh) && String.eqb target "structural" && use_t1 args)
         (act (Recompute reg_est_t1_name))) ;;
   (* create ti image in asl space *)
   let ti_asl := op_joins sub_base [outdir args; "ASL"; "TIs"; "timing_img.nii.gz"] in
   (found <- op_exists ti_asl ;;
    when ((negb found || force_refresh) && String.eqb target "asl")
         (act (Recompute ti_asl))) ;;
   (* transform ti image into t1 space *)
   let ti_t1 := op_join t1_asl_dir "timing_img.nii.gz" in
   (found <- op_exists ti_t1 ;;
    when ((negb found || force_refresh) && String.eqb target "structural")
         (act (Recompute ti_t1))) ;;
   (* register scaling factors to ASL-gridded T1 space *)
   when (negb (nobandingcorr args))
        (let mt_sfs_calib_name :=
           op_join calib_out_dir "mt_scaling_factors_calibstruct.nii.gz" in
         found <- op_exists mt_sfs_calib_name ;;
         when ((negb found || force_refresh) && String.eqb target "structural")
              (act (Recompute mt_sfs_calib_name))) ;;
   (* Final scaling factors transforms *)
   let sfs_outpath := op_join distcorr_out_dir "combined_scaling_factors.nii.gz" in
   (found <- op_exists sfs_outpath ;;
    when ((negb found || force_refresh) && String.eqb target "structural")
         (act (Recompute sfs_outpath))))%py.

(** [main()], from the parsed arguments on *)
Definition main (args : Args) : Py (Run W) unit :=
  (* For debug, re-use existing intermediate files *)
  let force_refresh := true in
  main_body force_refresh args.

(** The files that the blocks of [main] write for the target ['asl'],
    in the order of the blocks. *)
Definition asl_outputs (args : Args) : list string :=
  let base := op_join (sub_base args) (outdir args) in
  [ op_joins base ["ASL"; "TIs"; if nobandingcorr args then "MoCo" else "STCorr2";
                   "tis_vol1.nii.gz"];
    op_joins base ["ASLT1w"; "reg"; "ASL_grid_T1w_acpc_dc_restore.nii.gz"];
    op_joins base ["ASLT1w"; "reg"; "ASL_grid_T1w_acpc_dc_restore_brain_mask.nii.gz"];
    op_joins base ["ASLT1w"; "reg"; "asl_vol1_mask_init.nii.gz"];
    op_joins base ["ASL"; "TIs"; "timing_img.nii.gz"] ].

(** The files that the blocks of [main] write for the target
    ['structural'], in the order of the blocks. *)
Definition structural_outputs (args : Args) : list string :=
  let base := op_join (sub_base args) (outdir args) in
  [ op_joins base ["ASLT1w"; "reg"; "asl2struct.mat"];
    op_joins base ["ASLT1w"; "TIs"; "DistCorr"; "tis_distcorr.nii.gz"];
    op_joins base ["ASLT1w"; "Calib"; "Calib0"; "DistCorr"; "calib0_dcorr.nii.gz"];
    op_joins base ["ASL"; "topup"; "fmap_struct_reg"; "fmapmag_aslstruct.nii.gz"] ]
  ++ (if use_t1 args then [op_joins base ["ASLT1w"; "reg"; "mean_T1t_filt.nii.gz"]] else [])
  ++ [ op_joins base ["ASLT1w"; "timing_img.nii.gz"] ]
  ++ (if nobandingcorr args then []
      else [op_joins base ["ASLT1w"; "Calib"; "Calib0"; "DistCorr";
                           "mt_scaling_factors_calibstruct.nii.gz"]])
  ++ [ op_joins base ["ASLT1w"; "TIs"; "DistCorr"; "combined_scaling_factors.nii.gz"] ].

(** The files written for a target. *)
Definition outputs (args : Args) : list string :=
  if String.eqb (target args) "asl" then asl_outputs args
  else if String.eqb (target args) "structural" then structural_outputs args
  else [].

End Main.

(** The arguments of a run that registers to the structural image. *)
Definition example_args : Args :=
  {| study_dir := "/study"; sub_id := "HCA6002236"; grads := "/study/coeff.grad";
     target := "structural"; fmap_ap := "/study/AP.nii.gz"; fmap_pa := "/study/PA.nii.gz";
     use_t1 := false; mtname := Some "/study/mt_sfs.txt"; cores := 1;
     interpolation := 3; nobandingcorr := false; outdir := "hcp_asl" |}.

End DistcorrWarps.

(** *** scripts/prepare_t1asl_space.py *)

Module PrepareT1aslSpace.
Import PyStr PathLib PyMonad Stage.

Record Args : Type := MkArgs {
  study_dir : string;
  sub_number : string;
  cores : Z;
  outdir : string
}.

Section Main.
Context {W : Type}.
Variable path_exists : string -> W -> bool.
Variable perform : Action -> W -> option PyExc * W.
Variable abspath : string -> string.

Abbreviation op_exists := (Stage.op_exists path_exists).
Abbreviation act := (Stage.act perform).

Definition sub_base (args : Args) : string :=
  abspath (op_join (study_dir args) (sub_number args)).

(** the partial-volume estimates that the last block writes *)
Definition pve_outputs (args : Args) : list string :=
  let fileroot := op_joins (sub_base args) [outdir args; "ASLT1w"; "PVEs"; "pve"] in
  List.map (fun suffix => fileroot +:+ "_" +:+ suffix +:+ ".nii.gz") ["GM"; "WM"; "CSF"].

Definition main_body (force_refresh : bool) (args : Args) : Py (Run W) unit :=
  (let sub_id := sub_number args in
   let sub_base := sub_base args in
   let t1_dir := op_joins sub_base [sub_id +:+ "_V1_MR"; "resources";
                                    "Structural_preproc"; "files";
                                    sub_id +:+ "_V1_MR"; "T1w"] in
   let t1_asl_dir := op_joins sub_base [outdir args; "ASLT1w"] in
   (* Create ASL-gridded version of T1 image *)
   let t1_asl_grid :=
     op_joins t1_asl_dir ["reg"; "ASL_grid_T1w_acpc_dc_restore.nii.gz"] in
   (found <- op_exists t1_asl_grid ;;
    when (negb found || force_refresh) (act (Recompute t1_asl_grid))) ;;
   (* Create a ventricle CSF mask in T1 ASL space *)
   let ventricle_mask :=
     op_joins sub_base [outdir args; "ASLT1w"; "PVEs"; "vent_csf_mask.nii.gz"] in
   (found <- op_exists ventricle_mask ;;
    when (negb found || force_refresh) (act (Recompute ventricle_mask))) ;;
   (* Estimate PVs in T1 ASL space *)
   let pv_gm := op_joins sub_base [outdir args; "T1w"; "ASL"; "PVEs"; "pve_GM.nii.gz"] in
   (found <- op_exists pv_gm ;;
    when (negb found || force_refresh)
         (for_each (pve_outputs args) (fun p => act (Recompute p)))))%py.

Definition main (args : Args) : Py (Run W) unit :=
  (* for debug, re-use intermediate results *)
  let force_refresh := true in
  main_body force_refresh args.

(** The steps of a run of [main] in which nothing raises (the answers
    of the checks apart): each of the first two blocks checks the file
    that it writes; the last block checks one file and writes three
    others. *)
Definition steps (args : Args) : list StepEvent :=
  let base := op_join (sub_base args) (outdir args) in
  let t1_asl_grid :=
    op_joins base ["ASLT1w"; "reg"; "ASL_grid_T1w_acpc_dc_restore.nii.gz"] in
  let ventricle_mask := op_joins base ["ASLT1w"; "PVEs"; "vent_csf_mask.nii.gz"] in
  let pv_gm := op_joins base ["T1w"; "ASL"; "PVEs"; "pve_GM.nii.gz"] in
  [ Checked t1_asl_grid true; Did (Recompute t1_asl_grid);
    Checked ventricle_mask true; Did (Recompute ventricle_mask);
    Checked pv_gm true ]
  ++ List.map (fun p => Did (Recompute p)) (pve_outputs args).

End Main.

End PrepareT1aslSpace.

(* ===================================================================== *)
(** ** Transforms and transform chains *)
(* ===================================================================== *)

(** The sources obtain transforms, [chain] and [inverse] from the
    regtricks library ([rt.chain], [Registration.inverse]); its code is not
    part of the source tree.  The definitions of this module follow the
    design specification (sections 3 and 4.1). *)

Module TransformChain.

Inductive TransformError : Type :=
| GridMismatchError
| SingularTransformError.

Inductive Outcome (A : Type) : Type :=
| Done (a : A)
| Failed (e : TransformError).
Arguments Done {A} a.
Arguments Failed {A} e.

Definition and_then {A B} (o : Outcome A) (k : A -> Outcome B) : Outcome B :=
  match o with
  | Done a => k a
  | Failed e => Failed e
  end.

Fixpoint all_done {A B} (f : A -> Outcome B) (l : list A) : Outcome (list B) :=
  match l with
  | [] => Done []
  | x :: rest =>
      and_then (f x) (fun y => and_then (all_done f rest) (fun ys => Done (y :: ys)))
  end.

Section Transforms.

(** Grids are compared by name.  Matrices, displacement fields and world
    coordinates are those of the numerical library: what is assumed of
    them is an inverse of a matrix, which fails on a singular one, an
    inverse of a field, and the mappings they denote. *)
Context {Grid Matrix Field Coord : Type} `{EqDecision Grid}.
Variable mat_inv : Matrix -> option Matrix.
Variable field_inv : Field -> Field.
Variable apply_matrix : Matrix -> Coord -> Coord.
Variable apply_field : Field -> Coord -> Coord.

(** Modelled from the spec: the tagged union Transform of section 3
    (Identity, Linear, NonLinear, MotionCorrection), which the sources
    take from regtricks. *)
Inductive Transform : Type :=
| Identity
| Linear (src ref : Grid) (M : Matrix)
| NonLinear (src ref : Grid) (field : Field)
            (intensity_correct : bool) (constrain_jac : Q * Q)
| MotionCorrection (src ref : Grid) (series : list Matrix).

(** Modelled from the spec: the named source grid of a transform
    (section 3); Identity names none. *)
Definition src_grid (t : Transform) : option Grid :=
  match t with
  | Identity => None
  | Linear s _ _ => Some s
  | NonLinear s _ _ _ _ => Some s
  | MotionCorrection s _ _ => Some s
  end.

(** Modelled from the spec: the named reference grid of a transform
    (section 3); Identity names none. *)
Definition ref_grid (t : Transform) : option Grid :=
  match t with
  | Identity => None
  | Linear _ r _ => Some r
  | NonLinear _ r _ _ _ => Some r
  | MotionCorrection _ r _ => Some r
  end.

(** Modelled from the spec: the grids of adjacent transforms (section
    4.1): the reference grid of [a] and the source grid of [b] do not
    disagree; Identity maps any grid onto itself. *)
Definition grids_agree (a b : Transform) : bool :=
  match ref_grid a, src_grid b with
  | Some g, Some h => bool_decide (g = h)
  | _, _ => true
  end.

(** Modelled from the spec: a TransformChain is an ordered list of
    transforms (section 3); in a valid one adjacent transforms agree. *)
Fixpoint valid_chain (c : list Transform) : bool :=
  match c with
  | [] => true
  | a :: rest =>
      match rest with
      | [] => true
      | b :: _ => grids_agree a b && valid_chain rest
      end
  end.

(** Modelled from the spec: [compose(chain, extra)] of section 4.1, which
    appends [extra] without collapsing and fails with GridMismatchError
    when the grids of the adjacent transforms disagree. *)
Definition compose (c : list Transform) (extra : Transform) : Outcome (list Transform) :=
  match last c with
  | Some t => if grids_agree t extra then Done (c ++ [extra]) else Failed GridMismatchError
  | None => Done (c ++ [extra])
  end.

(** Modelled from the spec: [chain(A, B)], apply A's mapping, then B's
    (section 3): the transforms of B composed onto A in order. *)
Fixpoint chain (a b : list Transform) : Outcome (list Transform) :=
  match b with
  | [] => Done a
  | t :: rest => and_then (compose a t) (fun a' => chain a' rest)
  end.

(** Modelled from the spec: inverting a Linear transform fails with
    SingularTransformError on a singular matrix (section 4.1). *)
Definition invert_matrix (M : Matrix) : Outcome Matrix :=
  match mat_inv M with
  | Some M' => Done M'
  | None => Failed SingularTransformError
  end.

(** Modelled from the spec: the inverse of one transform (section 4.1).
    A Linear transform needs a non-singular matrix; a MotionCorrection
    inverts each per-timepoint matrix and keeps the series; a NonLinear
    one inverts the field and keeps the Jacobian clamp. *)
Definition invert_transform (t : Transform) : Outcome Transform :=
  match t with
  | Identity => Done Identity
  | Linear s r M => and_then (invert_matrix M) (fun M' => Done (Linear r s M'))
  | NonLinear s r f ic cj => Done (NonLinear r s (field_inv f) ic cj)
  | MotionCorrection s r series =>
      and_then (all_done invert_matrix series) (fun series' => Done (MotionCorrection r s series'))
  end.

(** Modelled from the spec: [invert(chain)] of section 4.1, which reverses
    the order and inverts each element. *)
Definition invert (c : list Transform) : Outcome (list Transform) :=
  all_done invert_transform (rev c).

(** Modelled from the spec: the mapping of world coordinates that a
    transform denotes at a timepoint (section 4.1, 4D handling: timepoint
    [i] uses the [i]-th element of a MotionCorrection). *)
Definition apply_transform (timepoint : nat) (t : Transform) (x : Coord) : Coord :=
  match t with
  | Identity => x
  | Linear _ _ M => apply_matrix M x
  | NonLinear _ _ f _ _ => apply_field f x
  | MotionCorrection _ _ series =>
      match series !! timepoint with
      | Some M => apply_matrix M x
      | None => x
      end
  end.

Definition apply_chain (timepoint : nat) (c : list Transform) (x : Coord) : Coord :=
  fold_left (fun y t => apply_transform timepoint t y) c x.

End Transforms.

End TransformChain.

(* ===================================================================== *)
(** ** Reference semantics of a checked command sequence *)
(* ===================================================================== *)

(** [checked_run exec w cmds evs res w']: running the commands [cmds] one
    after the other from the world [w], each with [check=True], produces
    the events [evs], the result [res] and the world [w'].  The run stops
    at the first command whose exit status is not zero. *)
Inductive checked_run {W : Type} (exec : list string -> W -> Z * W)
  : W -> list (list string) -> list (Event W) -> Result unit -> W -> Prop :=
| checked_done : forall w, checked_run exec w [] [] (Ok tt) w
| checked_fail : forall w cmd rest status w',
    exec cmd w = (status, w') ->
    status <> 0 ->
    checked_run exec w (cmd :: rest) [MkEvent cmd w status w']
                (Raise (CalledProcessError status cmd)) w'
| checked_step : forall w cmd rest w' evs res w'',
    exec cmd w = (0, w') ->
    checked_run exec w' rest evs res w'' ->
    checked_run exec w (cmd :: rest) (MkEvent cmd w 0 w' :: evs) res w''.

(** the events follow one another: each starts in the world the previous
    one left *)
Fixpoint chained {W : Type} (w : W) (evs : list (Event W)) : Prop :=
  match evs with
  | [] => True
  | e :: rest => ev_before e = w /\ chained (ev_after e) rest
  end.

(* ===================================================================== *)
(** ** The workbench command of the fit driver *)
(* ===================================================================== *)

Module Workbench.

(** the value of the expression [max(x, 0)] *)
Definition clamp_below_zero (x : Q) : Q := if Qle_bool x 0 then 0%Q else x.

(** What the driver relies on from [wb_command -metric-math]: when the
    command [wb_command -metric-math "max(x, 0)" out -var x inp] exits
    with status zero, the metric file [inp] held one value for each
    vertex, and [out] then holds, vertex by vertex, the value of the
    expression.  [read] gives the values a metric file holds. *)
Definition metric_math_contract {W : Type}
    (exec : list string -> W -> Z * W) (read : W -> string -> option (list Q)) : Prop :=
  forall (out inp : string) (w w' : W),
    exec ["wb_command"; "-metric-math"; "max(x, 0)"; out; "-var"; "x"; inp] w = (0, w') ->
    exists data, read w inp = Some data
                 /\ read w' out = Some (List.map clamp_below_zero data).

(** A world for examples: the metric files by name.  The estimator
    writes the given values to [mean_ftiss.func.gii] in its output
    directory, and fails when asked for the output directory [fail_at]. *)
Definition example_exec (estimate : list Q) (fail_at : string)
    (cmd : list string) (fs : gmap string (list Q)) : Z * gmap string (list Q) :=
  match cmd with
  | ["wb_command"; "-metric-math"; "max(x, 0)"; out; "-var"; "x"; inp] =>
      match fs !! inp with
      | Some data => (0, <[out := List.map clamp_below_zero data]> fs)
      | None => (255, fs)
      end
  | prog :: args =>
      if String.eqb prog "fabber_asl" then
        match AnalysisOnSurface.flag_values "--output=" args with
        | [dir] =>
            if String.eqb dir fail_at then (1, fs)
            else (0, <[dir +:+ "/mean_ftiss.func.gii" := estimate]> fs)
        | _ => (1, fs)
        end
      else (127, fs)
  | [] => (127, fs)
  end.

End Workbench.

(* ===================================================================== *)
(** ** Calls into the imaging libraries *)
(* ===================================================================== *)

(** The calls of nibabel, regtricks and [create_dirs] that read or write
    files.  What a call does to the file system, and whether it raises,
    is given from outside; the images themselves are not part of the
    file system of the model. *)

Module Lib.
Import PyMonad.

Inductive LibCall : Type :=
| CreateDirs (dirs : list string)          (* create_dirs(dirs) *)
| NbLoad (path : string)                   (* nb.load(path) *)
| ToFilename (path : string)               (* gii.to_filename(path) *)
| FromFlirt (mat src ref : string)         (* rt.Registration.from_flirt(mat, src, ref) *)
| ApplyToImage (src ref : string)          (* reg.apply_to_image(src, ref, ...) *)
| NbSave (path : string).                  (* nb.save(img, path) *)

Section Call.
Variable lib : LibCall -> gmap string string -> option PyExc * gmap string string.

Definition call (c : LibCall) : Py (Proc (gmap string string)) unit :=
  fun st =>
    let '(e, w') := lib c (world st) in
    (match e with None => Ok tt | Some ex => Raise ex end,
     {| world := w'; trace := trace st |}).

End Call.

(** [p.exists()]: a path names a file when it is in the file system *)
Definition path_exists (p : Path) : Py (Proc (gmap string string)) bool :=
  fun st => (Ok (bool_decide (is_Some (world st !! PathLib.str p))), st).

(** The ledger of a subject for experiments, and a file system that
    holds it. *)
Definition example_ledger : gmap string string :=
  list_to_map
    [ ("json_name", "/s/ASL/ASL.json");
      ("oxford_asl", "/s/T1w/ASL/TIs/OxfordASL");
      ("L_mid", "/s/L.midthickness.surf.gii");
      ("L_pial", "/s/L.pial.surf.gii");
      ("L_white", "/s/L.white.surf.gii");
      ("R_mid", "/s/R.midthickness.surf.gii");
      ("R_pial", "/s/R.pial.surf.gii");
      ("R_white", "/s/R.white.surf.gii") ].

Definition example_files : gmap string string :=
  {[ "/s/ASL/ASL.json" := Json.dumps example_ledger ]}.

End Lib.

(* ===================================================================== *)
(** ** hcpasl/analysis_on_surface.py: averaging and projection *)
(* ===================================================================== *)

Module SurfaceAnalysis.
Import PyStr PathLib PyMonad M0MtCorrection AslPerfusion AnalysisOnSurface Lib.

Definition SIDES : list string := ["L"; "R"].

(** [strip_suffixes(path)] *)
Definition strip_suffixes (path : Path) : string :=
  let name := name path in
  let name := hd "" (split "." name) in
  name.

(** *** The averaging of the repeats *)

(** [np.cumsum(l)] *)
Fixpoint cumsum_from (acc : Z) (l : list Z) : list Z :=
  match l with
  | [] => []
  | x :: rest => (acc + x) :: cumsum_from (acc + x) rest
  end.

Definition cumsum (l : list Z) : list Z := cumsum_from 0 l.

(** [l[x:y]]: an index below zero counts from the end, and both indices
    are clipped to the length *)
Definition slice_index (n i : Z) : Z :=
  if i <? 0 then Z.max (i + n) 0 else Z.min i n.

Definition py_slice {A : Type} (x y : Z) (l : list A) : list A :=
  let n := Z.of_nat (length l) in
  let lo := slice_index n x in
  let hi := slice_index n y in
  firstn (Z.to_nat (hi - lo)) (skipn (Z.to_nat lo) l).

Definition Qsum (l : list Q) : Q := fold_right Qplus 0%Q l.

(** [a.mean()]; numbers are rationals, and the mean of no number, which
    numpy gives as [nan], is [None] *)
Definition mean (l : list Q) : option Q :=
  match l with
  | [] => None
  | _ => Some (Qsum l / inject_Z (Z.of_nat (length l)))%Q
  end.

(** the windows [zip(cum_rpts - rpts, cum_rpts)] of [average_tis] *)
Definition windows (rpts : list Z) : list (Z * Z) :=
  let cum_rpts := cumsum rpts in
  combine (zip_with Z.sub cum_rpts rpts) cum_rpts.

(** [mean_func] of [average_tis]: for the time series of each vertex
    (a row of [func_data]), the mean over each window *)
Definition mean_func (rpts : list Z) (func_data : list (list Q))
  : list (list (option Q)) :=
  List.map (fun row => List.map (fun '(x, y) => mean (py_slice x y row)) (windows rpts))
           func_data.

(** consecutive pieces of a list, of the given lengths *)
Fixpoint chunks {A : Type} (sizes : list nat) (l : list A) : list (list A) :=
  match sizes with
  | [] => []
  | n :: rest => firstn n l :: chunks rest (skipn n l)
  end.

Section Effects.
Variable exec : list string -> gmap string string -> Z * gmap string string.
Variable lib : LibCall -> gmap string string -> option PyExc * gmap string string.

Abbreviation call := (Lib.call lib).

(** [load_functional(filename)] *)
Definition load_functional (filename : string) : Py (Proc (gmap string string)) unit :=
  call (NbLoad filename).

(** [write_func_data(fname, vertex_data, surf_gii, meta)] *)
Definition write_func_data (fname : string) : Py (Proc (gmap string string)) unit :=
  call (ToFilename fname).

(** [average_tis(fname, sname, rpts, oname)]: the files read and
    written; the array written is [mean_func rpts func_data] *)
Definition average_tis (fname sname : string) (rpts : list Z) (oname : string)
  : Py (Proc (gmap string string)) unit :=
  ((* load files *)
   load_functional fname ;;
   call (NbLoad sname) ;;
   (* save image *)
   write_func_data oname)%py.

(** the two workbench commands of [surface_analysis] *)
Definition ribbon_cmd (volume mid_name out white_name pial_name : string) : list string :=
  [ "wb_command";
    "-volume-to-surface-mapping";
    volume;
    mid_name;
    out;
    "-ribbon-constrained";
    white_name;
    pial_name ].

Definition enclosing_cmd (volume mid_name out : string) : list string :=
  [ "wb_command";
    "-volume-to-surface-mapping";
    volume;
    mid_name;
    out;
    "-enclosing" ].

(** [surface_analysis(subject_dir)]; the [print] calls are not modelled *)
Definition surface_analysis (subject_dir : string)
  : Py (Proc (gmap string string)) unit :=
  ((* debugging *)
   let force_refresh := true in
   (* argument handling *)
   let subject_dir := of_str subject_dir in
   (* load json *)
   json_dict <- on_world (load_json subject_dir) ;;
   (* project the beta_perf series *)
   let beta_perf := subject_dir </> "T1w/ASL/TIs/Betas/beta_perf.nii.gz" in
   let projected_beta_dir := parent beta_perf </> "projected_betas" in
   let stripped_beta_perf := strip_suffixes beta_perf in
   call (CreateDirs [str projected_beta_dir]) ;;
   for_each SIDES (fun side =>
     (* surface names *)
     mid_name <- getitem json_dict (side +:+ "_mid") ;;
     pial_name <- getitem json_dict (side +:+ "_pial") ;;
     white_name <- getitem json_dict (side +:+ "_white") ;;
     (* projected beta_perf name *)
     let proj_perf_name :=
       projected_beta_dir </> (side +:+ "_" +:+ stripped_beta_perf +:+ ".func.gii") in
     found <- path_exists proj_perf_name ;;
     Stage.when (negb found || force_refresh)
       (_ <- subprocess_run exec
               (ribbon_cmd (str beta_perf) mid_name (str proj_perf_name)
                           white_name pial_name) false ;;
        ret tt)) ;;
   (* obtain surface mean *)
   for_each SIDES (fun side =>
     let perf_name :=
       projected_beta_dir </> (side +:+ "_" +:+ stripped_beta_perf +:+ ".func.gii") in
     let mean_name :=
       projected_beta_dir </> (side +:+ "_" +:+ stripped_beta_perf +:+ "_mean.func.gii") in
     surf_name <- getitem json_dict (side +:+ "_mid") ;;
     found <- path_exists mean_name ;;
     Stage.when (negb found || force_refresh)
       (average_tis (str perf_name) surf_name REPEATS (str mean_name))) ;;
   (* reformat projected results to be in the form that fabber expects *)
   for_each SIDES (fun side =>
     let perf_name :=
       projected_beta_dir </> (side +:+ "_" +:+ stripped_beta_perf +:+ ".func.gii") in
     surf_name <- getitem json_dict (side +:+ "_mid") ;;
     load_functional (str perf_name) ;;
     call (NbLoad surf_name) ;;
     write_func_data (str perf_name)) ;;
   (* project the timing image *)
   let tiimg := subject_dir </> "T1w/ASL/timing_img.nii.gz" in
   for_each SIDES (fun side =>
     (* surface names *)
     mid_name <- getitem json_dict (side +:+ "_mid") ;;
     pial_name <- getitem json_dict (side +:+ "_pial") ;;
     white_name <- getitem json_dict (side +:+ "_white") ;;
     (* projected beta_perf name *)
     let proj_tiimg_name := parent tiimg </> (side +:+ "_timing.func.gii") in
     found <- path_exists proj_tiimg_name ;;
     Stage.when (negb found || force_refresh)
       (_ <- subprocess_run exec
               (enclosing_cmd (str tiimg) mid_name (str proj_tiimg_name)) false ;;
        ret tt)) ;;
   (* reformat projected tiimg to be in the form that fabber expects *)
   for_each SIDES (fun side =>
     let tiimg_name := parent tiimg </> (side +:+ "_timing.func.gii") in
     surf_name <- getitem json_dict (side +:+ "_mid") ;;
     load_functional (str tiimg_name) ;;
     call (NbLoad surf_name) ;;
     write_func_data (str tiimg_name)) ;;
   (* run fabber *)
   for_each SIDES (fun side =>
     let perf_name :=
       projected_beta_dir </> (side +:+ "_" +:+ stripped_beta_perf +:+ ".func.gii") in
     let mean_name :=
       projected_beta_dir </> (side +:+ "_" +:+ stripped_beta_perf +:+ "_mean.func.gii") in
     surf_name <- getitem json_dict (side +:+ "_mid") ;;
     let tiimg_name := parent tiimg </> (side +:+ "_timing.func.gii") in
     let out_dir := projected_beta_dir </> (side +:+ "_basil") in
     call (CreateDirs [str out_dir]) ;;
     do_basil exec perf_name mean_name surf_name tiimg_name out_dir))%py.

End Effects.

(** The ten commands of [do_basil] for a hemisphere of a subject whose
    mid-thickness surface is [surf_name]. *)
Definition basil_plan (subject_dir : Path) (side surf_name : string) : list (list string) :=
  let betas := subject_dir </> "T1w/ASL/TIs/Betas/projected_betas" in
  let perf_name := betas </> (side +:+ "_beta_perf.func.gii") in
  let mean_name := betas </> (side +:+ "_beta_perf_mean.func.gii") in
  let tiimg_name := subject_dir </> ("T1w/ASL/" +:+ side +:+ "_timing.func.gii") in
  let out_dir := betas </> (side +:+ "_basil") in
  flat_map (fun i => [ it_command perf_name mean_name surf_name tiimg_name out_dir i;
                       threshold_cmd out_dir i ])
           (range 5).

End SurfaceAnalysis.

(* ===================================================================== *)
(** ** hcpasl/projection.py *)
(* ===================================================================== *)

Module Projection.
Import PyStr PathLib PyMonad M0MtCorrection AslPerfusion Lib.

Section Effects.
Variable exec : list string -> gmap string string -> Z * gmap string string.
Variable lib : LibCall -> gmap string string -> option PyExc * gmap string string.

Abbreviation call := (Lib.call lib).

(** [project_to_surface(subject_dir, target='structural')];
    [mp.cpu_count()] and the interpolation order do not appear *)
Definition project_to_surface (subject_dir : Path) (target : string)
  : Py (Proc (gmap string string)) unit :=
  ((* load subject's json *)
   json_dict <- on_world (load_json subject_dir) ;;
   (* perfusion calib and variance calib *)
   oxford_asl <- getitem json_dict "oxford_asl" ;;
   let oxasl_dir := of_str oxford_asl in
   let pc_name := oxasl_dir </> "native_space/perfusion.nii.gz" in
   let vc_name := oxasl_dir </> "native_space/perfusion_var.nii.gz" in
   (* if in ASL space, need to register to T1w *)
   names <-
     (if String.eqb target "asl" then
        let ref := subject_dir </> "T1w/ASL/reg/ASL_grid_T1w_acpc_dc_restore.nii.gz" in
        let asl_t1_name := subject_dir </> "T1w/T1w_acpc_dc_restore.nii.gz" in
        call (FromFlirt (str (parent oxasl_dir </> "DistCorr/asl2struct.mat"))
                        (str pc_name) (str asl_t1_name)) ;;
        call (ApplyToImage (str pc_name) (str ref)) ;;
        let pc_name := parent pc_name </> "asl_t1_perfusion.nii.gz" in
        call (NbSave (str pc_name)) ;;
        call (ApplyToImage (str vc_name) (str ref)) ;;
        let vc_name := parent vc_name </> "asl_t1_perfusion_var.nii.gz" in
        call (NbSave (str vc_name)) ;;
        ret [pc_name; vc_name]
      else ret [pc_name; vc_name]) ;;
   (* create directory for surface results *)
   let projection_dir := oxasl_dir </> "SurfaceResults32k" in
   call (CreateDirs [str projection_dir]) ;;
   let sides := ["L"; "R"] in
   for_each (list_prod names sides) (fun '(name, side) =>
     (* surface file names *)
     mid_name <- getitem json_dict (side +:+ "_mid") ;;
     pial_name <- getitem json_dict (side +:+ "_pial") ;;
     white_name <- getitem json_dict (side +:+ "_white") ;;
     (* get stem name *)
     let stem := strip ".nii" (stem name) in
     (* save name *)
     let savename := projection_dir </> (side +:+ "_" +:+ stem +:+ ".func.gii") in
     let cmd :=
       [ "wb_command";
         "-volume-to-surface-mapping";
         str name;
         mid_name;
         str savename;
         "-ribbon-constrained";
         white_name;
         pial_name ] in
     _ <- subprocess_run exec cmd false ;;
     ret tt))%py.

End Effects.

End Projection.

(* ===================================================================== *)
(** ** scripts/distcorr_warps.py: the timing image and the field map *)
(* ===================================================================== *)

Module DistcorrImages.
Import PyStr PathLib PyMonad.

(** The exceptions of the interpreter and of numpy that these functions
    can raise. *)
Inductive BuiltinError : Type :=
| ZeroDivisionError
| ValueError
| TypeError.

(** An array: its shape and its entries by index.  Numbers are
    rationals. *)
Record ndarray : Type := MkArray {
  shape : list nat;
  item : list nat -> Q
}.

(** [np.arange(0, n)] *)
Definition arange (n : Z) : list Z := range n.

(** [np.tile(a, reps)] for a one-dimensional [a] and an integer [reps]:
    an empty array is returned as it is; a negative number of
    repetitions of a non-empty array is an error *)
Definition tile (a : list Z) (reps : Z) : BuiltinError + list Z :=
  match a with
  | [] => inr []
  | _ => if reps <? 0 then inl ValueError
         else inr (concat (repeat a (Z.to_nat reps)))
  end.

(** [a.reshape(1, 1, n, 1)] for a one-dimensional [a] *)
Definition reshape_11n1 (a : list Z) (n : nat) : BuiltinError + ndarray :=
  if Nat.eqb (length a) n
  then inr {| shape := [1; 1; n; 1]%nat;
              item := fun idx => inject_Z (nth (nth 2 idx 0%nat) a 0) |}
  else inl ValueError.

(** [np.tile(x, size)] for a number [x] and the size of an image *)
Definition full (x : Q) (size : nat * nat * nat) : ndarray :=
  let '(nx, ny, nz) := size in
  {| shape := [nx; ny; nz]; item := fun _ => x |}.

(** [np.array(arrays)] for arrays of one shape *)
Definition stack (arrays : list ndarray) : ndarray :=
  match arrays with
  | [] => {| shape := [0%nat]; item := fun _ => 0%Q |}
  | a :: _ =>
      {| shape := length arrays :: shape a;
         item := fun idx =>
                   match idx with
                   | [] => 0%Q
                   | t :: rest => item (nth t arrays a) rest
                   end |}
  end.

(** [a.transpose(1, 2, 3, 0)] *)
Definition transpose_1230 (a : ndarray) : BuiltinError + ndarray :=
  match shape a with
  | [n0; n1; n2; n3] =>
      inr {| shape := [n1; n2; n3; n0];
             item := fun idx =>
                       match idx with
                       | [i; j; k; t] => item a [t; i; j; k]
                       | _ => 0%Q
                       end |}
  | _ => inl ValueError
  end.

(** [a + b * c] for [a] of shape [(nx, ny, nz, nt)], [b] of shape
    [(1, 1, nz, 1)], which is broadcast, and a number [c] *)
Definition add_scaled (a b : ndarray) (c : Q) : ndarray :=
  {| shape := shape a;
     item := fun idx => (item a idx + item b [0%nat; 0%nat; nth 2 idx 0%nat; 0%nat] * c)%Q |}.

(** The array [ti_array] that [create_ti_image(asl, tis, sliceband,
    slicedt, outname)] saves, for an image [asl] of the given size. *)
Definition create_ti_image (size : nat * nat * nat) (tis : list Q) (sliceband : Z)
    (slicedt : Q) : BuiltinError + ndarray :=
  let n_slice := snd size in
  if sliceband =? 0 then inl ZeroDivisionError
  else
    match tile (arange sliceband) (Z.of_nat n_slice / sliceband) with
    | inl e => inl e
    | inr tiled =>
        match reshape_11n1 tiled n_slice with
        | inl e => inl e
        | inr slice_in_band =>
            match transpose_1230 (stack (List.map (fun x => full x size) tis)) with
            | inl e => inl e
            | inr ti_array => inr (add_scaled ti_array slice_in_band slicedt)
            end
        end
    end.

(** [binarise_image(image, threshold=0)], on the voxels of the image *)
Definition binarise_image (data : list Q) (threshold : Q) : list Q :=
  List.map (fun v => if Qlt_le_dec threshold v then 1%Q else 0%Q) data.

Section Register.
Context {W : Type}.
Variable exec : list string -> W -> Z * W.
(** [out_dir.mkdir(exist_ok=True)] *)
Variable mkdir : string -> W -> option PyExc * W.

Definition init_cmd (fmapmagbrain sbet : string) (out_dir : Path) : list string :=
  [ "flirt";
    "-in"; fmapmagbrain;
    "-ref"; sbet;
    "-dof"; "6";
    "-omat"; str (out_dir </> "fmapmag2struct_init.mat") ].

Definition sec_cmd (fmapmag s : string) (out_dir : Path) : list string :=
  [ "flirt";
    "-in"; fmapmag;
    "-ref"; s;
    "-dof"; "6";
    "-init"; str (out_dir </> "fmapmag2struct_init.mat");
    "-omat"; str (out_dir </> "fmapmag2struct_sec.mat");
    "-nosearch" ].

Definition bbr_cmd (fmapmag s wm_tissseg : string) (out_dir schedule : Path) : list string :=
  [ "flirt";
    "-ref"; s;
    "-in"; fmapmag;
    "-dof"; "6";
    "-cost"; "bbr";
    "-wmseg"; wm_tissseg;
    "-init"; str (out_dir </> "fmapmag2struct_sec.mat");
    "-omat"; str (out_dir </> "fmapmag2struct_bbr.mat");
    "-schedule"; str schedule ].

(** [register_fmap(fmapmag, fmapmagbrain, s, sbet, out_dir, wm_tissseg)],
    where [fsldir] is [os.environ.get('FSLDIR')].  [Path(None)] raises
    [TypeError], which is the left summand of the result. *)
Definition register_fmap (fsldir : option string)
    (fmapmag fmapmagbrain s sbet out_dir wm_tissseg : string)
  : Proc W -> (BuiltinError + Result string) * Proc W :=
  fun st =>
    (* create output directory *)
    let out_dir := of_str out_dir in
    let '(e, w1) := mkdir (str out_dir) (world st) in
    let st1 := {| world := w1; trace := trace st |} in
    match e with
    | Some ex => (inr (Raise ex), st1)
    | None =>
        (* get schedule *)
        match fsldir with
        | None => (inl TypeError, st1)
        | Some fsldir =>
            let schedule := of_str fsldir </> "etc/flirtsch/bbr.sch" in
            (* set up commands *)
            let bbr_xform := out_dir </> "fmapmag2struct_bbr.mat" in
            let '(r, st2) :=
              (for_each [ init_cmd fmapmagbrain sbet out_dir;
                          sec_cmd fmapmag s out_dir;
                          bbr_cmd fmapmag s wm_tissseg out_dir schedule ]
                        (fun cmd => _ <- subprocess_run exec cmd true ;; ret tt) ;;
               ret (str bbr_xform))%py st1 in
            (inr r, st2)
        end
    end.

End Register.

(** Observation on an argument vector: the argument that follows a flag *)
Fixpoint arg_after (flag : string) (cmd : list string) : option string :=
  match cmd with
  | a :: rest =>
      if String.eqb a flag then List.head rest else arg_after flag rest
  | [] => None
  end.

End DistcorrImages.

(* ===================================================================== *)
(** ** scripts/prepare_t1asl_space.py: the surfaces of the estimation *)
(* ===================================================================== *)

Module PvEstimation.
Import PyStr PathLib.

(** What a call of [estimate_pvs] can raise: the failure of its [assert],
    or what [extract_fs_pvs] raises. *)
Inductive Error : Type :=
| AssertionError (msg : string)
| Raised (e : PyExc).

Section Estimate.
Variable Image : Type.
(** [glob.glob(pattern)], in the file system of the call *)
Variable glob : string -> list string.
(** [extract_fs_pvs(aparc_aseg, surf_dict, t1_asl, superfactor, cores)] *)
Variable extract_fs_pvs :
  string -> gmap string string -> string -> Z -> Z -> PyExc + Image.

(** [zip(['LWS', 'LPS', 'RPS', 'RWS'], [...])] *)
Definition surfaces : list (string * string) :=
  combine ["LWS"; "LPS"; "RPS"; "RWS"]
          ["L.white.32k_fs_LR.surf.gii";
           "L.pial.32k_fs_LR.surf.gii";
           "R.pial.32k_fs_LR.surf.gii";
           "R.white.32k_fs_LR.surf.gii"].

(** the loop of [estimate_pvs] over the surfaces *)
Fixpoint find_surfaces (t1_dir : string) (pairs : list (string * string))
    (surf_dict : gmap string string) : Error + gmap string string :=
  match pairs with
  | [] => inr surf_dict
  | (k, n) :: rest =>
      let paths := glob (op_joins t1_dir ["fsaverage_LR32k"; "*" +:+ n]) in
      if Nat.eqb (length paths) 1
      then find_surfaces t1_dir rest (<[k := hd "" paths]> surf_dict)
      else inl (AssertionError ("Found multiple surfaces for " +:+ k))
  end.

(** [estimate_pvs(t1_dir, t1_asl, cores)] *)
Definition estimate_pvs (t1_dir t1_asl : string) (cores : Z) : Error + Image :=
  let surf_dict : gmap string string := ∅ in
  let t1 := op_join t1_dir "T1w_acpc_dc.nii.gz" in
  let aparc_aseg := op_join t1_dir "aparc+aseg.nii.gz" in
  match find_surfaces t1_dir surfaces surf_dict with
  | inl e => inl e
  | inr surf_dict =>
      (* Generate a single 4D volume of PV estimates, stacked GM/WM/CSF *)
      match extract_fs_pvs aparc_aseg surf_dict t1_asl 2 cores with
      | inl e => inl (Raised e)
      | inr pvs_stacked => inr pvs_stacked
      end
  end.

End Estimate.

End PvEstimation.

(* ===================================================================== *)
(** * Properties *)
(* ===================================================================== *)

(** ** The staged fit driver *)

Section CheckedRuns.
Context {W : Type}.
Variable exec : list string -> W -> Z * W.

Lemma subprocess_run_check_ok cmd w tr w' :
  exec cmd w = (0, w') ->
  subprocess_run exec cmd true (MkProc w tr)
  = (Ok 0, MkProc w' (tr ++ [MkEvent cmd w 0 w'])).
Proof.
  intros H. unfold subprocess_run. simpl. rewrite H. reflexivity.
Qed.

Lemma subprocess_run_check_fail cmd w tr status w' :
  exec cmd w = (status, w') -> status <> 0 ->
  subprocess_run exec cmd true (MkProc w tr)
  = (Raise (CalledProcessError status cmd),
     MkProc w' (tr ++ [MkEvent cmd w status w'])).
Proof.
  intros H Hs. unfold subprocess_run. simpl. rewrite H.
  destruct (Z.eqb_spec status 0) as [->|_]; [contradiction|reflexivity].
Qed.

(** A loop whose body runs two checked commands is a checked run of the
    commands of all its iterations. *)
Lemma for_each_two_checked {A : Type} (f g : A -> list string) (l : list A) :
  forall st res st',
    PyMonad.for_each l (fun i =>
      (_ <- subprocess_run exec (f i) true ;;
       _ <- subprocess_run exec (g i) true ;;
       PyMonad.ret tt)%py) st = (res, st') ->
    exists evs,
      trace st' = trace st ++ evs
      /\ checked_run exec (world st) (flat_map (fun i => [f i; g i]) l) evs res (world st').
Proof.
  induction l as [|i l IH]; intros [w tr] res st' Hrun; simpl in Hrun.
  - injection Hrun as <- <-. exists []. rewrite app_nil_r.
    split; [reflexivity|constructor].
  - unfold PyMonad.bind at 1 2 in Hrun.
    destruct (exec (f i) w) as [s1 w1] eqn:E1.
    destruct (Z.eq_dec s1 0) as [->|Hs1].
    + rewrite (subprocess_run_check_ok _ _ _ _ E1) in Hrun.
      unfold PyMonad.bind at 1 in Hrun.
      destruct (exec (g i) w1) as [s2 w2] eqn:E2.
      destruct (Z.eq_dec s2 0) as [->|Hs2].
      * rewrite (subprocess_run_check_ok _ _ _ _ E2) in Hrun.
        unfold PyMonad.ret at 1 in Hrun.
        destruct (IH _ _ _ Hrun) as (evs & Ht & Hc). simpl in Ht, Hc.
        exists (MkEvent (f i) w 0 w1 :: MkEvent (g i) w1 0 w2 :: evs).
        split.
        -- rewrite Ht, <- !app_assoc. reflexivity.
        -- apply checked_step; [exact E1|].
           apply checked_step; [exact E2|]. exact Hc.
      * rewrite (subprocess_run_check_fail _ _ _ _ _ E2 Hs2) in Hrun.
        injection Hrun as <- <-. simpl.
        exists [MkEvent (f i) w 0 w1; MkEvent (g i) w1 s2 w2].
        split; [rewrite <- app_assoc; reflexivity|].
        apply checked_step; [exact E1|]. apply checked_fail; assumption.
    + rewrite (subprocess_run_check_fail _ _ _ _ _ E1 Hs1) in Hrun.
      injection Hrun as <- <-. simpl.
      exists [MkEvent (f i) w s1 w1].
      split; [reflexivity|]. apply checked_fail; assumption.
Qed.

(** What a checked run says in elementary terms. *)

Lemma checked_run_prefix w cmds evs res w' :
  checked_run exec w cmds evs res w' ->
  exists n, (n <= length cmds)%nat /\ List.map ev_cmd evs = firstn n cmds.
Proof.
  induction 1 as [w|w cmd rest s w' E Hs|w cmd rest w' evs res w'' E H IH].
  - exists 0%nat. split; [simpl; lia|reflexivity].
  - exists 1%nat. split; [simpl; lia|reflexivity].
  - destruct IH as (n & Hn & IH). exists (S n).
    split; [simpl; lia|]. simpl. rewrite IH. reflexivity.
Qed.

Lemma checked_run_real w cmds evs res w' :
  checked_run exec w cmds evs res w' ->
  Forall (fun e => exec (ev_cmd e) (ev_before e) = (ev_status e, ev_after e)) evs.
Proof.
  induction 1; repeat constructor; simpl; auto.
Qed.

Lemma checked_run_chained w cmds evs res w' :
  checked_run exec w cmds evs res w' -> chained w evs.
Proof.
  induction 1; simpl; auto.
Qed.

Lemma checked_run_nonzero_last w cmds evs res w' :
  checked_run exec w cmds evs res w' ->
  forall k e, evs !! k = Some e -> ev_status e <> 0 ->
    length evs = S k /\ res = Raise (CalledProcessError (ev_status e) (ev_cmd e)).
Proof.
  induction 1 as [w|w cmd rest s w' E Hs|w cmd rest w' evs res w'' E H IH];
    intros k e Hk He.
  - discriminate.
  - destruct k as [|k]; [|destruct k; discriminate].
    injection Hk as <-. simpl. auto.
  - destruct k as [|k].
    + injection Hk as <-. simpl in He. contradiction.
    + simpl in Hk. destruct (IH k e Hk He) as [Hl Hr]. simpl. auto.
Qed.

Lemma checked_run_ok_iff w cmds evs res w' :
  checked_run exec w cmds evs res w' ->
  (res = Ok tt <->
   length evs = length cmds /\ Forall (fun e => ev_status e = 0) evs).
Proof.
  induction 1 as [w|w cmd rest s w' E Hs|w cmd rest w' evs res w'' E H IH].
  - split; auto.
  - split; [discriminate|]. intros [_ HF]. inversion HF; subst. contradiction.
  - rewrite IH. simpl. split.
    + intros [Hl HF]. split; [lia|constructor; auto].
    + intros [Hl HF]. inversion HF; subst. split; [lia|assumption].
Qed.

Lemma checked_run_nth w cmds evs res w' :
  checked_run exec w cmds evs res w' ->
  forall k e, evs !! k = Some e -> cmds !! k = Some (ev_cmd e).
Proof.
  induction 1 as [w|w cmd rest s w' E Hs|w cmd rest w' evs res w'' E H IH];
    intros k e Hk.
  - discriminate.
  - destruct k as [|k]; [|destruct k; discriminate]. injection Hk as <-. reflexivity.
  - destruct k as [|k]; [injection Hk as <-; reflexivity|]. simpl in *. auto.
Qed.

End CheckedRuns.

(** *** Paths *)

Lemma truediv_relative (p : Path) (s : string) :
  PathLib.path_root s = "" ->
  p </> s = MkPath (root p) (parts p ++ PathLib.path_parts s).
Proof.
  intros H. unfold PathLib.truediv. rewrite H. reflexivity.
Qed.

Lemma parent_truediv_name (p : Path) (s x : string) :
  PathLib.path_root s = "" -> PathLib.path_parts s = [x] ->
  PathLib.parent (p </> s) = p.
Proof.
  intros Hr Hp. rewrite truediv_relative by exact Hr. rewrite Hp.
  unfold PathLib.parent. simpl. rewrite removelast_last. destruct p; reflexivity.
Qed.

Lemma truediv_two (p : Path) (s a b : string) :
  PathLib.path_root s = "" -> PathLib.path_parts s = [a; b] ->
  PathLib.path_root a = "" -> PathLib.path_parts a = [a] ->
  PathLib.path_root b = "" -> PathLib.path_parts b = [b] ->
  p </> s = p </> a </> b.
Proof.
  intros Hs Hps Ha Hpa Hb Hpb.
  rewrite (truediv_relative p s Hs), (truediv_relative _ b Hb),
    (truediv_relative p a Ha), Hps, Hpa, Hpb.
  simpl. rewrite <- app_assoc. reflexivity.
Qed.

(** *** The commands of the stages *)

Section BasilCommands.
Import PyStr PathLib AnalysisOnSurface.
Variables (perf_name mean_name : Path) (surf_name : string) (tiimg_name out_dir : Path).

Abbreviation cmd_of := (it_command perf_name mean_name surf_name tiimg_name out_dir).

Lemma in_range_5 (i : Z) : In i (range 5) -> i = 0 \/ i = 1 \/ i = 2 \/ i = 3 \/ i = 4.
Proof.
  simpl. intros [H|[H|[H|[H|[H|[]]]]]]; auto.
Qed.

(** the posterior file that stage [i] continues from is the file
    [finalMVN.nii.gz] in the output directory of stage [i - 1] *)
Lemma mvn_path (i : Z) :
  In i (range 5) -> i <> 0 ->
  parent (temp_out out_dir i)
    </> ("fabber_" +:+ str_of_Z (i - 1) +:+ "/finalMVN.nii.gz")
  = temp_out out_dir (i - 1) </> "finalMVN.nii.gz".
Proof.
  intros Hi H0. unfold temp_out.
  destruct (in_range_5 i Hi) as [->|[->|[->|[->| ->]]]]; try contradiction;
    (erewrite parent_truediv_name by reflexivity;
     apply truediv_two; reflexivity).
Qed.

Lemma output_flag (i : Z) :
  In i (range 5) -> flag_values "--output=" (cmd_of i) = [str (temp_out out_dir i)].
Proof.
  intros Hi.
  destruct (in_range_5 i Hi) as [->|[->|[->|[->| ->]]]]; reflexivity.
Qed.

Lemma continue_flag (i : Z) :
  In i (range 5) ->
  flag_values "--continue-from-mvn=" (cmd_of i)
  = if i =? 0 then []
    else [str (temp_out out_dir (i - 1) </> "finalMVN.nii.gz")].
Proof.
  intros Hi.
  destruct (Z.eq_dec i 0) as [->|H0]; [reflexivity|].
  rewrite <- (mvn_path i Hi H0).
  destruct (in_range_5 i Hi) as [->|[->|[->|[->| ->]]]]; try contradiction; reflexivity.
Qed.

Lemma data_flag (i : Z) :
  In i (range 5) ->
  flag_values "--data=" (cmd_of i)
  = [str (if i <? 2 then mean_name else perf_name)].
Proof.
  intros Hi.
  destruct (in_range_5 i Hi) as [->|[->|[->|[->| ->]]]]; reflexivity.
Qed.

Lemma rpt_flags (i : Z) :
  In i (range 5) ->
  List.filter (fun a => startswith a "--rpt") (cmd_of i)
  = if 2 <=? i
    then ["--rpt1=6"; "--rpt2=6"; "--rpt3=6"; "--rpt4=10"; "--rpt5=15"]
    else [].
Proof.
  intros Hi.
  destruct (in_range_5 i Hi) as [->|[->|[->|[->| ->]]]]; reflexivity.
Qed.

Lemma method_flag (i : Z) :
  In i (range 5) ->
  flag_values "--method=" (cmd_of i) = [if i =? 4 then "spatialvb" else "vb"].
Proof.
  intros Hi.
  destruct (in_range_5 i Hi) as [->|[->|[->|[->| ->]]]]; reflexivity.
Qed.

End BasilCommands.

(** *** Runs of the driver *)

Section BasilRuns.
Import PyStr PathLib AnalysisOnSurface.
Context {W : Type}.
Variable exec : list string -> W -> Z * W.
Variables (perf_name mean_name : Path) (surf_name : string) (tiimg_name out_dir : Path).

Abbreviation fit_cmd := (it_command perf_name mean_name surf_name tiimg_name out_dir).

(** a run of [do_basil] is a checked run of the ten commands of the five
    stages, an estimation and a thresholding for each *)
Lemma do_basil_checked_run (w : W) (res : Result unit) (st' : Proc W) :
  do_basil exec perf_name mean_name surf_name tiimg_name out_dir (MkProc w []) = (res, st') ->
  checked_run exec w
    [fit_cmd 0; threshold_cmd out_dir 0; fit_cmd 1; threshold_cmd out_dir 1;
     fit_cmd 2; threshold_cmd out_dir 2; fit_cmd 3; threshold_cmd out_dir 3;
     fit_cmd 4; threshold_cmd out_dir 4]
    (trace st') res (world st').
Proof.
  intros Hrun. unfold do_basil in Hrun.
  destruct (for_each_two_checked exec fit_cmd (threshold_cmd out_dir) (range 5)
              _ _ _ Hrun) as (evs & Ht & Hc).
  simpl in Ht. subst evs. exact Hc.
Qed.

End BasilRuns.



(** The scenario of the specification: the estimator fails at stage 2.
    Stages 0 and 1 run with their thresholding, the estimation of stage 2
    is the last invocation, and the driver raises. *)
Example do_basil_abort_at_stage_2 :
  let out_dir := PathLib.of_str "/s/L_basil" in
  let fit := AnalysisOnSurface.it_command (PathLib.of_str "/s/L_perf.func.gii")
               (PathLib.of_str "/s/L_perf_mean.func.gii") "/s/L_mid.surf.gii"
               (PathLib.of_str "/s/L_timing.func.gii") out_dir in
  let run := AnalysisOnSurface.do_basil
               (Workbench.example_exec [(-1)%Q; 2%Q] "/s/L_basil/fabber_2")
               (PathLib.of_str "/s/L_perf.func.gii")
               (PathLib.of_str "/s/L_perf_mean.func.gii") "/s/L_mid.surf.gii"
               (PathLib.of_str "/s/L_timing.func.gii") out_dir (MkProc ∅ []) in
  List.map ev_cmd (trace (snd run))
  = [fit 0; AnalysisOnSurface.threshold_cmd out_dir 0;
     fit 1; AnalysisOnSurface.threshold_cmd out_dir 1; fit 2]
  /\ fst run = Raise (CalledProcessError 1 (fit 2))
  /\ AnalysisOnSurface.flag_values "--continue-from-mvn=" (fit 2)
     = ["/s/L_basil/fabber_1/finalMVN.nii.gz"].
Proof.
  vm_compute. repeat split; reflexivity.
Qed.


(** *** Thresholding *)

Lemma clamp_nonneg (x : Q) : (0 <= Workbench.clamp_below_zero x)%Q.
Proof.
  unfold Workbench.clamp_below_zero.
  destruct (Qle_bool x 0) eqn:E.
  - apply Qle_refl.
  - apply Qlt_le_weak, Qnot_le_lt. intros H.
    apply Qle_bool_iff in H. congruence.
Qed.

Lemma clamp_negative (x : Q) : (x < 0)%Q -> Workbench.clamp_below_zero x = 0%Q.
Proof.
  intros H. unfold Workbench.clamp_below_zero.
  destruct (Qle_bool x 0) eqn:E; [reflexivity|].
  exfalso. apply Qlt_le_weak, Qle_bool_iff in H. congruence.
Qed.

Lemma clamp_positive (x : Q) : (0 < x)%Q -> Workbench.clamp_below_zero x = x.
Proof.
  intros H. unfold Workbench.clamp_below_zero.
  destruct (Qle_bool x 0) eqn:E; [|reflexivity].
  exfalso. apply Qle_bool_iff in E. apply (Qlt_irrefl 0).
  apply Qlt_le_trans with x; assumption.
Qed.

Lemma clamp_zero (x : Q) : (x == 0)%Q -> Workbench.clamp_below_zero x = 0%Q.
Proof.
  intros H. unfold Workbench.clamp_below_zero.
  destruct (Qle_bool x 0) eqn:E; [reflexivity|].
  exfalso. assert (Hle : (x <= 0)%Q) by (rewrite H; apply Qle_refl).
  apply Qle_bool_iff in Hle. congruence.
Qed.


Lemma example_exec_contract (estimate : list Q) (fail_at : string) :
  Workbench.metric_math_contract (Workbench.example_exec estimate fail_at)
    (fun fs p => fs !! p).
Proof.
  intros out inp fs fs' H. cbn in H.
  destruct (fs !! inp) as [data|] eqn:E; [|discriminate].
  injection H as <-. exists data. split; [reflexivity|].
  apply lookup_insert_eq.
Qed.


(** In the same world, the thresholding of stage 0 finds the values
    -1 and 2 and leaves 0 and 2. *)
Example do_basil_thresholds_stage_0 :
  let run := AnalysisOnSurface.do_basil (Workbench.example_exec [(-1)%Q; 2%Q] "")
               (PathLib.of_str "/s/L_perf.func.gii")
               (PathLib.of_str "/s/L_perf_mean.func.gii") "/s/L_mid.surf.gii"
               (PathLib.of_str "/s/L_timing.func.gii")
               (PathLib.of_str "/s/L_basil") (MkProc ∅ []) in
  match trace (snd run) !! 1%nat with
  | Some e =>
      ev_before e !! "/s/L_basil/fabber_0/mean_ftiss.func.gii" = Some [(-1)%Q; 2%Q]
      /\ ev_after e !! "/s/L_basil/fabber_0/mean_ftiss.func.gii" = Some [0%Q; 2%Q]
  | None => False
  end.
Proof.
  vm_compute. split; reflexivity.
Qed.


(** ** The ledger file format *)

Lemma append_cons (c : ascii) (s t : string) : String c s +:+ t = String c (s +:+ t).
Proof. reflexivity. Qed.

Lemma append_assoc (s t u : string) : (s +:+ t) +:+ u = s +:+ (t +:+ u).
Proof.
  induction s as [|c s IH]; [reflexivity|].
  rewrite !append_cons, IH. reflexivity.
Qed.

Lemma append_nil_r (s : string) : s +:+ "" = s.
Proof.
  induction s as [|c s IH]; [reflexivity|]. rewrite append_cons, IH. reflexivity.
Qed.

Lemma length_append (s t : string) :
  String.length (s +:+ t) = (String.length s + String.length t)%nat.
Proof.
  induction s as [|c s IH]; [reflexivity|].
  rewrite append_cons. simpl. rewrite IH. reflexivity.
Qed.

Section JsonRoundTrip.
Import PyStr Json.

(** decoding undoes the escaping of one character *)
Lemma scan_escape_char (c : ascii) (t : string) :
  scan_string (escape_char c +:+ t) = cons_char c (scan_string t).
Proof.
  destruct c as [[] [] [] [] [] [] [] []]; reflexivity.
Qed.

Lemma scan_escape (s rest : string) :
  scan_string (escape s +:+ String dquote rest) = Some (s, rest).
Proof.
  induction s as [|c s IH].
  - reflexivity.
  - change (escape (String c s)) with (escape_char c +:+ escape s).
    rewrite append_assoc, scan_escape_char, IH. reflexivity.
Qed.

(** a string literal is read back as the string it encodes *)
Lemma parse_encode_str (s rest : string) :
  parse_string (encode_str s +:+ rest) = Some (s, rest).
Proof.
  unfold encode_str. rewrite append_cons.
  unfold parse_string. rewrite Ascii.eqb_refl.
  rewrite append_assoc, append_cons. apply scan_escape.
Qed.


(** *** Members *)

Lemma skip_ws_encode_str (s t : string) :
  skip_ws (encode_str s +:+ t) = encode_str s +:+ t.
Proof. reflexivity. Qed.

Lemma parse_members_text (items : list (string * string)) :
  forall kv acc fuel tail,
    (length items < fuel)%nat ->
    parse_members fuel (item_core kv +:+ tail_text items tail) acc
    = Some (fold_left put_item (kv :: items) acc, tail).
Proof.
  induction items as [|kv' items IH]; intros [k v] acc fuel tail Hfuel;
    (destruct fuel as [|fuel]; [simpl in Hfuel; lia|]);
    unfold item_core; cbn [fst snd];
    rewrite !append_assoc;
    cbn [parse_members];
    rewrite parse_encode_str;
    change (skip_ws (": " +:+ ?t)) with (String ":" (" " +:+ t));
    cbn [Ascii.eqb Bool.eqb];
    change (skip_ws (" " +:+ ?t)) with (skip_ws t);
    rewrite skip_ws_encode_str, parse_encode_str.
  - reflexivity.
  - change (tail_text (kv' :: items) tail)
      with ("," +:+ newline +:+ "    " +:+ item_core kv' +:+ tail_text items tail).
    change (skip_ws ("," +:+ ?t)) with (String "," t).
    cbn [Ascii.eqb Bool.eqb].
    change (skip_ws (newline +:+ "    " +:+ item_core kv' +:+ ?t))
      with (item_core kv' +:+ t).
    rewrite IH by (simpl in Hfuel; lia). reflexivity.
Qed.

Lemma length_tail_text (items : list (string * string)) (tail : string) :
  (length items < String.length (tail_text items tail))%nat.
Proof.
  induction items as [|kv items IH].
  - simpl. rewrite length_append. simpl. lia.
  - change (tail_text (kv :: items) tail)
      with ("," +:+ newline +:+ "    " +:+ item_core kv +:+ tail_text items tail).
    rewrite !length_append. simpl. lia.
Qed.

Lemma render_cons (kv : string * string) (items : list (string * string)) :
  render (kv :: items)
  = "{" +:+ newline +:+ "    " +:+ item_core kv +:+ tail_text items "".
Proof.
  unfold render.
  assert (H : forall kv items,
             join ("," +:+ newline) (List.map render_item (kv :: items))
               +:+ newline +:+ "}"
             = "    " +:+ item_core kv +:+ tail_text items "").
  { clear. intros kv items. revert kv.
    induction items as [|kv' items IH]; intros kv.
    - unfold render_item, item_core. simpl. rewrite !append_assoc. reflexivity.
    - change (List.map render_item (kv :: kv' :: items))
        with (render_item kv :: List.map render_item (kv' :: items)).
      change (join ?sep (?x :: List.map render_item (kv' :: items)))
        with (x +:+ sep +:+ join sep (List.map render_item (kv' :: items))).
      rewrite !append_assoc. rewrite IH.
      cbn [tail_text].
      unfold render_item, item_core. rewrite !append_assoc. reflexivity. }
  rewrite H. reflexivity.
Qed.

(** decoding the text of the members gives the map that holds them, a
    later member replacing an earlier one with the same key *)
Lemma loads_render (items : list (string * string)) :
  loads (render items) = Some (fold_left put_item items ∅).
Proof.
  destruct items as [|kv items]; [reflexivity|].
  rewrite render_cons.
  remember (item_core kv +:+ tail_text items "") as X eqn:HX.
  assert (HY : exists Y, X = String dquote Y) by (subst X; eexists; reflexivity).
  destruct HY as [Y HY].
  assert (Hlen : (length items < String.length ("{" +:+ newline +:+ "    " +:+ X))%nat).
  { subst X. rewrite !length_append.
    pose proof (length_tail_text items ""). lia. }
  unfold loads.
  change (skip_ws ("{" +:+ newline +:+ "    " +:+ X))
    with (String "{" (newline +:+ "    " +:+ X)).
  cbn [Ascii.eqb Bool.eqb].
  change (skip_ws (newline +:+ "    " +:+ X)) with (skip_ws X).
  rewrite HY at 1.
  change (skip_ws (String dquote Y)) with (String dquote Y).
  change (Ascii.eqb dquote "}") with false. cbn iota.
  rewrite <- HY. rewrite HX at 2.
  rewrite parse_members_text by exact Hlen. reflexivity.
Qed.

Lemma fold_left_put_item_lookup (l : list (string * string)) :
  forall (acc : gmap string string) (k : string),
    NoDup (List.map fst l) ->
    fold_left put_item l acc !! k
    = match (list_to_map l : gmap string string) !! k with
      | Some v => Some v
      | None => acc !! k
      end.
Proof.
  induction l as [|[k0 v0] l IH]; intros acc k Hnd.
  - simpl. rewrite lookup_empty. reflexivity.
  - inversion Hnd as [|? ? Hnotin Hnd']; subst.
    cbn [fold_left]. rewrite IH by exact Hnd'.
    unfold put_item. cbn [fst snd list_to_map foldr uncurry].
    destruct (decide (k0 = k)) as [->|Hne].
    + rewrite !lookup_insert_eq.
      rewrite (not_elem_of_list_to_map_1 l k); [reflexivity|].
      exact Hnotin.
    + rewrite !lookup_insert_ne by exact Hne. reflexivity.
Qed.

Lemma sorted_items_perm (d : gmap string string) :
  sorted_items d ≡ₚ map_to_list d.
Proof.
  unfold sorted_items. apply merge_sort_Permutation.
Qed.

(** the round trip of the ledger file: what [json.dump] writes,
    [json.load] reads back as the same mapping *)
Lemma loads_dumps (d : gmap string string) : loads (dumps d) = Some d.
Proof.
  unfold dumps. rewrite loads_render. f_equal.
  assert (Hnd : NoDup (List.map fst (sorted_items d))).
  { change (List.map fst (sorted_items d)) with ((sorted_items d).*1).
    rewrite (sorted_items_perm d). apply NoDup_fst_map_to_list. }
  apply map_eq. intros k.
  rewrite fold_left_put_item_lookup by exact Hnd.
  rewrite lookup_empty.
  rewrite (list_to_map_proper (sorted_items d) (map_to_list d)).
  - rewrite list_to_map_to_list. destruct (d !! k); reflexivity.
  - exact Hnd.
  - apply sorted_items_perm.
Qed.

End JsonRoundTrip.

(** *** The order of the members *)

Lemma item_le_trans : Transitive Json.item_le.
Proof.
  intros a b c Hab Hbc. unfold Json.item_le in *.
  apply Is_true_true. apply Is_true_true in Hab, Hbc.
  exact (transitivity (R := String.le) Hab Hbc).
Qed.

Lemma item_le_total : Total Json.item_le.
Proof.
  intros a b. unfold Json.item_le. apply String.leb_total.
Qed.

Lemma leb_neq_ltb (s1 s2 : string) :
  String.leb s1 s2 = true -> s1 <> s2 -> String.ltb s1 s2 = true.
Proof.
  unfold String.leb, String.ltb. intros Hle Hne.
  destruct (String.compare s1 s2) eqn:E; try reflexivity; try discriminate.
  exfalso. apply Hne. apply String.compare_eq_iff. exact E.
Qed.

Lemma sorted_items_strict (d : gmap string string) :
  StronglySorted (fun a b => String.ltb (fst a) (fst b) = true) (Json.sorted_items d).
Proof.
  assert (Hs : StronglySorted Json.item_le (Json.sorted_items d)).
  { apply StronglySorted_merge_sort; [apply item_le_trans|apply item_le_total]. }
  assert (Hnd : NoDup (List.map fst (Json.sorted_items d))).
  { change (List.map fst (Json.sorted_items d)) with ((Json.sorted_items d).*1).
    rewrite (sorted_items_perm d). apply NoDup_fst_map_to_list. }
  induction Hs as [|a l Hs IH Hall]; [constructor|].
  inversion Hnd as [|? ? Hnotin Hnd']; subst.
  constructor; [apply IH; exact Hnd'|].
  rewrite List.Forall_forall in Hall. apply List.Forall_forall. intros b Hb.
  apply leb_neq_ltb; [apply Hall; exact Hb|].
  intros Heq. apply Hnotin. rewrite Heq.
  apply list_elem_of_In. apply in_map. exact Hb.
Qed.

Lemma sorted_items_complete (d : gmap string string) (k v : string) :
  In (k, v) (Json.sorted_items d) <-> d !! k = Some v.
Proof.
  rewrite <- list_elem_of_In, (sorted_items_perm d).
  apply elem_of_map_to_list.
Qed.

(** ** The ledger *)

Section Ledger.
Import PyStr PathLib PyMonad M0MtCorrection.

Lemma update_json_ok (new_dict old fs : gmap string string) (json_name : string) :
  (new_dict ∪ old) !! "json_name" = Some json_name ->
  update_json new_dict {| old_dict := old; files := fs |}
  = (Ok tt, {| old_dict := new_dict ∪ old;
               files := <[str (of_str json_name) := Json.dumps (new_dict ∪ old)]> fs |}).
Proof.
  intros H. unfold update_json, bind, modify, get. cbn [old_dict files].
  rewrite H. reflexivity.
Qed.

Lemma update_json_no_path (new_dict old fs : gmap string string) :
  (new_dict ∪ old) !! "json_name" = None ->
  update_json new_dict {| old_dict := old; files := fs |}
  = (Raise (KeyError "json_name"), {| old_dict := new_dict ∪ old; files := fs |}).
Proof.
  intros H. unfold update_json, bind, modify, get, raise. cbn [old_dict files].
  rewrite H. reflexivity.
Qed.

Lemma load_json_text (subject_dir : Path) (fs d : gmap string string) (text : string) :
  fs !! str (subject_dir </> "ASL/ASL.json") = Some text ->
  Json.loads text = Some d ->
  load_json subject_dir fs = (Ok d, fs).
Proof.
  intros Hf Hl. unfold load_json, bind, get. rewrite Hf, Hl. reflexivity.
Qed.

End Ledger.

(** C5. When the merged ledger stores a path under ["json_name"], a call
    of [update_json] returns normally; the dict object holds the entries
    of [new_dict] and, for the other keys, the entries it held before; the
    file at that path holds the text of the whole merged mapping and no
    other file changes.  The text is the rendering of the members of the
    merged mapping in strictly increasing order of their keys: every entry
    of the merged mapping is a member, and reading the text back gives
    the merged mapping. *)
Theorem update_json_writes_merged_ledger :
  forall (new_dict old fs : gmap string string) (json_name : string),
    (new_dict ∪ old) !! "json_name" = Some json_name ->
    let merged := new_dict ∪ old in
    let members := Json.sorted_items merged in
    M0MtCorrection.update_json new_dict
      {| M0MtCorrection.old_dict := old; M0MtCorrection.files := fs |}
    = (Ok tt,
       {| M0MtCorrection.old_dict := merged;
          M0MtCorrection.files :=
            <[PathLib.str (PathLib.of_str json_name) := Json.render members]> fs |})
    /\ (forall k, merged !! k = match new_dict !! k with
                                | Some v => Some v
                                | None => old !! k
                                end)
    /\ StronglySorted (fun a b => String.ltb (fst a) (fst b) = true) members
    /\ (forall k v, In (k, v) members <-> merged !! k = Some v)
    /\ Json.loads (Json.render members) = Some merged.
Proof.
  intros new_dict old fs json_name H merged members.
  split; [exact (update_json_ok new_dict old fs json_name H)|].
  split.
  { intros k. unfold merged. rewrite lookup_union.
    destruct (new_dict !! k), (old !! k); reflexivity. }
  split; [apply sorted_items_strict|].
  split; [intros k v; apply sorted_items_complete|].
  apply loads_dumps.
Qed.

(** A ledger that holds its path and one entry receives a new entry and
    a new value for the entry it has: the file holds the three members in
    the order of their keys. *)
Lemma update_json_writes_merged_ledger_witness :
  (({[ "b" := "new" ]} ∪ {[ "a" := "A" ]} : gmap string string)
    ∪ ({[ "json_name" := "/s/ASL/ASL.json" ]} ∪ {[ "b" := "old" ]}))
    !! "json_name" = Some "/s/ASL/ASL.json"
  /\ Json.sorted_items
       (({[ "b" := "new" ]} ∪ {[ "a" := "A" ]} : gmap string string)
        ∪ ({[ "json_name" := "/s/ASL/ASL.json" ]} ∪ {[ "b" := "old" ]}))
     = [("a", "A"); ("b", "new"); ("json_name", "/s/ASL/ASL.json")]
  /\ Json.loads (Json.render
       (Json.sorted_items
          (({[ "b" := "new" ]} ∪ {[ "a" := "A" ]} : gmap string string)
           ∪ ({[ "json_name" := "/s/ASL/ASL.json" ]} ∪ {[ "b" := "old" ]}))))
     = Some (({[ "b" := "new" ]} ∪ {[ "a" := "A" ]} : gmap string string)
             ∪ ({[ "json_name" := "/s/ASL/ASL.json" ]} ∪ {[ "b" := "old" ]})).
Proof.
  split; [vm_compute; reflexivity|].
  split; [vm_compute; reflexivity|].
  apply (update_json_writes_merged_ledger
           ({[ "b" := "new" ]} ∪ {[ "a" := "A" ]})
           ({[ "json_name" := "/s/ASL/ASL.json" ]} ∪ {[ "b" := "old" ]})
           ∅ "/s/ASL/ASL.json").
  vm_compute; reflexivity.
Defined.

(** C6. When the file [subject_dir/ASL/ASL.json] does not exist,
    [load_json] raises an exception whose message names the file and ends
    with the instruction to run [initial_processing()] first, and the file
    system is as it was: no file is created and no mapping is returned.
    When the file exists and holds the text of a mapping, [load_json]
    returns that mapping; in particular it returns the mapping that
    [json.dump] persisted. *)
Theorem load_json_missing_or_persisted :
  forall (subject_dir : Path) (fs : gmap string string),
    let json_name := PathLib.str (subject_dir </> "ASL/ASL.json") in
    (fs !! json_name = None ->
       M0MtCorrection.load_json subject_dir fs
       = (Raise (Exception ("File " +:+ json_name +:+ " does not exist."
                            +:+ "Please run initial_processing() first.")), fs)
       /\ PyStr.contains "Please run initial_processing() first."
            ("File " +:+ json_name +:+ " does not exist."
             +:+ "Please run initial_processing() first."))
    /\ (forall text d, fs !! json_name = Some text -> Json.loads text = Some d ->
          M0MtCorrection.load_json subject_dir fs = (Ok d, fs))
    /\ (forall d, fs !! json_name = Some (Json.dumps d) ->
          M0MtCorrection.load_json subject_dir fs = (Ok d, fs)).
Proof.
  intros subject_dir fs json_name. split; [|split].
  - intros Hf. split.
    + unfold M0MtCorrection.load_json, PyMonad.bind, PyMonad.get.
      fold json_name. rewrite Hf. reflexivity.
    + exists ("File " +:+ json_name +:+ " does not exist."), "".
      rewrite append_nil_r, !append_assoc. reflexivity.
  - intros text d Hf Hl. exact (load_json_text subject_dir fs d text Hf Hl).
  - intros d Hf. exact (load_json_text subject_dir fs d _ Hf (loads_dumps d)).
Qed.

(** On an empty file system the load of a subject fails and creates
    nothing; once the ledger file holds a mapping, the load returns it. *)
Lemma load_json_witness :
  M0MtCorrection.load_json (PathLib.of_str "/study/HCA6002236") ∅
  = (Raise (Exception ("File /study/HCA6002236/ASL/ASL.json does not exist."
                       +:+ "Please run initial_processing() first.")), ∅)
  /\ M0MtCorrection.load_json (PathLib.of_str "/study/HCA6002236")
       {[ "/study/HCA6002236/ASL/ASL.json"
          := Json.dumps {[ "calib0_img" := "/study/calib0.nii.gz" ]} ]}
     = (Ok {[ "calib0_img" := "/study/calib0.nii.gz" ]},
        {[ "/study/HCA6002236/ASL/ASL.json"
           := Json.dumps {[ "calib0_img" := "/study/calib0.nii.gz" ]} ]}).
Proof.
  split; [reflexivity|].
  apply load_json_missing_or_persisted. reflexivity.
Defined.

(** *** A sequence of puts followed by a load *)

Section LedgerRoundTrip.
Import PyStr PathLib PyMonad M0MtCorrection.
Variable subject_dir : Path.

Abbreviation ledger_file := (subject_dir </> "ASL/ASL.json").

Lemma update_json_persists (new_dict : gmap string string) (st : LedgerState) :
  (exists p, old_dict st !! "json_name" = Some p /\ of_str p = ledger_file) ->
  (forall p, new_dict !! "json_name" = Some p -> of_str p = ledger_file) ->
  exists st',
    update_json new_dict st = (Ok tt, st')
    /\ old_dict st' = new_dict ∪ old_dict st
    /\ persisted subject_dir st'.
Proof.
  intros (p & Hp & Hfile) Hnew. destruct st as [old fs]. cbn [old_dict files] in *.
  assert (Hm : exists q, (new_dict ∪ old) !! "json_name" = Some q
                         /\ of_str q = ledger_file).
  { rewrite lookup_union. destruct (new_dict !! "json_name") as [q|] eqn:E.
    - exists q. rewrite Hp. split; [reflexivity|]. apply Hnew. reflexivity.
    - exists p. rewrite Hp. split; [reflexivity|exact Hfile]. }
  destruct Hm as (q & Hq & Hqfile).
  eexists. split; [apply (update_json_ok new_dict old fs q Hq)|].
  split; [reflexivity|].
  split; cbn [old_dict files].
  - exists q. split; assumption.
  - rewrite Hqfile. apply lookup_insert_eq.
Qed.

Lemma last_put_app (puts : list (gmap string string)) (new_dict : gmap string string)
    (k : string) :
  last_put (puts ++ [new_dict]) k
  = match new_dict !! k with
    | Some v => Some v
    | None => last_put puts k
    end.
Proof.
  induction puts as [|p puts IH]; simpl.
  - destruct (new_dict !! k); reflexivity.
  - rewrite IH. destruct (new_dict !! k); [reflexivity|].
    destruct (last_put puts k); reflexivity.
Qed.

Lemma puts_persist (puts : list (gmap string string)) :
  forall st,
    (exists p, old_dict st !! "json_name" = Some p /\ of_str p = ledger_file) ->
    Forall (fun new_dict => forall p, new_dict !! "json_name" = Some p -> of_str p = ledger_file)
           puts ->
    exists st',
      for_each puts update_json st = (Ok tt, st')
      /\ (puts <> [] -> persisted subject_dir st')
      /\ (forall k, old_dict st' !! k
                    = match last_put puts k with
                      | Some v => Some v
                      | None => old_dict st !! k
                      end).
Proof.
  induction puts as [|new_dict puts IH]; intros st Hst Hputs.
  - exists st. split; [reflexivity|]. split; [congruence|]. intros k. reflexivity.
  - inversion Hputs as [|? ? Hnew Hrest]; subst.
    destruct (update_json_persists new_dict st Hst Hnew) as (st1 & Hrun1 & Hd1 & Hp1).
    destruct (IH st1 (proj1 Hp1) Hrest) as (st' & Hrun & Hpers & Hlook).
    exists st'. split.
    + cbn [for_each]. unfold bind. rewrite Hrun1. exact Hrun.
    + split.
      * intros _. destruct puts as [|q puts'].
        -- cbn [for_each] in Hrun. injection Hrun as <-. exact Hp1.
        -- apply Hpers. discriminate.
      * intros k. rewrite Hlook, Hd1. cbn [last_put].
        destruct (last_put puts k); [reflexivity|].
        rewrite lookup_union.
        destruct (new_dict !! k), (old_dict st !! k); reflexivity.
Qed.

End LedgerRoundTrip.

(** C4, as amended.  Let the ledger store, under ["json_name"], the path
    of the subject's ledger file, and let no put store another path under
    that key.  Then every put of a non-empty sequence returns normally,
    and a load of the subject from the file system they leave returns the
    mapping the in-memory ledger holds: each key that was put has the
    value most recently put for it, and the other keys have the values the
    ledger had before. *)
Theorem ledger_put_then_load :
  forall (subject_dir : Path) (ledger fs : gmap string string)
         (puts : list (gmap string string)),
    (exists p, ledger !! "json_name" = Some p
               /\ PathLib.of_str p = subject_dir </> "ASL/ASL.json") ->
    Forall (fun new_dict : gmap string string =>
              forall p, new_dict !! "json_name" = Some p ->
                        PathLib.of_str p = subject_dir </> "ASL/ASL.json") puts ->
    puts <> [] ->
    exists st',
      PyMonad.for_each puts M0MtCorrection.update_json
        {| M0MtCorrection.old_dict := ledger; M0MtCorrection.files := fs |}
      = (Ok tt, st')
      /\ exists loaded,
           M0MtCorrection.load_json subject_dir (M0MtCorrection.files st')
           = (Ok loaded, M0MtCorrection.files st')
           /\ loaded = M0MtCorrection.old_dict st'
           /\ (forall k v, M0MtCorrection.last_put puts k = Some v -> loaded !! k = Some v)
           /\ (forall k, M0MtCorrection.last_put puts k = None -> loaded !! k = ledger !! k).
Proof.
  intros subject_dir ledger fs puts Hledger Hputs Hne.
  destruct (puts_persist subject_dir puts
              {| M0MtCorrection.old_dict := ledger; M0MtCorrection.files := fs |}
              Hledger Hputs) as (st' & Hrun & Hpers & Hlook).
  exists st'. split; [exact Hrun|].
  exists (M0MtCorrection.old_dict st').
  destruct (Hpers Hne) as [_ Hfile].
  split; [exact (load_json_text subject_dir _ _ _ Hfile (loads_dumps _))|].
  split; [reflexivity|].
  split.
  - intros k v Hk. rewrite Hlook, Hk. reflexivity.
  - intros k Hk. rewrite Hlook, Hk. reflexivity.
Qed.

(** The same key is put twice: the load returns the second value. *)
Lemma ledger_put_then_load_witness :
  exists st',
    PyMonad.for_each [ ({[ "calib0_corr" := "/study/s/first.nii.gz" ]} : gmap string string);
                       {[ "calib0_corr" := "/study/s/second.nii.gz" ]} ]
      M0MtCorrection.update_json
      {| M0MtCorrection.old_dict := {[ "json_name" := "/study/s/ASL/ASL.json" ]};
         M0MtCorrection.files := ∅ |}
    = (Ok tt, st')
    /\ exists loaded,
         M0MtCorrection.load_json (PathLib.of_str "/study/s") (M0MtCorrection.files st')
         = (Ok loaded, M0MtCorrection.files st')
         /\ loaded !! "calib0_corr" = Some "/study/s/second.nii.gz"
         /\ loaded !! "json_name" = Some "/study/s/ASL/ASL.json".
Proof.
  destruct (ledger_put_then_load (PathLib.of_str "/study/s")
              {[ "json_name" := "/study/s/ASL/ASL.json" ]} ∅
              [ {[ "calib0_corr" := "/study/s/first.nii.gz" ]};
                {[ "calib0_corr" := "/study/s/second.nii.gz" ]} ])
    as (st' & Hrun & loaded & Hload & _ & Hput & Hkeep).
  - exists "/study/s/ASL/ASL.json". split; reflexivity.
  - repeat constructor; intros p H; vm_compute in H; discriminate.
  - discriminate.
  - exists st'. split; [exact Hrun|]. exists loaded. split; [exact Hload|]. split.
    + apply Hput. reflexivity.
    + rewrite Hkeep; reflexivity.
Defined.

(** C4 as stated fails: a put may store another path under ["json_name"].
    The ledger of the subject [/study/s] is put the entry
    [json_name = /tmp/other.json]; the put returns normally and writes
    [/tmp/other.json]; the load of the subject returns the mapping of the
    subject's file, in which ["json_name"] does not have the value most
    recently put for it. *)
Lemma ledger_put_moves_ledger_file :
  let subject_dir := PathLib.of_str "/study/s" in
  let ledger : gmap string string := {[ "json_name" := "/study/s/ASL/ASL.json" ]} in
  let fs : gmap string string := {[ "/study/s/ASL/ASL.json" := Json.dumps ledger ]} in
  let puts : list (gmap string string) := [ {[ "json_name" := "/tmp/other.json" ]} ] in
  let run := PyMonad.for_each puts M0MtCorrection.update_json
               {| M0MtCorrection.old_dict := ledger; M0MtCorrection.files := fs |} in
  fst run = Ok tt
  /\ M0MtCorrection.last_put puts "json_name" = Some "/tmp/other.json"
  /\ exists loaded,
       M0MtCorrection.load_json subject_dir (M0MtCorrection.files (snd run))
       = (Ok loaded, M0MtCorrection.files (snd run))
       /\ loaded !! "json_name" = Some "/study/s/ASL/ASL.json"
       /\ loaded !! "json_name" <> M0MtCorrection.last_put puts "json_name".
Proof.
  cbv zeta. split; [vm_compute; reflexivity|]. split; [vm_compute; reflexivity|].
  exists {[ "json_name" := "/study/s/ASL/ASL.json" ]}.
  split; [|split].
  - apply load_json_text with (text := Json.dumps {[ "json_name" := "/study/s/ASL/ASL.json" ]}).
    + vm_compute. reflexivity.
    + apply loads_dumps.
  - vm_compute. reflexivity.
  - vm_compute. discriminate.
Qed.


(** ** The import of the registration matrix *)

Section AslToStruct.
Import PyStr PathLib PyMonad M0MtCorrection.
Variable Registration : Type.
Variable flirt_matrix : Matrix -> string -> string -> string + Registration.
Variable to_flirt : Registration -> string -> string -> Matrix.
Variable shell : string -> gmap string Matrix -> gmap string Matrix.
Variables asl_vol0 struct fsdir reg_dir : string.

Abbreviation omat := (op_join reg_dir "asl2struct.mat").
Abbreviation orig_mgz := (op_joins fsdir ["mri"; "orig.mgz"]).
Abbreviation bbregister :=
  (("$FREESURFER_HOME/bin/bbregister --s " +:+ snd (op_split fsdir)
    +:+ " --mov " +:+ asl_vol0 +:+ " --t2 ")
   +:+ "--reg asl2orig_mgz_initial_bbr.dat --fslmat " +:+ omat +:+ " --init-fsl").
Abbreviation run_of w :=
  (generate_asl2struct Registration flirt_matrix to_flirt shell
     asl_vol0 struct fsdir reg_dir w).

Ltac run_asl2struct :=
  cbv beta iota zeta delta
    [generate_asl2struct bind get chdir environ_set run_shell log_io set_mat_files
     modify try_except_RuntimeError from_flirt raise ret loadtxt savetxt_5f savetxt
     mat_files environ cwd io_log].

(** the matrix file is missing after bbregister: the error is not a
    [RuntimeError] and nothing is retried *)
Lemma asl2struct_missing (w : RegWorld) :
  shell bbregister (mat_files w) !! omat = None ->
  fst (run_of w) = Raise (OSError omat)
  /\ io_log (snd (run_of w)) = io_log w ++ [EvShell bbregister; EvFromFlirt omat].
Proof.
  destruct w as [mf env cw lg]. cbn [mat_files io_log]. intros H.
  run_asl2struct. rewrite H. cbn [fst snd].
  rewrite <- app_assoc. split; reflexivity.
Qed.

(** the first import succeeds: nothing is rounded *)
Lemma asl2struct_first_ok (w : RegWorld) (m : Matrix) (reg : Registration) :
  shell bbregister (mat_files w) !! omat = Some m ->
  flirt_matrix m asl_vol0 orig_mgz = inr reg ->
  fst (run_of w) = Ok tt
  /\ io_log (snd (run_of w))
     = io_log w ++ [EvShell bbregister; EvFromFlirt omat; EvSavetxt omat "%.18e"]
  /\ mat_files (snd (run_of w))
     = <[omat := to_flirt reg asl_vol0 struct]> (shell bbregister (mat_files w)).
Proof.
  destruct w as [mf env cw lg]. cbn [mat_files io_log]. intros H Hreg.
  run_asl2struct. rewrite H, Hreg.
  destruct (env !! "SUBJECTS_DIR") as [sd|];
    [destruct (negb (String.eqb sd ""))|];
    cbn [fst snd]; rewrite <- !app_assoc; repeat split; reflexivity.
Qed.

(** the first import raises [RuntimeError]: the file is rounded and
    imported once more *)
Lemma asl2struct_retry (w : RegWorld) (m : Matrix) (msg : string) :
  shell bbregister (mat_files w) !! omat = Some m ->
  flirt_matrix m asl_vol0 orig_mgz = inl msg ->
  let rounded := List.map (List.map round5) m in
  let retry := [EvShell bbregister; EvFromFlirt omat; EvLoadtxt omat;
                EvSavetxt omat "%.5f"; EvFromFlirt omat] in
  match flirt_matrix rounded asl_vol0 orig_mgz with
  | inl msg' =>
      fst (run_of w) = Raise (RuntimeError msg')
      /\ io_log (snd (run_of w)) = io_log w ++ retry
      /\ mat_files (snd (run_of w)) = <[omat := rounded]> (shell bbregister (mat_files w))
  | inr reg =>
      fst (run_of w) = Ok tt
      /\ io_log (snd (run_of w)) = io_log w ++ retry ++ [EvSavetxt omat "%.18e"]
      /\ mat_files (snd (run_of w))
         = <[omat := to_flirt reg asl_vol0 struct]>
             (<[omat := rounded]> (shell bbregister (mat_files w)))
  end.
Proof.
  intros H Hmsg rounded retry. subst retry.
  destruct w as [mf env cw lg]. cbn [mat_files io_log] in *.
  run_asl2struct. rewrite H, Hmsg. cbv beta iota.
  rewrite H. run_asl2struct. rewrite lookup_insert_eq. fold rounded.
  destruct (flirt_matrix rounded asl_vol0 orig_mgz) as [msg'|reg].
  - cbn [fst snd]. rewrite <- !app_assoc. repeat split; reflexivity.
  - destruct (env !! "SUBJECTS_DIR") as [sd|];
      [destruct (negb (String.eqb sd ""))|];
      cbn [fst snd]; rewrite <- !app_assoc; repeat split; reflexivity.
Qed.

End AslToStruct.

Lemma skipn_length_app {A : Type} (l evs : list A) : skipn (length l) (l ++ evs) = evs.
Proof.
  induction l as [|x l IH]; [reflexivity|exact IH].
Qed.



(** bbregister leaves a matrix whose last row is wrong also after the
    rounding: the second import raises, and the call ends there. *)
Example generate_asl2struct_fatal :
  let run := M0MtCorrection.generate_asl2struct M0MtCorrection.Matrix
               M0MtCorrection.example_flirt_matrix (fun reg _ _ => reg)
               (fun _ fs => <["/reg/asl2struct.mat" := M0MtCorrection.not_affine]> fs)
               "/asl/tis_vol1.nii.gz" "/t1/T1w.nii.gz" "/fs/HCA6002236_V1_MR" "/reg"
               (M0MtCorrection.MkRegWorld ∅ ∅ "/" []) in
  fst run = Raise (RuntimeError "last row must be 0 0 0 1")
  /\ List.map (fun e => (M0MtCorrection.is_import e, M0MtCorrection.is_rounding e))
       (M0MtCorrection.io_log (snd run))
     = [(false, false); (true, false); (false, false); (false, true); (true, false)].
Proof.
  vm_compute. split; reflexivity.
Qed.


(** ** The directories of [run_oxford_asl] *)

Section OxfordPaths.
Import PyStr PathLib.

Lemma join_app_two (l : list string) (a b : string) :
  exists prefix, join "/" (l ++ [a; b]) = prefix +:+ a +:+ "/" +:+ b.
Proof.
  induction l as [|x l IH].
  - exists "". reflexivity.
  - destruct IH as (prefix & IH). exists (x +:+ "/" +:+ prefix).
    change ((x :: l) ++ [a; b]) with (x :: (l ++ [a; b])).
    destruct (l ++ [a; b]) as [|y rest] eqn:E.
    + destruct l; discriminate.
    + change (join "/" (x :: y :: rest)) with (x +:+ "/" +:+ join "/" (y :: rest)).
      rewrite IH, !append_assoc. reflexivity.
Qed.

Lemma str_app_two (p : Path) (a b : string) :
  exists prefix, str (MkPath (root p) (parts p ++ [a; b])) = prefix +:+ a +:+ "/" +:+ b.
Proof.
  destruct (join_app_two (parts p) a b) as (prefix & H).
  exists (root p +:+ prefix). unfold str. cbn [parts root].
  destruct (parts p ++ [a; b]) as [|y rest] eqn:E.
  - destruct (parts p); discriminate.
  - rewrite H, append_assoc. reflexivity.
Qed.

(** a path whose last directory ends in [None] has [None] in its text *)
Lemma contains_None (p : Path) (l : list string) (stem b : string) :
  contains "None" (str (MkPath (root p) ((parts p ++ l) ++ [stem +:+ "None"; b]))).
Proof.
  destruct (str_app_two (MkPath (root p) (parts p ++ l)) (stem +:+ "None") b)
    as (prefix & H).
  cbn [root parts] in H. rewrite H.
  exists (prefix +:+ stem), ("/" +:+ b). rewrite !append_assoc. reflexivity.
Qed.

Lemma truediv_neq (p : Path) (s t : string) :
  path_root s = "" -> path_root t = "" -> path_parts s <> path_parts t ->
  p </> s <> p </> t.
Proof.
  intros Hs Ht Hne H. rewrite (truediv_relative p s Hs), (truediv_relative p t Ht) in H.
  injection H as H. apply app_inv_head in H. contradiction.
Qed.

End OxfordPaths.

Section OxfordRun.
Import PyStr PathLib PyMonad M0MtCorrection AslPerfusion.
Variable exec : list string -> gmap string string -> Z * gmap string string.

(** with the four entries in the ledger, [run_oxford_asl] hands one
    command to the shell: the joined argument list *)
Lemma run_oxford_asl_command (subject_dir : Path) (nobc : bool)
    (fs json_dict : gmap string string)
    (structasl beta_perf T1w_acpc T1w_acpc_brain : string) :
  load_json subject_dir fs = (Ok json_dict, fs) ->
  json_dict !! "structasl" = Some structasl ->
  json_dict !! "beta_perf" = Some beta_perf ->
  json_dict !! "T1w_acpc" = Some T1w_acpc ->
  json_dict !! "T1w_acpc_brain" = Some T1w_acpc_brain ->
  List.map ev_cmd (trace (snd (run_oxford_asl exec subject_dir nobc (MkProc fs []))))
  = [["/bin/sh"; "-c";
      join " " (oxford_asl_cmd (of_str structasl) (ext_of nobc)
                               beta_perf T1w_acpc T1w_acpc_brain)]].
Proof.
  intros Hload Hs Hb Ht Htb.
  unfold run_oxford_asl, bind, on_world, getitem, ret. cbn [world trace].
  rewrite Hload, Hs, Hb, Ht, Htb.
  unfold subprocess_run. cbn [world trace].
  destruct (exec _ fs) as [status fs'].
  cbn [andb]. unfold update_local. cbn [world trace].
  destruct (update_json _ _) as [[u|e] ls]; reflexivity.
Qed.

End OxfordRun.


(** C10. With [nobc=False] the extension is [None], and the f-strings
    format it as the text [None]: the results directory is
    [TIsNone/OxfordASL] under the structural directory, the partial
    volume estimates are in [PVEsNone], the calibration image in
    [Calib/Calib0/DistCorrNone] and the brain mask in [regNone]; the text
    of each of these paths has [None] in it, and none of them is the path
    with the unsuffixed directory name.  With [nobc=True] the directories
    are [TIs_nobc], [PVEs_nobc], [DistCorr_nobc] and [reg_nobc].  The paths
    are those of the command that [run_oxford_asl] hands to the shell. *)
Theorem run_oxford_asl_paths :
  forall (structasl_dir : Path),
    let no_ext := AslPerfusion.ext_of false in
    let nobc_ext := AslPerfusion.ext_of true in
    (AslPerfusion.oxford_dir structasl_dir no_ext = structasl_dir </> "TIsNone/OxfordASL"
     /\ AslPerfusion.pvgm_name structasl_dir no_ext
        = structasl_dir </> "PVEsNone/pve_GM.nii.gz"
     /\ AslPerfusion.pvwm_name structasl_dir no_ext
        = structasl_dir </> "PVEsNone/pve_WM.nii.gz"
     /\ AslPerfusion.calib_name structasl_dir no_ext
        = structasl_dir </> "Calib/Calib0/DistCorrNone/calib0_dcorr.nii.gz"
     /\ AslPerfusion.brain_mask structasl_dir no_ext
        = structasl_dir </> "regNone/ASL_grid_T1w_acpc_dc_restore_brain_mask.nii.gz")
    /\ (PyStr.contains "None" (PathLib.str (AslPerfusion.oxford_dir structasl_dir no_ext))
        /\ PyStr.contains "None" (PathLib.str (AslPerfusion.pvgm_name structasl_dir no_ext))
        /\ PyStr.contains "None" (PathLib.str (AslPerfusion.pvwm_name structasl_dir no_ext))
        /\ PyStr.contains "None" (PathLib.str (AslPerfusion.calib_name structasl_dir no_ext))
        /\ PyStr.contains "None" (PathLib.str (AslPerfusion.brain_mask structasl_dir no_ext)))
    /\ (AslPerfusion.oxford_dir structasl_dir no_ext <> structasl_dir </> "TIs/OxfordASL"
        /\ AslPerfusion.pvgm_name structasl_dir no_ext
           <> structasl_dir </> "PVEs/pve_GM.nii.gz"
        /\ AslPerfusion.pvwm_name structasl_dir no_ext
           <> structasl_dir </> "PVEs/pve_WM.nii.gz"
        /\ AslPerfusion.calib_name structasl_dir no_ext
           <> structasl_dir </> "Calib/Calib0/DistCorr/calib0_dcorr.nii.gz"
        /\ AslPerfusion.brain_mask structasl_dir no_ext
           <> structasl_dir </> "reg/ASL_grid_T1w_acpc_dc_restore_brain_mask.nii.gz")
    /\ (AslPerfusion.oxford_dir structasl_dir nobc_ext
        = structasl_dir </> "TIs_nobc/OxfordASL"
        /\ AslPerfusion.pvgm_name structasl_dir nobc_ext
           = structasl_dir </> "PVEs_nobc/pve_GM.nii.gz"
        /\ AslPerfusion.pvwm_name structasl_dir nobc_ext
           = structasl_dir </> "PVEs_nobc/pve_WM.nii.gz"
        /\ AslPerfusion.calib_name structasl_dir nobc_ext
           = structasl_dir </> "Calib/Calib0/DistCorr_nobc/calib0_dcorr.nii.gz"
        /\ AslPerfusion.brain_mask structasl_dir nobc_ext
           = structasl_dir </> "reg_nobc/ASL_grid_T1w_acpc_dc_restore_brain_mask.nii.gz")
    /\ (forall exec subject_dir nobc fs json_dict beta_perf T1w_acpc T1w_acpc_brain,
          M0MtCorrection.load_json subject_dir fs = (Ok json_dict, fs) ->
          json_dict !! "structasl" = Some (PathLib.str structasl_dir) ->
          PathLib.of_str (PathLib.str structasl_dir) = structasl_dir ->
          json_dict !! "beta_perf" = Some beta_perf ->
          json_dict !! "T1w_acpc" = Some T1w_acpc ->
          json_dict !! "T1w_acpc_brain" = Some T1w_acpc_brain ->
          let ext := AslPerfusion.ext_of nobc in
          let cmd := AslPerfusion.oxford_asl_cmd structasl_dir ext
                       beta_perf T1w_acpc T1w_acpc_brain in
          List.map ev_cmd
            (trace (snd (AslPerfusion.run_oxford_asl exec subject_dir nobc (MkProc fs []))))
          = [["/bin/sh"; "-c"; PyStr.join " " cmd]]
          /\ In ("-o " +:+ PathLib.str (AslPerfusion.oxford_dir structasl_dir ext)) cmd
          /\ In ("-c " +:+ PathLib.str (AslPerfusion.calib_name structasl_dir ext)) cmd
          /\ In ("-m " +:+ PathLib.str (AslPerfusion.brain_mask structasl_dir ext)) cmd
          /\ In ("--pvgm=" +:+ PathLib.str (AslPerfusion.pvgm_name structasl_dir ext)) cmd
          /\ In ("--pvwm=" +:+ PathLib.str (AslPerfusion.pvwm_name structasl_dir ext)) cmd).
Proof.
  intros sd no_ext nobc_ext.
  split; [repeat split; reflexivity|].
  split.
  { unfold AslPerfusion.oxford_dir, AslPerfusion.pvgm_name, AslPerfusion.pvwm_name,
      AslPerfusion.calib_name, AslPerfusion.brain_mask.
    repeat split.
    - rewrite truediv_relative by reflexivity.
      rewrite <- (app_nil_r (parts sd)). apply (contains_None sd [] "TIs").
    - rewrite truediv_relative by reflexivity.
      rewrite <- (app_nil_r (parts sd)). apply (contains_None sd [] "PVEs").
    - rewrite truediv_relative by reflexivity.
      rewrite <- (app_nil_r (parts sd)). apply (contains_None sd [] "PVEs").
    - rewrite truediv_relative by reflexivity.
      change (PathLib.path_parts _) with (["Calib"; "Calib0"] ++ ["DistCorr" +:+ "None"; "calib0_dcorr.nii.gz"]).
      rewrite app_assoc. apply (contains_None sd ["Calib"; "Calib0"] "DistCorr").
    - rewrite truediv_relative by reflexivity.
      rewrite <- (app_nil_r (parts sd)). apply (contains_None sd [] "reg"). }
  split.
  { repeat split; apply truediv_neq; try reflexivity; discriminate. }
  split; [repeat split; reflexivity|].
  intros exec subject_dir nobc fs json_dict beta_perf T1w_acpc T1w_acpc_brain
         Hload Hs Hround Hb Ht Htb ext cmd.
  split.
  - rewrite (run_oxford_asl_command exec subject_dir nobc fs json_dict _ _ _ _
               Hload Hs Hb Ht Htb).
    rewrite Hround. reflexivity.
  - unfold cmd, AslPerfusion.oxford_asl_cmd. cbn [In]. repeat split; tauto.
Qed.

(** The run of a subject whose structural directory is
    [/study/s/T1w/ASL]: the command names [TIsNone], [PVEsNone],
    [DistCorrNone] and [regNone]. *)
Lemma run_oxford_asl_paths_witness :
    List.map ev_cmd
      (trace (snd (AslPerfusion.run_oxford_asl (fun _ fs => (0, fs))
                     (PathLib.of_str "/study/s") false
                     (MkProc {[ "/study/s/ASL/ASL.json" :=
                                  Json.dumps (list_to_map
                                    [("structasl", "/study/s/T1w/ASL");
                                     ("beta_perf", "/study/s/beta_perf.nii.gz");
                                     ("T1w_acpc", "/study/s/T1w.nii.gz");
                                     ("T1w_acpc_brain", "/study/s/T1w_brain.nii.gz");
                                     ("json_name", "/study/s/ASL/ASL.json")]) ]} []))))
    = [["/bin/sh"; "-c";
        "oxford_asl -i /study/s/beta_perf.nii.gz -o /study/s/T1w/ASL/TIsNone/OxfordASL"
        +:+ " --casl --ibf=tis --iaf=diff --tis=1.7,2.2,2.7,3.2,3.7 --rpts=6,6,6,10,15"
        +:+ " --fixbolus --bolus=1.5 --pvcorr"
        +:+ " -c /study/s/T1w/ASL/Calib/Calib0/DistCorrNone/calib0_dcorr.nii.gz"
        +:+ " --cmethod=single"
        +:+ " -m /study/s/T1w/ASL/regNone/ASL_grid_T1w_acpc_dc_restore_brain_mask.nii.gz"
        +:+ " --pvgm=/study/s/T1w/ASL/PVEsNone/pve_GM.nii.gz"
        +:+ " --pvwm=/study/s/T1w/ASL/PVEsNone/pve_WM.nii.gz"
        +:+ " --te=19 --debug --spatial=off --slicedt=0.059"
        +:+ " -s /study/s/T1w.nii.gz --sbrain=/study/s/T1w_brain.nii.gz --sliceband=10"]].
Proof.
  destruct (run_oxford_asl_paths (PathLib.of_str "/study/s/T1w/ASL"))
    as (_ & _ & _ & _ & Hrun).
  destruct (Hrun (fun _ fs => (0, fs)) (PathLib.of_str "/study/s") false
              {[ "/study/s/ASL/ASL.json" :=
                   Json.dumps (list_to_map
                     [("structasl", "/study/s/T1w/ASL");
                      ("beta_perf", "/study/s/beta_perf.nii.gz");
                      ("T1w_acpc", "/study/s/T1w.nii.gz");
                      ("T1w_acpc_brain", "/study/s/T1w_brain.nii.gz");
                      ("json_name", "/study/s/ASL/ASL.json")]) ]}
              (list_to_map
                 [("structasl", "/study/s/T1w/ASL");
                  ("beta_perf", "/study/s/beta_perf.nii.gz");
                  ("T1w_acpc", "/study/s/T1w.nii.gz");
                  ("T1w_acpc_brain", "/study/s/T1w_brain.nii.gz");
                  ("json_name", "/study/s/ASL/ASL.json")])
              "/study/s/beta_perf.nii.gz" "/study/s/T1w.nii.gz" "/study/s/T1w_brain.nii.gz")
    as (Hcmd & _).
  - apply load_json_text with (text := Json.dumps (list_to_map
                     [("structasl", "/study/s/T1w/ASL");
                      ("beta_perf", "/study/s/beta_perf.nii.gz");
                      ("T1w_acpc", "/study/s/T1w.nii.gz");
                      ("T1w_acpc_brain", "/study/s/T1w_brain.nii.gz");
                      ("json_name", "/study/s/ASL/ASL.json")])).
    + vm_compute. reflexivity.
    + apply loads_dumps.
  - vm_compute. reflexivity.
  - vm_compute. reflexivity.
  - vm_compute. reflexivity.
  - vm_compute. reflexivity.
  - vm_compute. reflexivity.
  - rewrite Hcmd. vm_compute. reflexivity.
Defined.


(** ** Transform chains *)

Section ChainInversion.
Import TransformChain.
Context {Grid Matrix Field : Type} `{EqDecision Grid}.
Variable mat_inv : Matrix -> option Matrix.
Variable field_inv : Field -> Field.

Abbreviation T := (@Transform Grid Matrix Field).
Abbreviation inv_t := (invert_transform mat_inv field_inv).
Abbreviation inv_c := (invert mat_inv field_inv).

(** the junction of two chains: the last transform of the first agrees
    with the first transform of the second *)
Lemma valid_chain_cons (a : T) (c : list T) :
  valid_chain (a :: c)
  = match head c with Some b => grids_agree a b | None => true end && valid_chain c.
Proof.
  destruct c as [|b c]; reflexivity.
Qed.

Lemma valid_chain_snoc (c : list T) (x : T) :
  valid_chain (c ++ [x])
  = valid_chain c && match last c with Some y => grids_agree y x | None => true end.
Proof.
  induction c as [|a c IH]; [reflexivity|].
  change ((a :: c) ++ [x]) with (a :: (c ++ [x])).
  rewrite !valid_chain_cons, IH.
  destruct c as [|b c]; cbn [head last app].
  - destruct (grids_agree a x); reflexivity.
  - change (last (a :: b :: c)) with (last (b :: c)).
    destruct (grids_agree a b), (valid_chain (b :: c)); reflexivity.
Qed.

Lemma chain_valid (b : list T) :
  forall a : list T,
    valid_chain b = true ->
    chain a b
    = if match last a, head b with
         | Some x, Some y => grids_agree x y
         | _, _ => true
         end
      then Done (a ++ b) else Failed GridMismatchError.
Proof.
  induction b as [|t b IH]; intros a Hb.
  - cbn [chain head]. rewrite app_nil_r. destruct (last a); reflexivity.
  - rewrite valid_chain_cons in Hb. apply andb_prop in Hb. destruct Hb as [Hj Hb].
    cbn [chain head]. unfold compose.
    assert (Hnext : chain (a ++ [t]) b = Done (a ++ t :: b)).
    { rewrite IH by exact Hb. rewrite last_snoc.
      destruct (head b); [rewrite Hj|]; rewrite <- app_assoc; reflexivity. }
    destruct (last a) as [x|].
    + destruct (grids_agree x t); [exact Hnext|reflexivity].
    + exact Hnext.
Qed.

Lemma all_done_app {A B : Type} (f : A -> Outcome B) (l1 l2 : list A) :
  all_done f (l1 ++ l2)
  = and_then (all_done f l1) (fun r1 =>
      and_then (all_done f l2) (fun r2 => Done (r1 ++ r2))).
Proof.
  induction l1 as [|x l1 IH].
  - cbn. destruct (all_done f l2); reflexivity.
  - cbn [app all_done]. rewrite IH.
    destruct (f x) as [y|e]; [|reflexivity]. cbn [and_then].
    destruct (all_done f l1) as [r1|e]; [|reflexivity]. cbn [and_then].
    destruct (all_done f l2) as [r2|e]; reflexivity.
Qed.

(** inverting a chain of two chains inverts the second, then the first *)
Lemma invert_app (a b : list T) :
  inv_c (a ++ b)
  = and_then (inv_c b) (fun b' => and_then (inv_c a) (fun a' => Done (b' ++ a'))).
Proof.
  unfold invert. rewrite rev_app_distr. apply all_done_app.
Qed.

(** an inverse maps the reference grid back onto the source grid *)
Lemma invert_transform_grids (t t' : T) :
  inv_t t = Done t' -> src_grid t' = ref_grid t /\ ref_grid t' = src_grid t.
Proof.
  destruct t as [|s r M|s r f ic cj|s r series]; cbn.
  - intros [= <-]. auto.
  - unfold invert_matrix. destruct (mat_inv M); cbn; [|discriminate].
    intros [= <-]. auto.
  - intros [= <-]. auto.
  - destruct (all_done _ series); cbn; [|discriminate]. intros [= <-]. auto.
Qed.

Lemma grids_agree_inverse (a b a' b' : T) :
  inv_t a = Done a' -> inv_t b = Done b' -> grids_agree b' a' = grids_agree a b.
Proof.
  intros Ha Hb.
  destruct (invert_transform_grids a a' Ha) as [Hsa Hra].
  destruct (invert_transform_grids b b' Hb) as [Hsb Hrb].
  unfold grids_agree. rewrite Hrb, Hsa.
  destruct (ref_grid a) as [g|], (src_grid b) as [h|]; try reflexivity.
  apply bool_decide_ext. split; congruence.
Qed.

Lemma invert_cons (t : T) (c : list T) :
  inv_c (t :: c)
  = and_then (inv_c c) (fun c' => and_then (inv_t t) (fun t' => Done (c' ++ [t']))).
Proof.
  change (t :: c) with ([t] ++ c). rewrite invert_app.
  destruct (inv_c c) as [c'|e]; [|reflexivity]. cbn.
  destruct (inv_t t) as [t'|e]; reflexivity.
Qed.

(** the inverse of a valid chain is a valid chain; its last transform is
    the inverse of the first, and its first the inverse of the last *)
Lemma invert_valid (c : list T) :
  forall c',
    valid_chain c = true -> inv_c c = Done c' ->
    valid_chain c' = true
    /\ match head c, last c' with
       | Some h, Some l' => inv_t h = Done l'
       | None, None => True
       | _, _ => False
       end
    /\ match last c, head c' with
       | Some l, Some h' => inv_t l = Done h'
       | None, None => True
       | _, _ => False
       end.
Proof.
  induction c as [|t c IH]; intros c' Hv Hi.
  - injection Hi as <-. cbn. auto.
  - rewrite invert_cons in Hi.
    destruct (inv_c c) as [c0|e] eqn:Ec; [|discriminate]. cbn [and_then] in Hi.
    destruct (inv_t t) as [t'|e] eqn:Et; [|discriminate]. cbn [and_then] in Hi.
    injection Hi as <-.
    rewrite valid_chain_cons in Hv. apply andb_prop in Hv. destruct Hv as [Hj Hv].
    destruct (IH c0 Hv eq_refl) as (Hv0 & Hhead & Hlast).
    split; [|split].
    + rewrite valid_chain_snoc, Hv0. cbn [andb].
      destruct (head c) as [h|], (last c0) as [l'|]; try contradiction; [|reflexivity].
      rewrite (grids_agree_inverse t h t' l' Et Hhead). exact Hj.
    + cbn [head]. rewrite last_snoc. exact Et.
    + destruct c as [|b c].
      * injection Ec as <-. cbn. exact Et.
      * change (last (t :: b :: c)) with (last (b :: c)).
        destruct (last (b :: c)) as [l|] eqn:El;
          [|apply last_None in El; discriminate].
        destruct (head c0) as [h'|] eqn:Eh; [|contradiction].
        destruct c0 as [|x c0]; [discriminate|]. cbn in Eh. injection Eh as ->.
        cbn. exact Hlast.
Qed.

End ChainInversion.

(** C2.  Let A and B be valid chains whose composition [chain A B] is the
    chain C.  Inverting C gives what composing the inverse of B with the
    inverse of A gives: the same chain, or the same failure on a singular
    matrix.  Hence, when both are chains, they map every world coordinate
    to the same coordinate at every timepoint (the two chains are equal,
    which is more than equality within a tolerance); and C itself maps a
    coordinate as A, then B. *)
Theorem invert_chain_reverses :
  forall (Grid Matrix Field Coord : Type) (Heq : EqDecision Grid)
         (mat_inv : Matrix -> option Matrix) (field_inv : Field -> Field)
         (apply_matrix : Matrix -> Coord -> Coord)
         (apply_field : Field -> Coord -> Coord)
         (A B C : list (@TransformChain.Transform Grid Matrix Field)),
    TransformChain.valid_chain A = true ->
    TransformChain.valid_chain B = true ->
    TransformChain.chain A B = TransformChain.Done C ->
    let inverse_of_chain := TransformChain.invert mat_inv field_inv C in
    let chain_of_inverses :=
      TransformChain.and_then (TransformChain.invert mat_inv field_inv B) (fun B' =>
        TransformChain.and_then (TransformChain.invert mat_inv field_inv A) (fun A' =>
          TransformChain.chain B' A')) in
    inverse_of_chain = chain_of_inverses
    /\ (forall Ci Di,
          inverse_of_chain = TransformChain.Done Ci ->
          chain_of_inverses = TransformChain.Done Di ->
          forall timepoint x,
            TransformChain.apply_chain apply_matrix apply_field timepoint Ci x
            = TransformChain.apply_chain apply_matrix apply_field timepoint Di x)
    /\ (forall timepoint x,
          TransformChain.apply_chain apply_matrix apply_field timepoint C x
          = TransformChain.apply_chain apply_matrix apply_field timepoint B
              (TransformChain.apply_chain apply_matrix apply_field timepoint A x)).
Proof.
  intros Grid Matrix Field Coord Heq mat_inv field_inv apply_matrix apply_field
         A B C HA HB HC inverse_of_chain chain_of_inverses.
  rewrite (chain_valid B A HB) in HC.
  destruct (match last A, head B with
            | Some x, Some y => TransformChain.grids_agree x y
            | _, _ => true
            end) eqn:Hj; [|discriminate].
  injection HC as <-.
  assert (Heqn : inverse_of_chain = chain_of_inverses).
  { unfold inverse_of_chain, chain_of_inverses. rewrite invert_app.
    destruct (TransformChain.invert mat_inv field_inv B) as [B'|e] eqn:EB; [|reflexivity].
    cbn [TransformChain.and_then].
    destruct (TransformChain.invert mat_inv field_inv A) as [A'|e] eqn:EA; [|reflexivity].
    cbn [TransformChain.and_then].
    destruct (invert_valid mat_inv field_inv A A' HA EA) as (HA' & _ & HlastA).
    destruct (invert_valid mat_inv field_inv B B' HB EB) as (_ & HheadB & _).
    rewrite (chain_valid A' B' HA').
    destruct (last A) as [x|], (head A') as [x'|]; try contradiction;
      destruct (head B) as [y|], (last B') as [y'|]; try contradiction;
      try reflexivity.
    rewrite (grids_agree_inverse mat_inv field_inv x y x' y' HlastA HheadB), Hj.
    reflexivity. }
  split; [exact Heqn|]. split.
  - intros Ci Di HCi HDi timepoint x. rewrite Heqn, HDi in HCi.
    injection HCi as ->. reflexivity.
  - intros timepoint x. unfold TransformChain.apply_chain. apply fold_left_app.
Qed.

(** The registration of the series to the calibration image, then of the
    calibration image to the structural image, the matrices being
    translations along one axis: the inverse of the chain is the chain of
    the inverses in the reverse order. *)
Lemma invert_chain_reverses_witness :
  let A : list (@TransformChain.Transform string Z Z) :=
    [TransformChain.Linear "asl" "calib" 2] in
  let B : list (@TransformChain.Transform string Z Z) :=
    [TransformChain.Linear "calib" "struct" 3; TransformChain.Identity] in
  TransformChain.chain A B = TransformChain.Done (A ++ B)
  /\ TransformChain.invert (fun m => Some (- m)) Z.opp (A ++ B)
     = TransformChain.Done [TransformChain.Identity;
                            TransformChain.Linear "struct" "calib" (-3);
                            TransformChain.Linear "calib" "asl" (-2)]
  /\ TransformChain.invert (fun m => Some (- m)) Z.opp (A ++ B)
     = TransformChain.and_then (TransformChain.invert (fun m => Some (- m)) Z.opp B)
         (fun B' =>
            TransformChain.and_then (TransformChain.invert (fun m => Some (- m)) Z.opp A)
              (fun A' => TransformChain.chain B' A')).
Proof.
  cbv zeta. split; [vm_compute; reflexivity|]. split; [vm_compute; reflexivity|].
  apply (invert_chain_reverses string Z Z Z _ (fun m => Some (- m)) Z.opp
           (fun m x => x + m) (fun f x => x + f)
           [TransformChain.Linear "asl" "calib" 2]
           [TransformChain.Linear "calib" "struct" 3; TransformChain.Identity]);
    vm_compute; reflexivity.
Defined.


(** ** The re-entrancy guards of the scripts *)

Section Guards.
Import PyMonad Stage.
Context {W : Type}.
Variable path_exists : string -> W -> bool.
Variable perform : Action -> W -> option PyExc * W.
Variable force_refresh : bool.
Variable exempt : list string.

Abbreviation guarded := (checked_before force_refresh exempt).

Lemma guarded_nil : guarded [].
Proof.
  intros i p H. discriminate.
Qed.

Lemma guarded_snoc (log : list StepEvent) (e : StepEvent) :
  guarded log ->
  (forall p, e = Did (Recompute p) -> In p exempt) ->
  guarded (log ++ [e]).
Proof.
  intros Hlog He i p Hi Hp.
  destruct (lookup_app_Some log [e] i (Did (Recompute p))) as [Hcases _].
  destruct (Hcases Hi) as [Hin|[Hlen Hlast]].
  - destruct (Hlog i p Hin Hp) as (j & found & -> & Hj & Hf).
    exists j, found. split; [reflexivity|]. split; [|exact Hf].
    apply lookup_app_l_Some. exact Hj.
  - destruct (i - length log)%nat; [|discriminate].
    injection Hlast as ->. exfalso. apply Hp. apply He. reflexivity.
Qed.

Lemma guarded_check_recompute (log : list StepEvent) (p : string) (found : bool) :
  guarded log ->
  (found = true -> force_refresh = true) ->
  guarded ((log ++ [Checked p found]) ++ [Did (Recompute p)]).
Proof.
  intros Hlog Hf i q Hi Hq.
  destruct (lookup_app_Some (log ++ [Checked p found]) [Did (Recompute p)] i
              (Did (Recompute q))) as [Hcases _].
  destruct (Hcases Hi) as [Hin|[Hlen Hlast]].
  - assert (Hg : guarded (log ++ [Checked p found])).
    { apply guarded_snoc; [exact Hlog|]. intros p' H. discriminate. }
    destruct (Hg i q Hin Hq) as (j & found' & -> & Hj & Hf').
    exists j, found'. split; [reflexivity|]. split; [|exact Hf'].
    apply lookup_app_l_Some. exact Hj.
  - destruct (i - length (log ++ [Checked p found]))%nat eqn:E; [|discriminate].
    injection Hlast as <-.
    rewrite length_app in Hlen, E. cbn [length] in Hlen, E.
    exists (length log), found. split; [lia|]. split; [|exact Hf].
    rewrite <- app_assoc. rewrite lookup_app_r by lia.
    replace (length log - length log)%nat with 0%nat by lia. reflexivity.
Qed.

Lemma keeps_ret {A : Type} (a : A) :
  keeps (W := W) force_refresh exempt (ret a).
Proof.
  intros r H. exact H.
Qed.

Lemma keeps_bind {A B : Type} (m : Py (Run W) A) (k : A -> Py (Run W) B) :
  keeps force_refresh exempt m -> (forall a, keeps force_refresh exempt (k a)) ->
  keeps force_refresh exempt (bind m k).
Proof.
  intros Hm Hk r H. unfold bind. specialize (Hm r H).
  destruct (m r) as [[a|e] r']; cbn [snd] in *.
  - apply Hk. exact Hm.
  - exact Hm.
Qed.

Lemma keeps_when (c : bool) (body : Py (Run W) unit) :
  keeps force_refresh exempt body -> keeps force_refresh exempt (when c body).
Proof.
  intros H. destruct c; [exact H|apply keeps_ret].
Qed.

Lemma keeps_for_each {A : Type} (l : list A) (body : A -> Py (Run W) unit) :
  (forall x, keeps force_refresh exempt (body x)) -> keeps force_refresh exempt (for_each l body).
Proof.
  intros H. induction l as [|x l IH]; cbn [for_each].
  - apply keeps_ret.
  - apply keeps_bind; [apply H|intros _; exact IH].
Qed.

Lemma keeps_for_each_in {A : Type} (l : list A) (body : A -> Py (Run W) unit) :
  (forall x, In x l -> keeps force_refresh exempt (body x)) ->
  keeps force_refresh exempt (for_each l body).
Proof.
  induction l as [|x l IH]; intros H; cbn [for_each].
  - apply keeps_ret.
  - apply keeps_bind; [apply H; left; reflexivity|].
    intros _. apply IH. intros y Hy. apply H. right. exact Hy.
Qed.

Lemma keeps_if {A : Type} (c : bool) (m1 m2 : Py (Run W) A) :
  keeps force_refresh exempt m1 -> keeps force_refresh exempt m2 ->
  keeps force_refresh exempt (if c then m1 else m2).
Proof.
  intros H1 H2. destruct c; assumption.
Qed.

Lemma guard_implies (found c : bool) :
  (negb found || force_refresh) && c = true -> found = true -> force_refresh = true.
Proof.
  intros H Hf. subst found. destruct force_refresh; [reflexivity|discriminate].
Qed.

Lemma keeps_op_exists (p : string) : keeps force_refresh exempt (op_exists path_exists p).
Proof.
  intros r H. unfold op_exists. cbn [snd rlog].
  apply guarded_snoc; [exact H|]. intros q Hq. discriminate.
Qed.

Lemma keeps_act (a : Action) :
  (forall p, a = Recompute p -> In p exempt) -> keeps force_refresh exempt (act perform a).
Proof.
  intros Ha r H. unfold act. destruct (perform a (rworld r)) as [e w'].
  cbn [snd rlog]. apply guarded_snoc; [exact H|].
  intros p Hp. injection Hp as ->. apply Ha. reflexivity.
Qed.

(** a guarded block: the check of the output, then the recomputation
    under a condition that holds for a found output only under
    [force_refresh] *)
Lemma keeps_block (p : string) (cond : bool -> bool) :
  (forall found, cond found = true -> found = true -> force_refresh = true) ->
  keeps force_refresh exempt (bind (op_exists path_exists p)
              (fun found => when (cond found) (act perform (Recompute p)))).
Proof.
  intros Hc r H. unfold bind, op_exists, when.
  destruct (cond (path_exists p (rworld r))) eqn:Ec.
  - unfold act. cbn [rworld rlog].
    destruct (perform (Recompute p) (rworld r)) as [e w']. cbn [snd rlog].
    apply guarded_check_recompute; [exact H|]. apply Hc. exact Ec.
  - unfold ret. cbn [snd rlog].
    apply guarded_snoc; [exact H|]. intros q Hq. discriminate.
Qed.

End Guards.

Ltac keep_guard :=
  repeat first
    [ apply keeps_ret
    | apply keeps_block;
      let found := fresh "found" in
      let H := fresh "H" in
      intros found H;
      first [ exact (guard_implies _ found _ H)
            | apply (guard_implies _ found true); rewrite andb_true_r; exact H
            | apply andb_prop in H; destruct H as [H _];
              exact (guard_implies _ found _ H) ]
    | apply keeps_for_each; intros
    | apply keeps_when
    | apply keeps_if
    | apply keeps_bind; [|intros]
    | apply keeps_act;
      let p := fresh "p" in
      let H := fresh "H" in
      intros p H; first [discriminate | injection H as <-; left; reflexivity] ].

Lemma distcorr_main_body_guarded {W : Type} (path_exists : string -> W -> bool)
    (perform : Stage.Action -> W -> option PyExc * W) (abspath : string -> string)
    (force_refresh : bool) (args : DistcorrWarps.Args) :
  Stage.keeps force_refresh [DistcorrWarps.fmap_struct_name abspath args]
    (DistcorrWarps.main_body path_exists perform abspath force_refresh args).
Proof.
  unfold DistcorrWarps.main_body, DistcorrWarps.fmap_struct_name,
    DistcorrWarps.reg_dir, DistcorrWarps.t1_asl_dir.
  cbv zeta. keep_guard.
Qed.

Lemma prepare_main_body_guarded {W : Type} (path_exists : string -> W -> bool)
    (perform : Stage.Action -> W -> option PyExc * W) (abspath : string -> string)
    (force_refresh : bool) (args : PrepareT1aslSpace.Args) :
  Stage.keeps force_refresh (PrepareT1aslSpace.pve_outputs abspath args)
    (PrepareT1aslSpace.main_body path_exists perform abspath force_refresh args).
Proof.
  unfold PrepareT1aslSpace.main_body. cbv zeta.
  apply keeps_bind; [|intros _; apply keeps_bind; [|intros _]].
  - apply keeps_block. intros found H.
    apply (guard_implies _ found true). rewrite andb_true_r. exact H.
  - apply keeps_block. intros found H.
    apply (guard_implies _ found true). rewrite andb_true_r. exact H.
  - apply keeps_bind; [apply keeps_op_exists|]. intros found.
    apply keeps_when. apply keeps_for_each_in. intros p Hp.
    apply keeps_act. intros q Hq. injection Hq as <-. exact Hp.
Qed.

(** *** With [force_refresh] set, the checks decide nothing *)

Section Override.
Import PyMonad Stage.
Context {W : Type}.
Variables path_exists1 path_exists2 : string -> W -> bool.
Variable perform : Action -> W -> option PyExc * W.

Lemma same_ret {A : Type} (a : A) : same_steps (W := W) (ret a) (ret a).
Proof.
  intros r1 r2 H. split; [reflexivity|exact H].
Qed.

Lemma same_bind {A B : Type} (m1 m2 : Py (Run W) A) (k1 k2 : A -> Py (Run W) B) :
  same_steps m1 m2 -> (forall a, same_steps (k1 a) (k2 a)) ->
  same_steps (bind m1 k1) (bind m2 k2).
Proof.
  intros Hm Hk r1 r2 H. unfold bind.
  destruct (Hm r1 r2 H) as [Hres Hrun].
  destruct (m1 r1) as [[a1|e1] r1'], (m2 r2) as [[a2|e2] r2']; cbn [fst snd] in *;
    try discriminate.
  - injection Hres as ->. apply Hk. exact Hrun.
  - injection Hres as ->. split; [reflexivity|exact Hrun].
Qed.

Lemma same_when (c : bool) (b1 b2 : Py (Run W) unit) :
  same_steps b1 b2 -> same_steps (when c b1) (when c b2).
Proof.
  intros H. destruct c; [exact H|apply same_ret].
Qed.

Lemma same_if {A : Type} (c : bool) (m1 m2 n1 n2 : Py (Run W) A) :
  same_steps m1 m2 -> same_steps n1 n2 ->
  same_steps (if c then m1 else n1) (if c then m2 else n2).
Proof.
  intros H1 H2. destruct c; assumption.
Qed.

Lemma same_for_each {A : Type} (l : list A) (b1 b2 : A -> Py (Run W) unit) :
  (forall x, same_steps (b1 x) (b2 x)) -> same_steps (for_each l b1) (for_each l b2).
Proof.
  intros H. induction l as [|x l IH]; cbn [for_each].
  - apply same_ret.
  - apply same_bind; [apply H|intros _; exact IH].
Qed.

Lemma same_act (a : Action) : same_steps (act perform a) (act perform a).
Proof.
  intros r1 r2 [Hw Hl]. unfold act. rewrite Hw.
  destruct (perform a (rworld r2)) as [e w']. cbn [fst snd].
  split; [reflexivity|]. split; [reflexivity|].
  cbn [rlog]. rewrite !map_app, Hl. reflexivity.
Qed.

(** a guarded block whose condition does not depend on the answer of the
    check *)
Lemma same_block (p : string) (cond : bool -> bool) (body : Py (Run W) unit) :
  (forall found, cond found = cond true) ->
  same_steps body body ->
  same_steps (bind (op_exists path_exists1 p) (fun found => when (cond found) body))
             (bind (op_exists path_exists2 p) (fun found => when (cond found) body)).
Proof.
  intros Hc Hb r1 r2 [Hw Hl]. unfold bind, op_exists.
  rewrite (Hc (path_exists1 p (rworld r1))), (Hc (path_exists2 p (rworld r2))).
  apply same_when; [exact Hb|]. split; [exact Hw|].
  cbn [rlog]. rewrite !map_app, Hl. reflexivity.
Qed.

Lemma override_hides_found (found c : bool) :
  (negb found || true) && c = (negb true || true) && c.
Proof.
  destruct found; reflexivity.
Qed.

End Override.

Ltac same_guard :=
  repeat first
    [ apply same_ret
    | apply same_act
    | apply same_block;
      [ let found := fresh "found" in
        intros found;
        first [ apply override_hides_found
              | destruct found; reflexivity ]
      | ]
    | apply same_for_each; intros
    | apply same_when
    | apply same_if
    | apply same_bind; [|intros] ].

Lemma distcorr_main_ignores_existence {W : Type}
    (path_exists1 path_exists2 : string -> W -> bool)
    (perform : Stage.Action -> W -> option PyExc * W) (abspath : string -> string)
    (args : DistcorrWarps.Args) :
  Stage.same_steps (DistcorrWarps.main path_exists1 perform abspath args)
                   (DistcorrWarps.main path_exists2 perform abspath args).
Proof.
  unfold DistcorrWarps.main, DistcorrWarps.main_body. cbv zeta. same_guard.
Qed.

Lemma prepare_main_ignores_existence {W : Type}
    (path_exists1 path_exists2 : string -> W -> bool)
    (perform : Stage.Action -> W -> option PyExc * W) (abspath : string -> string)
    (args : PrepareT1aslSpace.Args) :
  Stage.same_steps (PrepareT1aslSpace.main path_exists1 perform abspath args)
                   (PrepareT1aslSpace.main path_exists2 perform abspath args).
Proof.
  unfold PrepareT1aslSpace.main, PrepareT1aslSpace.main_body. cbv zeta. same_guard.
Qed.





(* ===================================================================== *)
(** * Further properties of the sources *)
(* ===================================================================== *)

(** ** The ledger: failure and composition of puts *)

(** X1. When neither the ledger nor the new entries store a path under
    ["json_name"], [update_json] raises [KeyError('json_name')].  The
    dict object has then already received the new entries (the update is
    not undone), and no file is written. *)
Theorem update_json_without_path :
  forall (new_dict old fs : gmap string string),
    (new_dict ∪ old) !! "json_name" = None ->
    M0MtCorrection.update_json new_dict
      {| M0MtCorrection.old_dict := old; M0MtCorrection.files := fs |}
    = (Raise (KeyError "json_name"),
       {| M0MtCorrection.old_dict := new_dict ∪ old; M0MtCorrection.files := fs |})
    /\ (forall k v, new_dict !! k = Some v -> (new_dict ∪ old) !! k = Some v).
Proof.
  intros new_dict old fs H. split.
  - unfold M0MtCorrection.update_json, PyMonad.bind, PyMonad.modify, PyMonad.get,
      PyMonad.raise.
    cbn [M0MtCorrection.old_dict M0MtCorrection.files]. rewrite H. reflexivity.
  - intros k v Hk. apply lookup_union_Some_l. exact Hk.
Qed.

Lemma update_json_without_path_witness :
  M0MtCorrection.update_json {[ "calib0_bias" := "/s/bias.nii.gz" ]}
    {| M0MtCorrection.old_dict := {[ "calib0_img" := "/s/calib0.nii.gz" ]};
       M0MtCorrection.files := ∅ |}
  = (Raise (KeyError "json_name"),
     {| M0MtCorrection.old_dict :=
          {[ "calib0_bias" := "/s/bias.nii.gz" ]} ∪ {[ "calib0_img" := "/s/calib0.nii.gz" ]};
        M0MtCorrection.files := ∅ |}).
Proof.
  apply (update_json_without_path {[ "calib0_bias" := "/s/bias.nii.gz" ]}
           {[ "calib0_img" := "/s/calib0.nii.gz" ]} ∅).
  vm_compute. reflexivity.
Defined.

Lemma update_json_then (a b d fs : gmap string string) (p q : string) :
  (a ∪ d) !! "json_name" = Some p ->
  (b ∪ (a ∪ d)) !! "json_name" = Some q ->
  PathLib.str (PathLib.of_str q) = PathLib.str (PathLib.of_str p) ->
  PyMonad.for_each [a; b] M0MtCorrection.update_json
    {| M0MtCorrection.old_dict := d; M0MtCorrection.files := fs |}
  = M0MtCorrection.update_json (b ∪ a)
      {| M0MtCorrection.old_dict := d; M0MtCorrection.files := fs |}.
Proof.
  intros Hp Hq Hpath.
  cbn [PyMonad.for_each]. unfold PyMonad.bind at 1.
  rewrite (update_json_ok a d fs p Hp).
  unfold PyMonad.bind at 1.
  rewrite (update_json_ok b (a ∪ d) _ q Hq).
  assert (Hassoc : (b ∪ a) ∪ d = b ∪ (a ∪ d)) by (symmetry; apply (assoc_L (∪))).
  rewrite (update_json_ok (b ∪ a) d fs q) by (rewrite Hassoc; exact Hq).
  rewrite Hassoc, Hpath, insert_insert_eq. reflexivity.
Qed.

(** X2. Puts compose: when a put of [a] succeeds, putting [a] again
    changes nothing more, and putting [b] after it leaves the dict
    object and the file system as the single put of [b] over [a] does,
    provided the ledger file is the same after both. *)
Theorem update_json_composes :
  forall (a d fs : gmap string string) (p : string),
    (a ∪ d) !! "json_name" = Some p ->
    PyMonad.for_each [a; a] M0MtCorrection.update_json
      {| M0MtCorrection.old_dict := d; M0MtCorrection.files := fs |}
    = M0MtCorrection.update_json a
        {| M0MtCorrection.old_dict := d; M0MtCorrection.files := fs |}
    /\ (forall (b : gmap string string) (q : string),
          (b ∪ (a ∪ d)) !! "json_name" = Some q ->
          PathLib.str (PathLib.of_str q) = PathLib.str (PathLib.of_str p) ->
          PyMonad.for_each [a; b] M0MtCorrection.update_json
            {| M0MtCorrection.old_dict := d; M0MtCorrection.files := fs |}
          = M0MtCorrection.update_json (b ∪ a)
              {| M0MtCorrection.old_dict := d; M0MtCorrection.files := fs |}).
Proof.
  intros a d fs p Hp. split.
  - assert (Haa : a ∪ (a ∪ d) = a ∪ d).
    { rewrite (assoc_L (∪)), (idemp_L (∪) a). reflexivity. }
    rewrite (update_json_then a a d fs p p Hp).
    + rewrite (idemp_L (∪) a). reflexivity.
    + rewrite Haa. exact Hp.
    + reflexivity.
  - intros b q Hq Hpath. exact (update_json_then a b d fs p q Hp Hq Hpath).
Qed.

Lemma update_json_composes_witness :
  PyMonad.for_each [ ({[ "calib0_bias" := "/s/b0.nii.gz" ]} : gmap string string);
                     {[ "calib0_corr" := "/s/c0.nii.gz" ]} ]
    M0MtCorrection.update_json
    {| M0MtCorrection.old_dict := {[ "json_name" := "/s/ASL/ASL.json" ]};
       M0MtCorrection.files := ∅ |}
  = M0MtCorrection.update_json
      ({[ "calib0_corr" := "/s/c0.nii.gz" ]} ∪ {[ "calib0_bias" := "/s/b0.nii.gz" ]})
      {| M0MtCorrection.old_dict := {[ "json_name" := "/s/ASL/ASL.json" ]};
         M0MtCorrection.files := ∅ |}.
Proof.
  destruct (update_json_composes {[ "calib0_bias" := "/s/b0.nii.gz" ]}
              {[ "json_name" := "/s/ASL/ASL.json" ]} ∅ "/s/ASL/ASL.json")
    as [_ H].
  - vm_compute. reflexivity.
  - apply (H {[ "calib0_corr" := "/s/c0.nii.gz" ]} "/s/ASL/ASL.json").
    + vm_compute. reflexivity.
    + reflexivity.
Defined.


(** ** The working directory and [SUBJECTS_DIR] around bbregister *)



(** ** The arterial component and the programs of the fit driver *)

(** X4. Every estimation command of [do_basil] starts with the same 24
    arguments (the stage-specific ones are appended to a copy of the
    shared list, which no stage changes), and [--inferart] is given once
    at stages 1 and 3 and at no other stage.  The thresholding of a stage
    reads and writes the same file, [mean_ftiss.func.gii] in the output
    directory of that stage.  In every run, each program invoked is
    [fabber_asl] or [wb_command]. *)
Theorem do_basil_inferart_and_programs :
  forall (W : Type) (exec : list string -> W -> Z * W)
         (perf_name mean_name : Path) (surf_name : string)
         (tiimg_name out_dir : Path) (w : W),
    let fit := AnalysisOnSurface.it_command perf_name mean_name surf_name tiimg_name out_dir in
    let clamp := AnalysisOnSurface.threshold_cmd out_dir in
    let run := AnalysisOnSurface.do_basil exec perf_name mean_name surf_name
                 tiimg_name out_dir (MkProc w []) in
    let log := trace (snd run) in
    (forall i, In i (range 5) ->
       firstn 24 (fit i) = AnalysisOnSurface.base_command surf_name tiimg_name
       /\ List.filter (String.eqb "--inferart") (fit i)
          = (if (i =? 1) || (i =? 3) then ["--inferart"] else [])
       /\ clamp i
          = (let ftiss := PathLib.str (AnalysisOnSurface.temp_out out_dir i
                                       </> "mean_ftiss.func.gii") in
             ["wb_command"; "-metric-math"; "max(x, 0)"; ftiss; "-var"; "x"; ftiss]))
    /\ Forall (fun e => List.head (ev_cmd e) = Some "fabber_asl"
                        \/ List.head (ev_cmd e) = Some "wb_command") log.
Proof.
  intros W exec perf_name mean_name surf_name tiimg_name out_dir w fit clamp run log.
  split.
  - intros i Hi.
    destruct (in_range_5 i Hi) as [->|[->|[->|[->| ->]]]];
      (split; [reflexivity|split; reflexivity]).
  - assert (Hc := do_basil_checked_run exec perf_name mean_name surf_name tiimg_name
                    out_dir w (fst run) (snd run) (surjective_pairing run)).
    fold log in Hc.
    apply List.Forall_forall. intros e He.
    apply In_nth_error in He. destruct He as [k Hk].
    assert (Hk' : log !! k = Some e).
    { clear -Hk. revert k Hk. induction log as [|x l IH]; intros [|k] Hk;
        try discriminate; [exact Hk|apply IH; exact Hk]. }
    apply (checked_run_nth exec _ _ _ _ _ Hc) in Hk'.
    do 10 (destruct k as [|k];
           [injection Hk' as <-; first [left; reflexivity|right; reflexivity]|]).
    discriminate.
Qed.


(** ** The outputs of the two scripts *)

Section Emits.
Import PyMonad Stage.
Context {W : Type}.
Variable path_exists : string -> W -> bool.
Variable perform : Action -> W -> option PyExc * W.

Lemma recomputed_app (l1 l2 : list StepEvent) :
  recomputed (l1 ++ l2) = recomputed l1 ++ recomputed l2.
Proof.
  unfold recomputed. apply omap_app.
Qed.

Lemma emits_ret {A : Type} (a : A) : emits (W := W) (ret a) [].
Proof.
  intros r. exists 0%nat. cbn. rewrite app_nil_r. auto.
Qed.

Lemma emits_bind {A B : Type} (m : Py (Run W) A) (k : A -> Py (Run W) B)
    (l1 l2 : list string) :
  emits m l1 -> (forall a, emits (k a) l2) -> emits (bind m k) (l1 ++ l2).
Proof.
  intros Hm Hk r. unfold bind. destruct (Hm r) as (n1 & Hn1 & Hl1 & Hok1).
  destruct (m r) as [[a|e] r1]; cbn [fst snd] in *.
  - specialize (Hok1 a eq_refl). subst n1.
    destruct (Hk a r1) as (n2 & Hn2 & Hl2 & Hok2).
    exists (length l1 + n2)%nat. split; [rewrite length_app; lia|]. split.
    + rewrite Hl2, Hl1, firstn_all, firstn_app_2, app_assoc. reflexivity.
    + intros b Hb. rewrite length_app. rewrite (Hok2 b Hb). reflexivity.
  - exists n1. split; [rewrite length_app; lia|]. split.
    + rewrite Hl1, firstn_app.
      replace (n1 - length l1)%nat with 0%nat by lia.
      cbn [firstn]. rewrite app_nil_r. reflexivity.
    + intros b Hb. discriminate.
Qed.

Lemma emits_when (c : bool) (body : Py (Run W) unit) (l : list string) :
  emits body l -> emits (when c body) (if c then l else []).
Proof.
  intros H. destruct c; [exact H|apply emits_ret].
Qed.

Lemma emits_if {A : Type} (c : bool) (m1 m2 : Py (Run W) A) (l1 l2 : list string) :
  emits m1 l1 -> emits m2 l2 -> emits (if c then m1 else m2) (if c then l1 else l2).
Proof.
  intros H1 H2. destruct c; assumption.
Qed.

Lemma emits_op_exists (p : string) : emits (op_exists path_exists p) [].
Proof.
  intros r. exists 0%nat. unfold op_exists. cbn [fst snd rlog firstn length].
  rewrite recomputed_app. cbn. rewrite !app_nil_r. auto.
Qed.

Lemma emits_act (a : Action) :
  emits (act perform a) (match a with Recompute p => [p] | _ => [] end).
Proof.
  intros r. unfold act. destruct (perform a (rworld r)) as [e w'].
  cbn [fst snd rlog]. rewrite recomputed_app.
  destruct a as [d|p|p]; cbn.
  - exists 0%nat. rewrite !app_nil_r. auto.
  - exists 0%nat. rewrite !app_nil_r. auto.
  - exists 1%nat. auto.
Qed.

Lemma emits_makedirs (l : list string) :
  emits (for_each l (fun d => act perform (Makedirs d))) [].
Proof.
  induction l as [|d l IH]; cbn [for_each].
  - apply emits_ret.
  - apply (emits_bind _ _ [] []); [apply (emits_act (Makedirs d))|intros _; exact IH].
Qed.

Lemma emits_recomputes (l : list string) :
  emits (for_each l (fun p => act perform (Recompute p))) l.
Proof.
  induction l as [|p l IH]; cbn [for_each].
  - apply emits_ret.
  - apply (emits_bind _ _ [p] l); [apply (emits_act (Recompute p))|intros _; exact IH].
Qed.

(** a block: the check of the output, then its recomputation under a
    condition that does not depend on what the check found *)
Lemma emits_block (p : string) (cond : bool -> bool) (c : bool) :
  (forall found, cond found = c) ->
  emits (bind (op_exists path_exists p)
              (fun found => when (cond found) (act perform (Recompute p))))
        (if c then [p] else []).
Proof.
  intros Hc.
  apply (emits_bind _ _ [] (if c then [p] else [])); [apply emits_op_exists|].
  intros found. rewrite Hc. apply (emits_when c _ [p]). apply (emits_act (Recompute p)).
Qed.

Lemma emits_eq {A : Type} (m : Py (Run W) A) (l l' : list string) :
  emits m l -> l = l' -> emits m l'.
Proof.
  intros H <-. exact H.
Qed.

End Emits.

Ltac emit_outputs :=
  repeat first
    [ eapply emits_ret
    | eapply emits_block;
      let found := fresh "found" in
      intros found; rewrite orb_true_r; rewrite ?andb_true_l; reflexivity
    | eapply emits_makedirs
    | eapply emits_recomputes
    | eapply emits_when
    | eapply emits_if
    | eapply emits_bind; [|intros]
    | eapply emits_act ].

Lemma distcorr_main_emits {W : Type} (path_exists : string -> W -> bool)
    (perform : Stage.Action -> W -> option PyExc * W) (abspath : string -> string)
    (args : DistcorrWarps.Args) :
  Stage.emits (DistcorrWarps.main path_exists perform abspath args)
              (DistcorrWarps.outputs abspath args).
Proof.
  eapply emits_eq.
  - unfold DistcorrWarps.main, DistcorrWarps.main_body. cbv zeta. emit_outputs.
  - unfold DistcorrWarps.outputs, DistcorrWarps.asl_outputs,
      DistcorrWarps.structural_outputs, DistcorrWarps.reg_dir, DistcorrWarps.t1_asl_dir.
    destruct (String.eqb (DistcorrWarps.target args) "asl") eqn:Ea;
      destruct (String.eqb (DistcorrWarps.target args) "structural") eqn:Es.
    + apply String.eqb_eq in Ea. apply String.eqb_eq in Es. congruence.
    + destruct (DistcorrWarps.nobandingcorr args); reflexivity.
    + destruct (DistcorrWarps.nobandingcorr args), (DistcorrWarps.use_t1 args);
        reflexivity.
    + destruct (DistcorrWarps.nobandingcorr args); reflexivity.
Qed.

Section Returns.
Import PyMonad Stage.
Context {W : Type}.
Variable path_exists : string -> W -> bool.
Variable perform : Action -> W -> option PyExc * W.
Hypothesis inputs_ok :
  forall a w, (forall p, a <> Recompute p) -> fst (perform a w) = None.

Lemma returns_ret {A : Type} (a : A) : returns (W := W) (ret a).
Proof.
  intros r. exists a. reflexivity.
Qed.

Lemma returns_bind {A B : Type} (m : Py (Run W) A) (k : A -> Py (Run W) B) :
  returns m -> (forall a, returns (k a)) -> returns (bind m k).
Proof.
  intros Hm Hk r. unfold bind. destruct (Hm r) as (a & Ha).
  destruct (m r) as [[a'|e] r1]; cbn [fst] in Ha; [|discriminate].
  apply Hk.
Qed.

Lemma returns_skip (c : bool) (body : Py (Run W) unit) :
  c = false -> returns (when c body).
Proof.
  intros ->. apply returns_ret.
Qed.

Lemma returns_if {A : Type} (c : bool) (m1 m2 : Py (Run W) A) :
  returns m1 -> returns m2 -> returns (if c then m1 else m2).
Proof.
  intros H1 H2. destruct c; assumption.
Qed.

Lemma returns_op_exists (p : string) : returns (op_exists path_exists p).
Proof.
  intros r. eexists. reflexivity.
Qed.

Lemma returns_act (a : Action) :
  (forall p, a <> Recompute p) -> returns (act perform a).
Proof.
  intros Ha r. unfold act. specialize (inputs_ok a (rworld r) Ha).
  destruct (perform a (rworld r)) as [e w']. cbn [fst] in *. subst e.
  exists tt. reflexivity.
Qed.

Lemma returns_for_each {A : Type} (l : list A) (body : A -> Py (Run W) unit) :
  (forall x, returns (body x)) -> returns (for_each l body).
Proof.
  intros H. induction l as [|x l IH]; cbn [for_each].
  - apply returns_ret.
  - apply returns_bind; [apply H|intros _; exact IH].
Qed.

End Returns.

Ltac return_normally inputs_ok :=
  repeat first
    [ apply returns_ret
    | apply returns_op_exists
    | apply returns_skip; rewrite ?andb_false_r; reflexivity
    | apply (returns_act _ inputs_ok); intros; discriminate
    | apply returns_for_each; intros
    | apply returns_if
    | apply returns_bind; [|intros] ].

(** X5. [main] of [distcorr_warps.py] starts the recomputation of the
    outputs of its target, in the order of its blocks, and of nothing
    else, whatever exists already: five files for ['asl'], six to eight
    for ['structural'] (the T1 estimate only with [--use_t1], the MT
    scaling factors not with [--nobandingcorr]).  A run that returns
    normally has started all of them; a run that raises has started
    the first ones.  For a target that is neither ['asl'] nor
    ['structural'] nothing is recomputed, and the run returns normally
    when the directories can be made and the three transformations can
    be loaded: the target is not rejected. *)
Theorem distcorr_main_outputs :
  forall (W : Type) (path_exists : string -> W -> bool)
         (perform : Stage.Action -> W -> option PyExc * W) (abspath : string -> string)
         (args : DistcorrWarps.Args) (r : Stage.Run W),
    let run := DistcorrWarps.main path_exists perform abspath args r in
    let outs := DistcorrWarps.outputs abspath args in
    (exists n : nat,
        (n <= length outs)%nat
        /\ Stage.recomputed (Stage.rlog (snd run))
           = Stage.recomputed (Stage.rlog r) ++ firstn n outs
        /\ (fst run = Ok tt -> n = length outs))
    /\ (DistcorrWarps.target args = "asl" -> length outs = 5%nat)
    /\ (DistcorrWarps.target args = "structural" ->
        length outs = (6 + (if DistcorrWarps.use_t1 args then 1 else 0)
                         + (if DistcorrWarps.nobandingcorr args then 0 else 1))%nat)
    /\ (DistcorrWarps.target args <> "asl" ->
        DistcorrWarps.target args <> "structural" ->
        outs = []
        /\ ((forall a w, (forall p, a <> Stage.Recompute p) -> fst (perform a w) = None) ->
            fst run = Ok tt)).
Proof.
  intros W path_exists perform abspath args r run outs.
  split; [|split; [|split]].
  - destruct (distcorr_main_emits path_exists perform abspath args r)
      as (n & Hn & Hl & Hok).
    exists n. split; [exact Hn|]. split; [exact Hl|]. intros H. exact (Hok tt H).
  - intros Ht. subst outs. unfold DistcorrWarps.outputs. rewrite Ht. reflexivity.
  - intros Ht. subst outs. unfold DistcorrWarps.outputs. rewrite Ht.
    cbn [String.eqb Ascii.eqb Bool.eqb]. unfold DistcorrWarps.structural_outputs.
    destruct (DistcorrWarps.use_t1 args), (DistcorrWarps.nobandingcorr args); reflexivity.
  - intros Ha Hs. apply String.eqb_neq in Ha. apply String.eqb_neq in Hs. split.
    + subst outs. unfold DistcorrWarps.outputs. rewrite Ha, Hs. reflexivity.
    + intros inputs_ok.
      assert (H : Stage.returns (DistcorrWarps.main path_exists perform abspath args)).
      { unfold DistcorrWarps.main, DistcorrWarps.main_body. cbv zeta.
        rewrite Ha, Hs. return_normally inputs_ok. }
      destruct (H r) as ([] & Hr). exact Hr.
Qed.

Example distcorr_main_unknown_target :
  let args := DistcorrWarps.MkArgs "/study" "HCA6002236" "/study/coeff.grad" "t1"
                "/study/AP.nii.gz" "/study/PA.nii.gz" false None 1 3 false "hcp_asl" in
  let run := DistcorrWarps.main (fun _ (_ : unit) => false) (fun _ w => (None, w))
               (fun p => p) args (Stage.MkRun tt []) in
  fst run = Ok tt /\ Stage.recomputed (Stage.rlog (snd run)) = [].
Proof.
  vm_compute. split; reflexivity.
Qed.


(** ** [os.path.join] below a directory *)

Section JoinBelow.
Import PyStr PathLib.

Lemma append_cancel_l (p x y : string) : p +:+ x = p +:+ y -> x = y.
Proof.
  induction p as [|c p IH]; intros H.
  - exact H.
  - rewrite !append_cons in H. injection H as H. apply IH. exact H.
Qed.

Lemma last_char_append (p b : string) :
  b <> "" ->
  substring (String.length (p +:+ b) - 1) 1 (p +:+ b)
  = substring (String.length b - 1) 1 b.
Proof.
  intros Hb. induction p as [|c p IH].
  - reflexivity.
  - rewrite append_cons. cbn [String.length].
    replace (S (String.length (p +:+ b)) - 1)%nat with (String.length (p +:+ b)) by lia.
    destruct (String.length (p +:+ b)) as [|m] eqn:E.
    + exfalso. rewrite length_append in E.
      destruct b as [|cb b]; [apply Hb; reflexivity|]. cbn [String.length] in E. lia.
    + cbn [substring].
      replace (S m - 1)%nat with m in IH by lia. exact IH.
Qed.

(** joining a relative name to a directory puts the name after a prefix
    that depends on the directory only *)
Lemma op_join_prefix (a : string) :
  exists pre, forall b, startswith b "/" = false -> op_join a b = pre +:+ b.
Proof.
  destruct (String.eqb a "") eqn:Ea.
  - exists "". intros b Hb. unfold op_join. rewrite Hb, Ea. reflexivity.
  - destruct (String.eqb (substring (String.length a - 1) 1 a) "/") eqn:El.
    + exists a. intros b Hb. unfold op_join. rewrite Hb, Ea, El. reflexivity.
    + exists (a +:+ "/"). intros b Hb. unfold op_join. rewrite Hb, Ea, El.
      rewrite append_assoc. reflexivity.
Qed.

(** joining a relative name to a path that ends in a name *)
Lemma op_join_below (pre b b2 : string) :
  b <> "" ->
  String.eqb (substring (String.length b - 1) 1 b) "/" = false ->
  startswith b2 "/" = false ->
  op_join (pre +:+ b) b2 = pre +:+ (b +:+ "/" +:+ b2).
Proof.
  intros Hb Hl H2. unfold op_join. rewrite H2.
  rewrite (last_char_append pre b Hb), Hl.
  destruct (String.eqb (pre +:+ b) "") eqn:E.
  - apply String.eqb_eq in E. exfalso.
    assert (Hlen := f_equal String.length E). rewrite length_append in Hlen.
    destruct b; [apply Hb; reflexivity|]. cbn [String.length] in Hlen. lia.
  - rewrite !append_assoc. reflexivity.
Qed.

End JoinBelow.

(** X6. A run of [main] of [prepare_t1asl_space.py] goes through these
    steps, in this order, until one raises: the check and the writing of
    the ASL-gridded T1 image, the check and the writing of the ventricle
    mask, the check of [<outdir>/T1w/ASL/PVEs/pve_GM.nii.gz] and the
    writing of the three partial-volume estimates
    [<outdir>/ASLT1w/PVEs/pve_{GM,WM,CSF}.nii.gz]; a run that returns
    normally went through all eight.  The existence of the three
    estimates is never checked: the file checked before they are
    estimated is none of them, whatever the arguments. *)
Theorem prepare_main_steps :
  forall (W : Type) (path_exists : string -> W -> bool)
         (perform : Stage.Action -> W -> option PyExc * W) (abspath : string -> string)
         (args : PrepareT1aslSpace.Args) (r : Stage.Run W),
    let run := PrepareT1aslSpace.main path_exists perform abspath args r in
    let plan := PrepareT1aslSpace.steps abspath args in
    (exists n : nat,
        (n <= length plan)%nat
        /\ List.map Stage.forget_found (Stage.rlog (snd run))
           = List.map Stage.forget_found (Stage.rlog r) ++ firstn n plan
        /\ (fst run = Ok tt -> n = length plan))
    /\ length plan = 8%nat
    /\ (forall p found, In p (PrepareT1aslSpace.pve_outputs abspath args) ->
          ~ In (Stage.Checked p found) plan).
Proof.
  intros W path_exists perform abspath args r run plan.
  split; [|split].
  - subst run plan.
    unfold PrepareT1aslSpace.main, PrepareT1aslSpace.main_body, PrepareT1aslSpace.steps,
      PrepareT1aslSpace.pve_outputs.
    cbv zeta.
    cbv beta iota delta [PathLib.op_joins fold_left].
    change (List.map ?f [?a; ?b; ?c]) with [f a; f b; f c]. cbv beta.
    set (base := PathLib.op_join (PrepareT1aslSpace.sub_base abspath args)
                   (PrepareT1aslSpace.outdir args)).
    set (grid := PathLib.op_join _ "ASL_grid_T1w_acpc_dc_restore.nii.gz").
    set (vent := PathLib.op_join _ "vent_csf_mask.nii.gz").
    set (pv := PathLib.op_join _ "pve_GM.nii.gz").
    set (root := PathLib.op_join _ "pve").
    unfold PyMonad.bind, Stage.op_exists, Stage.when, Stage.act.
    cbn [Stage.rworld Stage.rlog PyMonad.for_each].
    rewrite !orb_true_r.
    unfold PyMonad.bind, Stage.act. cbn [Stage.rworld Stage.rlog].
    destruct (perform (Stage.Recompute grid) (Stage.rworld r)) as [[e1|] w1];
      cbn [fst snd Stage.rworld Stage.rlog]; rewrite ?orb_true_r;
      cbn [fst snd Stage.rworld Stage.rlog].
    { exists 2%nat. rewrite !List.map_app. cbn. rewrite <- !app_assoc.
      split; [lia|]. split; [reflexivity|discriminate]. }
    destruct (perform (Stage.Recompute vent) w1) as [[e2|] w2];
      cbn [fst snd Stage.rworld Stage.rlog]; rewrite ?orb_true_r;
      cbn [fst snd Stage.rworld Stage.rlog].
    { exists 4%nat. rewrite !List.map_app. cbn. rewrite <- !app_assoc.
      split; [lia|]. split; [reflexivity|discriminate]. }
    destruct (perform (Stage.Recompute (root +:+ "_" +:+ "GM" +:+ ".nii.gz")) w2)
      as [[e3|] w3]; cbn [fst snd Stage.rworld Stage.rlog]; rewrite ?orb_true_r;
      cbn [fst snd Stage.rworld Stage.rlog].
    { exists 6%nat. rewrite !List.map_app. cbn. rewrite <- !app_assoc.
      split; [lia|]. split; [reflexivity|discriminate]. }
    destruct (perform (Stage.Recompute (root +:+ "_" +:+ "WM" +:+ ".nii.gz")) w3)
      as [[e4|] w4]; cbn [fst snd Stage.rworld Stage.rlog]; rewrite ?orb_true_r;
      cbn [fst snd Stage.rworld Stage.rlog].
    { exists 7%nat. rewrite !List.map_app. cbn. rewrite <- !app_assoc.
      split; [lia|]. split; [reflexivity|discriminate]. }
    destruct (perform (Stage.Recompute (root +:+ "_" +:+ "CSF" +:+ ".nii.gz")) w4)
      as [[e5|] w5]; cbn [fst snd Stage.rworld Stage.rlog]; rewrite ?orb_true_r;
      cbn [fst snd Stage.rworld Stage.rlog].
    { exists 8%nat. rewrite !List.map_app. cbn. rewrite <- !app_assoc.
      split; [lia|]. split; [reflexivity|discriminate]. }
    unfold PyMonad.ret. cbn [fst snd Stage.rworld Stage.rlog].
    exists 8%nat. rewrite !List.map_app. cbn. rewrite <- !app_assoc.
    split; [lia|]. split; reflexivity.
  - reflexivity.
  - intros p found Hp Hin. subst plan.
    unfold PrepareT1aslSpace.steps, PrepareT1aslSpace.pve_outputs in *.
    cbv zeta in *.
    cbv beta iota delta [PathLib.op_joins fold_left] in *.
    change (List.map ?f [?a; ?b; ?c]) with [f a; f b; f c] in *. cbv beta in *.
    set (base := PathLib.op_join (PrepareT1aslSpace.sub_base abspath args)
                   (PrepareT1aslSpace.outdir args)) in *.
    destruct (op_join_prefix base) as (pre & Hpre).
    rewrite (Hpre "ASLT1w" eq_refl) in *.
    rewrite (Hpre "T1w" eq_refl) in *.
    rewrite !op_join_below in Hin by (reflexivity || discriminate).
    rewrite !op_join_below in Hp by (reflexivity || discriminate).
    cbn [In app] in Hin, Hp.
    assert (Hne : forall suffix tail : string,
               In (suffix, tail)
                  [("GM", "ASLT1w/reg/ASL_grid_T1w_acpc_dc_restore.nii.gz");
                   ("WM", "ASLT1w/reg/ASL_grid_T1w_acpc_dc_restore.nii.gz");
                   ("CSF", "ASLT1w/reg/ASL_grid_T1w_acpc_dc_restore.nii.gz");
                   ("GM", "ASLT1w/PVEs/vent_csf_mask.nii.gz");
                   ("WM", "ASLT1w/PVEs/vent_csf_mask.nii.gz");
                   ("CSF", "ASLT1w/PVEs/vent_csf_mask.nii.gz");
                   ("GM", "T1w/ASL/PVEs/pve_GM.nii.gz");
                   ("WM", "T1w/ASL/PVEs/pve_GM.nii.gz");
                   ("CSF", "T1w/ASL/PVEs/pve_GM.nii.gz")] ->
               (pre +:+ "ASLT1w" +:+ "/" +:+ "PVEs" +:+ "/" +:+ "pve")
                 +:+ "_" +:+ suffix +:+ ".nii.gz"
               <> pre +:+ tail).
    { intros suffix tail Hst Heq. rewrite append_assoc in Heq.
      apply append_cancel_l in Heq.
      cbn [In] in Hst.
      repeat (destruct Hst as [Hst|Hst];
              [injection Hst as <- <-; vm_compute in Heq; discriminate|]).
      exact Hst. }
    destruct Hp as [<-|[<-|[<-|[]]]];
      repeat (destruct Hin as [Hin|Hin]; [try discriminate|]); try exact Hin;
      injection Hin as Hin; symmetry in Hin; revert Hin; apply Hne; cbn [In]; tauto.
Qed.


(** ** Names without suffixes *)

Lemma split_dot_head (s : string) :
  exists rest,
    s = hd "" (PyStr.split "." s) +:+ rest
    /\ (rest = "" \/ exists r, rest = String "." r)
    /\ PyStr.rfind "." (hd "" (PyStr.split "." s)) = None.
Proof.
  induction s as [|c s IH].
  - exists "". auto.
  - cbn [PyStr.split]. destruct (Ascii.eqb c ".") eqn:Ec.
    + apply Ascii.eqb_eq in Ec. subst c. exists (String "." s).
      cbn [hd]. split; [reflexivity|]. split; [right; exists s; reflexivity|reflexivity].
    + destruct IH as (rest & Hs & Hrest & Hdot).
      destruct (PyStr.split "." s) as [|h t]; cbn [hd] in *.
      * exists rest. split; [rewrite Hs at 1; reflexivity|]. split; [exact Hrest|].
        cbn [PyStr.rfind]. rewrite Ec. reflexivity.
      * exists rest. split; [rewrite Hs at 1; reflexivity|]. split; [exact Hrest|].
        cbn [PyStr.rfind]. rewrite Hdot, Ec. reflexivity.
Qed.

(** X7. [strip_suffixes] gives the part of the name of the path before
    its first dot: the name is the result, followed by nothing or by a
    dot and the rest, and the result has no dot.  (The name of a hidden
    file, which starts with a dot, gives the empty string.) *)
Theorem strip_suffixes_before_first_dot :
  forall path : Path,
    let stripped := SurfaceAnalysis.strip_suffixes path in
    (exists rest,
        PathLib.name path = stripped +:+ rest
        /\ (rest = "" \/ exists r, rest = String "." r))
    /\ PyStr.rfind "." stripped = None
    /\ (PyStr.rfind "." (PathLib.name path) = None -> stripped = PathLib.name path).
Proof.
  intros path stripped. subst stripped. unfold SurfaceAnalysis.strip_suffixes.
  destruct (split_dot_head (PathLib.name path)) as (rest & Hs & Hrest & Hdot).
  split; [exists rest; auto|]. split; [exact Hdot|].
  intros Hnone. destruct Hrest as [->|(r & ->)].
  - rewrite append_nil_r in Hs. symmetry. exact Hs.
  - exfalso. rewrite Hs in Hnone. clear -Hnone.
    induction (hd "" (PyStr.split "." (PathLib.name path))) as [|c h IH].
    + change ("" +:+ String "." r) with (String "." r) in Hnone.
      cbn [PyStr.rfind] in Hnone.
      destruct (PyStr.rfind "." r); [discriminate|]. vm_compute in Hnone. discriminate.
    + rewrite append_cons in Hnone. cbn [PyStr.rfind] in Hnone.
      destruct (PyStr.rfind "." (h +:+ String "." r)) eqn:E; [discriminate|].
      apply IH. reflexivity.
Qed.

Example strip_suffixes_examples :
  SurfaceAnalysis.strip_suffixes (PathLib.of_str "/s/T1w/ASL/TIs/Betas/beta_perf.nii.gz")
  = "beta_perf"
  /\ SurfaceAnalysis.strip_suffixes (PathLib.of_str "/s/.hidden.gii") = ""
  /\ SurfaceAnalysis.strip_suffixes (PathLib.of_str "/") = "".
Proof.
  vm_compute. repeat split; reflexivity.
Qed.


(** ** The windows of the averaging *)

Section Windows.
Import SurfaceAnalysis.

Lemma py_slice_nonneg {A : Type} (a b : Z) (l : list A) :
  0 <= a -> a <= b ->
  py_slice a b l = firstn (Z.to_nat (b - a)) (skipn (Z.to_nat a) l).
Proof.
  intros Ha Hab. unfold py_slice, slice_index.
  destruct (Z.ltb_spec a 0) as [H|_]; [lia|].
  destruct (Z.ltb_spec b 0) as [H|_]; [lia|].
  destruct (Z_le_gt_dec a (Z.of_nat (length l))) as [Hle|Hgt].
  - rewrite (Z.min_l a) by lia.
    destruct (Z_le_gt_dec b (Z.of_nat (length l))) as [Hb|Hb].
    + rewrite (Z.min_l b) by lia. reflexivity.
    + rewrite (Z.min_r b) by lia.
      rewrite !firstn_all2; [reflexivity| |]; rewrite length_skipn; lia.
  - rewrite (Z.min_r a), (Z.min_r b) by lia.
    rewrite !skipn_all2 by lia. rewrite !firstn_nil. reflexivity.
Qed.

Lemma windows_from (acc : Z) (rpts : list Z) {A : Type} (row : list A) :
  0 <= acc -> Forall (fun r => 0 <= r) rpts ->
  List.map (fun '(x, y) => py_slice x y row)
           (combine (zip_with Z.sub (cumsum_from acc rpts) rpts) (cumsum_from acc rpts))
  = chunks (List.map Z.to_nat rpts) (skipn (Z.to_nat acc) row).
Proof.
  intros Hacc Hr. revert acc Hacc.
  induction Hr as [|x rpts Hx Hr IH]; intros acc Hacc; [reflexivity|].
  cbn [cumsum_from zip_with combine List.map chunks]. f_equal.
  - replace (acc + x - x) with acc by lia.
    rewrite py_slice_nonneg by lia.
    replace (acc + x - acc) with x by lia. reflexivity.
  - rewrite IH by lia. f_equal. rewrite skipn_skipn.
    replace (Z.to_nat (acc + x)) with (Z.to_nat x + Z.to_nat acc)%nat by lia.
    reflexivity.
Qed.

Lemma concat_chunks {A : Type} (sizes : list nat) (l : list A) :
  concat (chunks sizes l) = firstn (list_sum sizes) l.
Proof.
  revert l. induction sizes as [|n sizes IH]; intros l; [reflexivity|].
  cbn [chunks concat]. rewrite IH.
  change (list_sum (n :: sizes)) with (n + list_sum sizes)%nat.
  apply take_take_drop.
Qed.

Lemma length_chunks {A : Type} (sizes : list nat) (l : list A) :
  (list_sum sizes <= length l)%nat ->
  List.map (@length A) (chunks sizes l) = sizes.
Proof.
  revert l. induction sizes as [|n sizes IH]; intros l Hl; [reflexivity|].
  change (list_sum (n :: sizes)) with (n + list_sum sizes)%nat in Hl.
  cbn [chunks List.map]. f_equal.
  - rewrite length_firstn. lia.
  - apply IH. rewrite length_skipn. lia.
Qed.

End Windows.

(** X8. [average_tis] averages consecutive windows of the time series:
    for repeat counts that are not negative, the means of a row are those
    of its first [rpts[0]] values, of the next [rpts[1]] values, and so
    on.  Together the windows are the first [sum(rpts)] values of the
    row, each in one window: values after them are ignored, and when the
    row has at least [sum(rpts)] values window [i] has [rpts[i]] of
    them. *)
Theorem average_tis_windows :
  forall (rpts : list Z) (func_data : list (list Q)),
    Forall (fun r => 0 <= r) rpts ->
    let sizes := List.map Z.to_nat rpts in
    SurfaceAnalysis.mean_func rpts func_data
    = List.map (fun row => List.map SurfaceAnalysis.mean (SurfaceAnalysis.chunks sizes row))
               func_data
    /\ (forall row : list Q,
          concat (SurfaceAnalysis.chunks sizes row) = firstn (list_sum sizes) row
          /\ ((list_sum sizes <= length row)%nat ->
              List.map (@length Q) (SurfaceAnalysis.chunks sizes row) = sizes)).
Proof.
  intros rpts func_data Hr sizes. split.
  - unfold SurfaceAnalysis.mean_func, SurfaceAnalysis.windows, SurfaceAnalysis.cumsum.
    apply List.map_ext. intros row.
    assert (Hw := windows_from 0 rpts row (Z.le_refl 0) Hr).
    change (skipn (Z.to_nat 0) row) with row in Hw.
    fold sizes in Hw. rewrite <- Hw.
    rewrite List.map_map. apply List.map_ext. intros [x y]. reflexivity.
  - intros row. split; [apply concat_chunks|apply length_chunks].
Qed.

Lemma average_tis_windows_witness :
  SurfaceAnalysis.mean_func AnalysisOnSurface.REPEATS
    [List.map inject_Z (List.map Z.of_nat (seq 0 43))]
  = [List.map SurfaceAnalysis.mean
       (SurfaceAnalysis.chunks [6; 6; 6; 10; 15]%nat
          (List.map inject_Z (List.map Z.of_nat (seq 0 43))))].
Proof.
  apply (average_tis_windows AnalysisOnSurface.REPEATS
           [List.map inject_Z (List.map Z.of_nat (seq 0 43))]).
  unfold AnalysisOnSurface.REPEATS. repeat constructor; discriminate.
Defined.


(** ** The timing image *)

Section Tiles.

Lemma length_concat_repeat {A : Type} (l : list A) (m : nat) :
  length (concat (repeat l m)) = (length l * m)%nat.
Proof.
  induction m as [|m IH]; cbn [repeat concat].
  - cbn [length]. lia.
  - rewrite length_app, IH. lia.
Qed.

Lemma nth_concat_repeat {A : Type} (l : list A) (m k : nat) (d : A) :
  (k < length l * m)%nat ->
  nth k (concat (repeat l m)) d = nth (k mod length l) l d.
Proof.
  revert k. induction m as [|m IH]; intros k Hk; [lia|].
  cbn [repeat concat].
  assert (Hl : length l <> 0%nat) by (intros E; rewrite E in Hk; lia).
  destruct (Nat.lt_ge_cases k (length l)) as [Hlt|Hge].
  - rewrite app_nth1 by assumption. rewrite Nat.mod_small by assumption. reflexivity.
  - rewrite app_nth2 by assumption. rewrite IH by nia.
    f_equal.
    replace k with ((k - length l) + 1 * length l)%nat at 2 by lia.
    rewrite Nat.Div0.mod_add. reflexivity.
Qed.

Lemma length_range (n : Z) : length (range n) = Z.to_nat n.
Proof.
  unfold range. rewrite length_map, length_seq. reflexivity.
Qed.

Lemma nth_range (n : Z) (j : nat) :
  (j < Z.to_nat n)%nat -> nth j (range n) 0 = Z.of_nat j.
Proof.
  intros Hj. unfold range.
  rewrite (nth_indep _ 0 (Z.of_nat 0)) by (rewrite length_map, length_seq; exact Hj).
  rewrite map_nth, seq_nth by exact Hj. reflexivity.
Qed.

End Tiles.


(** Sixty slices in bands of ten, as in the pipeline: slice 27 is the
    eighth of its band. *)
Example create_ti_image_hcp :
  match DistcorrImages.create_ti_image (86, 86, 60)%nat [1.7; 2.2; 2.7; 3.2; 3.7]%Q
          10 0.059%Q with
  | inr a => DistcorrImages.shape a = [86; 86; 60; 5]%nat
             /\ (DistcorrImages.item a [3; 4; 27; 1]%nat == 2.2 + 7 * 0.059)%Q
  | inl _ => False
  end
  /\ DistcorrImages.create_ti_image (86, 86, 64)%nat [1.7]%Q 10 0.059%Q
     = inl DistcorrImages.ValueError.
Proof.
  split; [|reflexivity]. vm_compute. split; reflexivity.
Qed.


(** ** The registration of the field map *)

Section PathText.
Import PyStr PathLib.

Lemma length_join_snoc (l : list string) (x : string) :
  (String.length x <= String.length (join "/" (l ++ [x])))%nat.
Proof.
  induction l as [|a l IH]; [cbn; lia|].
  change ((a :: l) ++ [x]) with (a :: (l ++ [x])).
  cbn [join]. destruct (l ++ [x]) as [|b r] eqn:E.
  - destruct l; discriminate.
  - rewrite !length_append. lia.
Qed.

(** the text of a path is at least as long as its last component *)
Lemma str_truediv_name_length (p : Path) (s : string) :
  path_root s = "" /\ path_parts s = [s] ->
  (String.length s <= String.length (str (p </> s)))%nat.
Proof.
  intros [Hroot Hparts]. unfold truediv. rewrite Hroot, Hparts. cbn [String.eqb].
  unfold str. cbn [parts root].
  destruct (parts p ++ [s]) as [|a r] eqn:E.
  - destruct (parts p); discriminate.
  - rewrite <- E. rewrite length_append.
    assert (H := length_join_snoc (parts p) s). lia.
Qed.

End PathText.

Section CheckedLoop.
Context {W : Type}.
Variable exec : list string -> W -> Z * W.

(** A loop that runs each command of a list with [check=True] is a
    checked run of the list. *)
Lemma for_each_checked (cmds : list (list string)) :
  forall st res st',
    PyMonad.for_each cmds (fun cmd =>
      (_ <- subprocess_run exec cmd true ;; PyMonad.ret tt)%py) st = (res, st') ->
    exists evs,
      trace st' = trace st ++ evs
      /\ checked_run exec (world st) cmds evs res (world st').
Proof.
  induction cmds as [|cmd cmds IH]; intros [w tr] res st' Hrun; simpl in Hrun.
  - injection Hrun as <- <-. exists []. rewrite app_nil_r.
    split; [reflexivity|constructor].
  - unfold PyMonad.bind at 1 2 in Hrun.
    destruct (exec cmd w) as [s1 w1] eqn:E1.
    destruct (Z.eq_dec s1 0) as [->|Hs1].
    + rewrite (subprocess_run_check_ok exec _ _ tr _ E1) in Hrun.
      unfold PyMonad.ret at 1 in Hrun.
      destruct (IH _ _ _ Hrun) as (evs & Ht & Hc). simpl in Ht, Hc.
      exists (MkEvent cmd w 0 w1 :: evs). split.
      * rewrite Ht, <- !app_assoc. reflexivity.
      * apply checked_step; [exact E1|exact Hc].
    + rewrite (subprocess_run_check_fail exec _ _ tr _ _ E1 Hs1) in Hrun.
      injection Hrun as <- <-. simpl.
      exists [MkEvent cmd w s1 w1]. split; [reflexivity|].
      apply checked_fail; assumption.
Qed.

End CheckedLoop.

(** X10. [register_fmap] makes the output directory, then runs [flirt]
    three times with [check=True]: the run stops at the first exit status
    that is not zero, and its [CalledProcessError] is the result.  Each
    registration starts from the matrix that the one before it wrote
    ([-init] is the [-omat] of the previous command), and on success the
    path returned is the [-omat] of the last one,
    [out_dir/fmapmag2struct_bbr.mat].  When [FSLDIR] is not set the call
    raises [TypeError] after the directory is made and before any
    program runs; when the directory cannot be made nothing runs.  (The
    flags are read off the argument lists for image names that are not
    themselves [-init] or [-omat].) *)
Theorem register_fmap_chain :
  forall (W : Type) (exec : list string -> W -> Z * W)
         (mkdir : string -> W -> option PyExc * W) (fsldir : option string)
         (fmapmag fmapmagbrain s sbet out_dir wm_tissseg : string) (st : Proc W),
    let out := PathLib.of_str out_dir in
    let run := DistcorrImages.register_fmap exec mkdir fsldir fmapmag fmapmagbrain
                 s sbet out_dir wm_tissseg st in
    let made := mkdir (PathLib.str out) (world st) in
    (forall ex, fst made = Some ex ->
       run = (inr (Raise ex), MkProc (snd made) (trace st)))
    /\ (fst made = None -> fsldir = None ->
        run = (inl DistcorrImages.TypeError, MkProc (snd made) (trace st)))
    /\ (forall d, fst made = None -> fsldir = Some d ->
        let init := DistcorrImages.init_cmd fmapmagbrain sbet out in
        let sec := DistcorrImages.sec_cmd fmapmag s out in
        let bbr := DistcorrImages.bbr_cmd fmapmag s wm_tissseg out
                     (PathLib.of_str d </> "etc/flirtsch/bbr.sch") in
        (exists evs res,
            trace (snd run) = trace st ++ evs
            /\ checked_run exec (snd made) [init; sec; bbr] evs res (world (snd run))
            /\ fst run
               = inr (match res with
                      | Ok _ => Ok (PathLib.str (out </> "fmapmag2struct_bbr.mat"))
                      | Raise e => Raise e
                      end))
        /\ (Forall (fun a => a <> "-init" /\ a <> "-omat")
                   [fmapmag; fmapmagbrain; s; sbet; wm_tissseg] ->
            DistcorrImages.arg_after "-init" init = None
            /\ DistcorrImages.arg_after "-init" sec = DistcorrImages.arg_after "-omat" init
            /\ DistcorrImages.arg_after "-init" bbr = DistcorrImages.arg_after "-omat" sec
            /\ DistcorrImages.arg_after "-omat" bbr
               = Some (PathLib.str (out </> "fmapmag2struct_bbr.mat")))).
Proof.
  intros W exec mkdir fsldir fmapmag fmapmagbrain s sbet out_dir wm_tissseg st
         out run made.
  subst run. unfold DistcorrImages.register_fmap. fold out. fold made.
  destruct made as [e w1] eqn:Em. cbn [fst snd].
  split; [|split].
  - intros ex ->. reflexivity.
  - intros -> ->. reflexivity.
  - intros d -> ->. cbv zeta.
    set (init := DistcorrImages.init_cmd fmapmagbrain sbet out).
    set (sec := DistcorrImages.sec_cmd fmapmag s out).
    set (bbr := DistcorrImages.bbr_cmd fmapmag s wm_tissseg out _).
    split.
    2:{ intros Hnames.
        assert (Hne : forall a flag, a <> flag -> String.eqb a flag = false).
        { intros a flag H. apply String.eqb_neq. exact H. }
        apply List.Forall_cons_iff in Hnames. destruct Hnames as [[H1 H1'] Hnames].
        apply List.Forall_cons_iff in Hnames. destruct Hnames as [[H2 H2'] Hnames].
        apply List.Forall_cons_iff in Hnames. destruct Hnames as [[H3 H3'] Hnames].
        apply List.Forall_cons_iff in Hnames. destruct Hnames as [[H4 H4'] Hnames].
        apply List.Forall_cons_iff in Hnames. destruct Hnames as [[H5 H5'] _].
        assert (Hi : forall flag : string, String.length flag = 5%nat ->
                  String.eqb (PathLib.str (out </> "fmapmag2struct_init.mat")) flag = false).
        { intros flag Hf. apply String.eqb_neq. intros E.
          apply (f_equal String.length) in E. rewrite Hf in E.
          assert (H := str_truediv_name_length out "fmapmag2struct_init.mat" (conj eq_refl eq_refl)).
          cbn [String.length] in H. lia. }
        assert (Hs : forall flag : string, String.length flag = 5%nat ->
                  String.eqb (PathLib.str (out </> "fmapmag2struct_sec.mat")) flag = false).
        { intros flag Hf. apply String.eqb_neq. intros E.
          apply (f_equal String.length) in E. rewrite Hf in E.
          assert (H := str_truediv_name_length out "fmapmag2struct_sec.mat" (conj eq_refl eq_refl)).
          cbn [String.length] in H. lia. }
        subst init sec bbr.
        unfold DistcorrImages.init_cmd, DistcorrImages.sec_cmd, DistcorrImages.bbr_cmd.
        cbn [DistcorrImages.arg_after List.head].
        rewrite ?(Hne _ _ H1), ?(Hne _ _ H1'), ?(Hne _ _ H2), ?(Hne _ _ H2'),
          ?(Hne _ _ H3), ?(Hne _ _ H3'), ?(Hne _ _ H4), ?(Hne _ _ H4'),
          ?(Hne _ _ H5), ?(Hne _ _ H5').
        rewrite ?(Hi "-init" eq_refl), ?(Hi "-omat" eq_refl),
          ?(Hs "-init" eq_refl), ?(Hs "-omat" eq_refl).
        cbn. repeat split; reflexivity. }
    set (loop := PyMonad.for_each [init; sec; bbr] _).
    change ((loop ;; PyMonad.ret (PathLib.str (out </> "fmapmag2struct_bbr.mat")))%py
              {| world := w1; trace := trace st |})
      with (match loop {| world := w1; trace := trace st |} with
            | (Ok _, s') => PyMonad.ret (PathLib.str (out </> "fmapmag2struct_bbr.mat")) s'
            | (Raise e, s') => (Raise e, s')
            end).
    subst loop.
    destruct (PyMonad.for_each [init; sec; bbr]
                (fun cmd => (_ <- subprocess_run exec cmd true ;; PyMonad.ret tt)%py)
                {| world := w1; trace := trace st |}) as [res st2] eqn:Hrun.
    destruct (for_each_checked exec _ _ _ _ Hrun) as (evs & Ht & Hc).
    cbn [world trace] in Ht, Hc.
    exists evs, res. destruct res as [[]|ex]; cbn [fst snd PyMonad.ret];
      (split; [exact Ht|split; [exact Hc|reflexivity]]).
Qed.

Example register_fmap_no_fsldir :
  DistcorrImages.register_fmap (fun _ (w : list string) => (0, w))
    (fun d w => (None, d :: w)) None
    "fmapmag.nii.gz" "fmapmagbrain.nii.gz" "T1w.nii.gz" "T1w_brain.nii.gz" "/s/reg" "wm.nii.gz"
    (MkProc [] [])
  = (inl DistcorrImages.TypeError, MkProc ["/s/reg"] []).
Proof.
  reflexivity.
Qed.


(** ** The projection of the perfusion maps *)

Section LibSteps.
Import PyStr PathLib PyMonad M0MtCorrection AslPerfusion Lib.
Variable exec : list string -> gmap string string -> Z * gmap string string.
Variable lib : LibCall -> gmap string string -> option PyExc * gmap string string.
Hypothesis lib_ok : forall c w, fst (lib c w) = None.

Lemma bind_ok {S A B : Type} (m : Py S A) (k : A -> Py S B) (s s' : S) (a : A) :
  m s = (Ok a, s') -> bind m k s = k a s'.
Proof.
  intros H. unfold bind. rewrite H. reflexivity.
Qed.

Lemma bind_raise {S A B : Type} (m : Py S A) (k : A -> Py S B) (s s' : S) (e : PyExc) :
  m s = (Raise e, s') -> bind m k s = (Raise e, s').
Proof.
  intros H. unfold bind. rewrite H. reflexivity.
Qed.

Lemma bind_assoc {S A B C : Type} (m : Py S A) (k1 : A -> Py S B) (k2 : B -> Py S C)
    (s : S) :
  bind (bind m k1) k2 s = bind m (fun a => bind (k1 a) k2) s.
Proof.
  unfold bind. destruct (m s) as [[a|e] s']; reflexivity.
Qed.

Lemma bind_ret {S A B : Type} (a : A) (k : A -> Py S B) (s : S) :
  bind (ret a) k s = k a s.
Proof.
  reflexivity.
Qed.

Lemma call_ok (c : LibCall) (w : gmap string string)
    (tr : list (Event (gmap string string))) :
  call lib c (MkProc w tr) = (Ok tt, MkProc (snd (lib c w)) tr).
Proof.
  unfold call. cbn [world trace]. specialize (lib_ok c w).
  destruct (lib c w) as [e w']. cbn [fst snd] in *. subst e. reflexivity.
Qed.

Lemma getitem_ok (d : gmap string string) (k v : string) (st : Proc (gmap string string)) :
  d !! k = Some v -> getitem d k st = (Ok v, st).
Proof.
  intros H. unfold getitem. rewrite H. reflexivity.
Qed.

Lemma getitem_missing (d : gmap string string) (k : string)
    (st : Proc (gmap string string)) :
  d !! k = None -> getitem (S := Proc (gmap string string)) (d : gmap string string) k st
                   = (Raise (KeyError k), st).
Proof.
  intros H. unfold getitem. rewrite H. reflexivity.
Qed.

Lemma on_world_load (subject_dir : Path) (fs d : gmap string string)
    (tr : list (Event (gmap string string))) :
  load_json subject_dir fs = (Ok d, fs) ->
  on_world (load_json subject_dir) (MkProc fs tr) = (Ok d, MkProc fs tr).
Proof.
  intros H. unfold on_world. cbn [world trace]. rewrite H. reflexivity.
Qed.

Lemma run_unchecked (cmd : list string) (w : gmap string string)
    (tr : list (Event (gmap string string))) (status : Z) (w' : gmap string string) :
  exec cmd w = (status, w') ->
  subprocess_run exec cmd false (MkProc w tr)
  = (Ok status, MkProc w' (tr ++ [MkEvent cmd w status w'])).
Proof.
  intros H. unfold subprocess_run. cbn [world trace]. rewrite H. reflexivity.
Qed.

Lemma name_truediv (p : Path) (s x : string) (l : list string) :
  path_root s = "" -> path_parts s = l ++ [x] -> name (p </> s) = x.
Proof.
  intros Hr Hp. rewrite truediv_relative by exact Hr. unfold name. cbn [parts].
  rewrite Hp, app_assoc. apply last_last.
Qed.

Lemma stem_of_name (p q : Path) : name p = name q -> stem p = stem q.
Proof.
  intros H. unfold stem. rewrite H. reflexivity.
Qed.

(** the stem of a name below a directory does not depend on the directory *)
Lemma stem_truediv (p : Path) (s x : string) (l : list string) :
  path_root s = "" -> path_parts s = l ++ [x] ->
  stem (p </> s) = stem (MkPath "" [x]).
Proof.
  intros Hr Hp. apply stem_of_name. rewrite (name_truediv p s x l Hr Hp). reflexivity.
Qed.

End LibSteps.

Ltac run_lib lib_ok :=
  repeat first
    [ rewrite bind_assoc
    | rewrite bind_ret
    | rewrite (bind_ok _ _ _ _ _ (call_ok _ lib_ok _ _ _))
    | match goal with
      | |- context [PyMonad.bind (subprocess_run ?exec ?cmd false) _ (MkProc ?w ?tr)] =>
          let s := fresh "status" in
          let w' := fresh "w" in
          let E := fresh "E" in
          destruct (exec cmd w) as [s w'] eqn:E;
          rewrite (bind_ok _ _ _ _ _ (run_unchecked exec cmd w tr s w' E))
      end
    | erewrite (bind_ok (AslPerfusion.getitem _ _)) by (apply getitem_ok; eassumption)
    | progress cbv beta iota ].

(** X11. With the ledger entries of the subject in place and the library
    calls succeeding, [project_to_surface] runs the surface mapping four
    times, for the perfusion map and left, right, then for its variance
    and left, right, and returns normally whatever the exit statuses are.
    The name of the output loses the characters [.], [n] and [i] at both
    ends of the stem, not the suffix [.nii]: the perfusion map is saved
    as [L_perfusio.func.gii] and [R_perfusio.func.gii], its variance as
    [L_perfusion_var.func.gii] and [R_perfusion_var.func.gii] (with the
    prefix [asl_t1_] after the side for the target ['asl']). *)
Theorem project_to_surface_names :
  forall (exec : list string -> gmap string string -> Z * gmap string string)
         (lib : Lib.LibCall -> gmap string string -> option PyExc * gmap string string)
         (subject_dir : Path) (target : string) (fs json_dict : gmap string string)
         (oxford_asl L_mid L_pial L_white R_mid R_pial R_white : string),
    (forall c w, fst (lib c w) = None) ->
    M0MtCorrection.load_json subject_dir fs = (Ok json_dict, fs) ->
    json_dict !! "oxford_asl" = Some oxford_asl ->
    json_dict !! "L_mid" = Some L_mid ->
    json_dict !! "L_pial" = Some L_pial ->
    json_dict !! "L_white" = Some L_white ->
    json_dict !! "R_mid" = Some R_mid ->
    json_dict !! "R_pial" = Some R_pial ->
    json_dict !! "R_white" = Some R_white ->
    let run := Projection.project_to_surface exec lib subject_dir target (MkProc fs []) in
    let oxasl_dir := PathLib.of_str oxford_asl in
    let native := if String.eqb target "asl" then "asl_t1_" else "" in
    let pc_name :=
      if String.eqb target "asl"
      then PathLib.parent (oxasl_dir </> "native_space/perfusion.nii.gz")
           </> "asl_t1_perfusion.nii.gz"
      else oxasl_dir </> "native_space/perfusion.nii.gz" in
    let vc_name :=
      if String.eqb target "asl"
      then PathLib.parent (oxasl_dir </> "native_space/perfusion_var.nii.gz")
           </> "asl_t1_perfusion_var.nii.gz"
      else oxasl_dir </> "native_space/perfusion_var.nii.gz" in
    let cmd (name : Path) (mid savename white pial : string) :=
      [ "wb_command"; "-volume-to-surface-mapping"; PathLib.str name; mid;
        PathLib.str (oxasl_dir </> "SurfaceResults32k" </> savename);
        "-ribbon-constrained"; white; pial ] in
    fst run = Ok tt
    /\ List.map ev_cmd (trace (snd run))
       = [ cmd pc_name L_mid ("L_" +:+ native +:+ "perfusio.func.gii") L_white L_pial;
           cmd pc_name R_mid ("R_" +:+ native +:+ "perfusio.func.gii") R_white R_pial;
           cmd vc_name L_mid ("L_" +:+ native +:+ "perfusion_var.func.gii") L_white L_pial;
           cmd vc_name R_mid ("R_" +:+ native +:+ "perfusion_var.func.gii") R_white R_pial ].
Proof.
  intros exec lib subject_dir target fs json_dict oxford_asl
         L_mid L_pial L_white R_mid R_pial R_white
         lib_ok Hload Hox HLm HLp HLw HRm HRp HRw run oxasl_dir native pc_name vc_name cmd.
  subst run.
  match goal with
  | |- fst ?X = _ /\ List.map ev_cmd (trace (snd ?X)) = ?L =>
      set (P := fun r : Result unit * Proc (gmap string string) =>
                  fst r = Ok tt /\ List.map ev_cmd (trace (snd r)) = L);
      change (P X)
  end.
  unfold Projection.project_to_surface.
  rewrite (bind_ok _ _ _ _ _ (on_world_load _ _ _ _ Hload)).
  erewrite (bind_ok (AslPerfusion.getitem _ _)) by (apply getitem_ok; exact Hox).
  fold oxasl_dir. subst native pc_name vc_name cmd. cbv zeta.
  destruct (String.eqb target "asl").
  - run_lib lib_ok.
    cbn [list_prod List.map app PyMonad.for_each].
    run_lib lib_ok.
    rewrite !(stem_truediv _ "asl_t1_perfusion.nii.gz" "asl_t1_perfusion.nii.gz" []
                eq_refl eq_refl).
    rewrite !(stem_truediv _ "asl_t1_perfusion_var.nii.gz" "asl_t1_perfusion_var.nii.gz" []
                eq_refl eq_refl).
    subst P. unfold PyMonad.ret. cbn [fst snd trace world List.map ev_cmd app].
    split; reflexivity.
  - run_lib lib_ok.
    cbn [list_prod List.map app PyMonad.for_each].
    run_lib lib_ok.
    rewrite !(stem_truediv _ "native_space/perfusion.nii.gz" "perfusion.nii.gz"
                ["native_space"] eq_refl eq_refl).
    rewrite !(stem_truediv _ "native_space/perfusion_var.nii.gz" "perfusion_var.nii.gz"
                ["native_space"] eq_refl eq_refl).
    subst P. unfold PyMonad.ret. cbn [fst snd trace world List.map ev_cmd app].
    split; reflexivity.
Qed.

(** Every mapping exits with status 1: the four commands are run all the
    same, and the call returns normally. *)
Lemma project_to_surface_names_witness :
  let run := Projection.project_to_surface (fun _ fs => (1, fs)) (fun _ fs => (None, fs))
               (PathLib.of_str "/s") "structural" (MkProc Lib.example_files []) in
  fst run = Ok tt
  /\ List.map ev_cmd (trace (snd run))
     = [ [ "wb_command"; "-volume-to-surface-mapping";
           "/s/T1w/ASL/TIs/OxfordASL/native_space/perfusion.nii.gz";
           "/s/L.midthickness.surf.gii";
           "/s/T1w/ASL/TIs/OxfordASL/SurfaceResults32k/L_perfusio.func.gii";
           "-ribbon-constrained"; "/s/L.white.surf.gii"; "/s/L.pial.surf.gii" ];
         [ "wb_command"; "-volume-to-surface-mapping";
           "/s/T1w/ASL/TIs/OxfordASL/native_space/perfusion.nii.gz";
           "/s/R.midthickness.surf.gii";
           "/s/T1w/ASL/TIs/OxfordASL/SurfaceResults32k/R_perfusio.func.gii";
           "-ribbon-constrained"; "/s/R.white.surf.gii"; "/s/R.pial.surf.gii" ];
         [ "wb_command"; "-volume-to-surface-mapping";
           "/s/T1w/ASL/TIs/OxfordASL/native_space/perfusion_var.nii.gz";
           "/s/L.midthickness.surf.gii";
           "/s/T1w/ASL/TIs/OxfordASL/SurfaceResults32k/L_perfusion_var.func.gii";
           "-ribbon-constrained"; "/s/L.white.surf.gii"; "/s/L.pial.surf.gii" ];
         [ "wb_command"; "-volume-to-surface-mapping";
           "/s/T1w/ASL/TIs/OxfordASL/native_space/perfusion_var.nii.gz";
           "/s/R.midthickness.surf.gii";
           "/s/T1w/ASL/TIs/OxfordASL/SurfaceResults32k/R_perfusion_var.func.gii";
           "-ribbon-constrained"; "/s/R.white.surf.gii"; "/s/R.pial.surf.gii" ] ].
Proof.
  cbv zeta.
  destruct (project_to_surface_names (fun _ fs => (1, fs)) (fun _ fs => (None, fs))
              (PathLib.of_str "/s") "structural" Lib.example_files Lib.example_ledger
              "/s/T1w/ASL/TIs/OxfordASL"
              "/s/L.midthickness.surf.gii" "/s/L.pial.surf.gii" "/s/L.white.surf.gii"
              "/s/R.midthickness.surf.gii" "/s/R.pial.surf.gii" "/s/R.white.surf.gii")
    as (Hres & Hcmds).
  - intros c w. reflexivity.
  - apply load_json_text with (text := Json.dumps Lib.example_ledger).
    + vm_compute. reflexivity.
    + apply loads_dumps.
  - vm_compute. reflexivity.
  - vm_compute. reflexivity.
  - vm_compute. reflexivity.
  - vm_compute. reflexivity.
  - vm_compute. reflexivity.
  - vm_compute. reflexivity.
  - vm_compute. reflexivity.
  - split; [exact Hres|]. rewrite Hcmds. vm_compute. reflexivity.
Defined.


(** ** The surface analysis *)

Section SurfaceSteps.
Import PyStr PathLib PyMonad M0MtCorrection AslPerfusion Lib SurfaceAnalysis.

Lemma path_exists_eq (p : Path) (w : gmap string string)
    (tr : list (Event (gmap string string))) :
  path_exists p (MkProc w tr) = (Ok (bool_decide (is_Some (w !! str p))), MkProc w tr).
Proof.
  reflexivity.
Qed.

Lemma bind_unit_ret {S : Type} (m : Py S unit) (s : S) :
  bind m (fun _ => ret tt) s = m s.
Proof.
  unfold bind. destruct (m s) as [[[]|e] s']; reflexivity.
Qed.

Lemma parent_truediv_sibling (p : Path) (s t u x : string) (l : list string) :
  path_root s = "" -> path_parts s = l ++ [x] ->
  path_root t = "" -> path_root u = "" -> path_parts u = l ++ path_parts t ->
  parent (p </> s) </> t = p </> u.
Proof.
  intros Hs Hps Ht Hu Hpu.
  rewrite (truediv_relative p s Hs), (truediv_relative _ t Ht), (truediv_relative p u Hu).
  unfold parent. cbn [root parts]. rewrite Hps, Hpu, app_assoc, removelast_last, app_assoc.
  reflexivity.
Qed.

Lemma beta_perf_stripped (p : Path) :
  strip_suffixes (p </> "T1w/ASL/TIs/Betas/beta_perf.nii.gz") = "beta_perf".
Proof.
  unfold strip_suffixes.
  rewrite (name_truediv p "T1w/ASL/TIs/Betas/beta_perf.nii.gz" "beta_perf.nii.gz"
             ["T1w"; "ASL"; "TIs"; "Betas"] eq_refl eq_refl).
  reflexivity.
Qed.

Lemma projected_betas_dir (p : Path) :
  parent (p </> "T1w/ASL/TIs/Betas/beta_perf.nii.gz") </> "projected_betas"
  = p </> "T1w/ASL/TIs/Betas/projected_betas".
Proof.
  apply (parent_truediv_sibling p "T1w/ASL/TIs/Betas/beta_perf.nii.gz" "projected_betas"
           "T1w/ASL/TIs/Betas/projected_betas" "beta_perf.nii.gz"
           ["T1w"; "ASL"; "TIs"; "Betas"]);
    reflexivity.
Qed.

Lemma timing_name (p : Path) (side : string) :
  side = "L" \/ side = "R" ->
  parent (p </> "T1w/ASL/timing_img.nii.gz") </> (side +:+ "_timing.func.gii")
  = p </> ("T1w/ASL/" +:+ side +:+ "_timing.func.gii").
Proof.
  intros [-> | ->].
  - apply (parent_truediv_sibling p "T1w/ASL/timing_img.nii.gz" "L_timing.func.gii"
             "T1w/ASL/L_timing.func.gii" "timing_img.nii.gz" ["T1w"; "ASL"]); reflexivity.
  - apply (parent_truediv_sibling p "T1w/ASL/timing_img.nii.gz" "R_timing.func.gii"
             "T1w/ASL/R_timing.func.gii" "timing_img.nii.gz" ["T1w"; "ASL"]); reflexivity.
Qed.

End SurfaceSteps.

Ltac run_surface lib_ok :=
  repeat first
    [ rewrite bind_assoc
    | rewrite bind_ret
    | rewrite (bind_ok _ _ _ _ _ (call_ok _ lib_ok _ _ _))
    | rewrite (bind_ok _ _ _ _ _ (path_exists_eq _ _ _))
    | match goal with
      | |- context [PyMonad.bind (subprocess_run ?exec ?cmd false) _ (MkProc ?w ?tr)] =>
          let s := fresh "status" in
          let w' := fresh "w" in
          let E := fresh "E" in
          destruct (exec cmd w) as [s w'] eqn:E;
          rewrite (bind_ok _ _ _ _ _ (run_unchecked exec cmd w tr s w' E))
      end
    | erewrite (bind_ok (AslPerfusion.getitem _ _)) by (apply getitem_ok; eassumption)
    | rewrite orb_true_r
    | progress unfold Stage.when, SurfaceAnalysis.average_tis,
        SurfaceAnalysis.load_functional, SurfaceAnalysis.write_func_data
    | progress cbn [PyMonad.for_each]
    | progress cbv beta iota ].

(** X12. With the six surface entries in the ledger and the library
    calls succeeding, [surface_analysis] first runs four surface
    mappings, whose exit statuses are not looked at: the perfusion series
    for left and right (ribbon-constrained), then the timing image for
    left and right (enclosing voxel).  It then runs the ten commands of
    [do_basil] for the left hemisphere and, only when all of them exited
    with status zero, the ten for the right hemisphere, both in
    [projected_betas/<side>_basil]; the first exit status that is not
    zero ends the analysis with its [CalledProcessError]. *)
Theorem surface_analysis_commands :
  forall (exec : list string -> gmap string string -> Z * gmap string string)
         (lib : Lib.LibCall -> gmap string string -> option PyExc * gmap string string)
         (subject_dir : string) (fs json_dict : gmap string string)
         (L_mid L_pial L_white R_mid R_pial R_white : string),
    (forall c w, fst (lib c w) = None) ->
    M0MtCorrection.load_json (PathLib.of_str subject_dir) fs = (Ok json_dict, fs) ->
    json_dict !! "L_mid" = Some L_mid ->
    json_dict !! "L_pial" = Some L_pial ->
    json_dict !! "L_white" = Some L_white ->
    json_dict !! "R_mid" = Some R_mid ->
    json_dict !! "R_pial" = Some R_pial ->
    json_dict !! "R_white" = Some R_white ->
    let sd := PathLib.of_str subject_dir in
    let run := SurfaceAnalysis.surface_analysis exec lib subject_dir (MkProc fs []) in
    let betas := sd </> "T1w/ASL/TIs/Betas/projected_betas" in
    let beta_perf := PathLib.str (sd </> "T1w/ASL/TIs/Betas/beta_perf.nii.gz") in
    let tiimg := PathLib.str (sd </> "T1w/ASL/timing_img.nii.gz") in
    exists pre evsL evsR resL wL wL',
      trace (snd run) = pre ++ evsL ++ evsR
      /\ List.map ev_cmd pre
         = [ SurfaceAnalysis.ribbon_cmd beta_perf L_mid
               (PathLib.str (betas </> "L_beta_perf.func.gii")) L_white L_pial;
             SurfaceAnalysis.ribbon_cmd beta_perf R_mid
               (PathLib.str (betas </> "R_beta_perf.func.gii")) R_white R_pial;
             SurfaceAnalysis.enclosing_cmd tiimg L_mid
               (PathLib.str (sd </> "T1w/ASL/L_timing.func.gii"));
             SurfaceAnalysis.enclosing_cmd tiimg R_mid
               (PathLib.str (sd </> "T1w/ASL/R_timing.func.gii")) ]
      /\ checked_run exec wL (SurfaceAnalysis.basil_plan sd "L" L_mid) evsL resL wL'
      /\ match resL with
         | Raise e => evsR = [] /\ fst run = Raise e
         | Ok _ =>
             exists wR',
               checked_run exec
                 (snd (lib (Lib.CreateDirs [PathLib.str (betas </> "R_basil")]) wL'))
                 (SurfaceAnalysis.basil_plan sd "R" R_mid) evsR (fst run) wR'
         end.
Proof.
  intros exec lib subject_dir fs json_dict L_mid L_pial L_white R_mid R_pial R_white
         lib_ok Hload HLm HLp HLw HRm HRp HRw sd run betas beta_perf tiimg.
  subst run.
  match goal with
  | |- exists pre evsL evsR resL wL wL',
         trace (snd ?X) = _ /\ _ =>
      set (P := fun r : Result unit * Proc (gmap string string) =>
         exists pre evsL evsR resL wL wL',
           trace (snd r) = pre ++ evsL ++ evsR
           /\ List.map ev_cmd pre
              = [ SurfaceAnalysis.ribbon_cmd beta_perf L_mid
                    (PathLib.str (betas </> "L_beta_perf.func.gii")) L_white L_pial;
                  SurfaceAnalysis.ribbon_cmd beta_perf R_mid
                    (PathLib.str (betas </> "R_beta_perf.func.gii")) R_white R_pial;
                  SurfaceAnalysis.enclosing_cmd tiimg L_mid
                    (PathLib.str (sd </> "T1w/ASL/L_timing.func.gii"));
                  SurfaceAnalysis.enclosing_cmd tiimg R_mid
                    (PathLib.str (sd </> "T1w/ASL/R_timing.func.gii")) ]
           /\ checked_run exec wL (SurfaceAnalysis.basil_plan sd "L" L_mid) evsL resL wL'
           /\ match resL with
              | Raise e => evsR = [] /\ fst r = Raise e
              | Ok _ =>
                  exists wR',
                    checked_run exec
                      (snd (lib (Lib.CreateDirs [PathLib.str (betas </> "R_basil")]) wL'))
                      (SurfaceAnalysis.basil_plan sd "R" R_mid) evsR (fst r) wR'
              end);
      change (P X)
  end.
  unfold SurfaceAnalysis.surface_analysis, SurfaceAnalysis.SIDES.
  cbv zeta. fold sd.
  rewrite (bind_ok _ _ _ _ _ (on_world_load _ _ _ _ Hload)).
  rewrite beta_perf_stripped, projected_betas_dir.
  cbn [PyMonad.for_each]. cbv beta.
  rewrite !(timing_name sd "L" (or_introl eq_refl)), !(timing_name sd "R" (or_intror eq_refl)).
  fold betas.
  run_surface lib_ok.
  match goal with
  | |- P (PyMonad.bind _ _ (MkProc ?w ?tr)) => set (wL := w); set (pre := tr)
  end.
  assert (Hpre : List.map ev_cmd pre
            = [ SurfaceAnalysis.ribbon_cmd beta_perf L_mid
                  (PathLib.str (betas </> "L_beta_perf.func.gii")) L_white L_pial;
                SurfaceAnalysis.ribbon_cmd beta_perf R_mid
                  (PathLib.str (betas </> "R_beta_perf.func.gii")) R_white R_pial;
                SurfaceAnalysis.enclosing_cmd tiimg L_mid
                  (PathLib.str (sd </> "T1w/ASL/L_timing.func.gii"));
                SurfaceAnalysis.enclosing_cmd tiimg R_mid
                  (PathLib.str (sd </> "T1w/ASL/R_timing.func.gii")) ]).
  { reflexivity. }
  clearbody pre wL.
  destruct (AnalysisOnSurface.do_basil exec
              (betas </> ("L" +:+ "_" +:+ "beta_perf" +:+ ".func.gii"))
              (betas </> ("L" +:+ "_" +:+ "beta_perf" +:+ "_mean.func.gii")) L_mid
              (sd </> ("T1w/ASL/" +:+ "L" +:+ "_timing.func.gii"))
              (betas </> ("L" +:+ "_basil")) (MkProc wL pre))
    as [resL [wL' trL]] eqn:HL.
  assert (HcL := HL). unfold AnalysisOnSurface.do_basil in HcL.
  apply (for_each_two_checked exec) in HcL. destruct HcL as (evsL & HtL & HcL).
  cbn [world trace] in HtL, HcL.
  destruct resL as [[]|e].
  - rewrite (bind_ok _ _ _ _ _ HL).
    run_surface lib_ok.
    destruct (AnalysisOnSurface.do_basil exec
                (betas </> ("R" +:+ "_" +:+ "beta_perf" +:+ ".func.gii"))
                (betas </> ("R" +:+ "_" +:+ "beta_perf" +:+ "_mean.func.gii")) R_mid
                (sd </> ("T1w/ASL/" +:+ "R" +:+ "_timing.func.gii"))
                (betas </> ("R" +:+ "_basil"))
                (MkProc (snd (lib (Lib.CreateDirs
                                     [PathLib.str (betas </> ("R" +:+ "_basil"))]) wL'))
                        trL))
      as [resR [wR' trR]] eqn:HR.
    assert (HcR := HR). unfold AnalysisOnSurface.do_basil in HcR.
    apply (for_each_two_checked exec) in HcR. destruct HcR as (evsR & HtR & HcR).
    cbn [world trace] in HtR, HcR.
    rewrite bind_unit_ret, HR.
    subst P. cbv beta. cbn [fst snd trace].
    exists pre, evsL, evsR, (Ok tt), wL, wL'.
    split; [rewrite HtR, HtL, app_assoc; reflexivity|].
    split; [exact Hpre|]. split; [exact HcL|].
    exists wR'. exact HcR.
  - rewrite (bind_raise _ _ _ _ _ HL).
    subst P. cbv beta. cbn [fst snd trace].
    exists pre, evsL, [], (Raise e), wL, wL'.
    split; [rewrite HtL, app_nil_r; reflexivity|].
    split; [exact Hpre|]. split; [exact HcL|]. split; reflexivity.
Qed.

Lemma surface_analysis_commands_witness :
  let run := SurfaceAnalysis.surface_analysis (fun _ fs => (0, fs)) (fun _ fs => (None, fs))
               "/s" (MkProc Lib.example_files []) in
  exists pre evsL evsR,
    trace (snd run) = pre ++ evsL ++ evsR
    /\ List.map (fun cmd => nth 5 cmd "") (List.map ev_cmd pre)
       = ["-ribbon-constrained"; "-ribbon-constrained"; "-enclosing"; "-enclosing"].
Proof.
  cbv zeta.
  destruct (surface_analysis_commands (fun _ fs => (0, fs)) (fun _ fs => (None, fs))
              "/s" Lib.example_files Lib.example_ledger
              "/s/L.midthickness.surf.gii" "/s/L.pial.surf.gii" "/s/L.white.surf.gii"
              "/s/R.midthickness.surf.gii" "/s/R.pial.surf.gii" "/s/R.white.surf.gii")
    as (pre & evsL & evsR & resL & wL & wL' & Ht & Hpre & _).
  - intros c w. reflexivity.
  - apply load_json_text with (text := Json.dumps Lib.example_ledger).
    + vm_compute. reflexivity.
    + apply loads_dumps.
  - vm_compute. reflexivity.
  - vm_compute. reflexivity.
  - vm_compute. reflexivity.
  - vm_compute. reflexivity.
  - vm_compute. reflexivity.
  - vm_compute. reflexivity.
  - exists pre, evsL, evsR. split; [exact Ht|]. rewrite Hpre. reflexivity.
Defined.

(** X13. A surface entry that is missing from the ledger ends
    [surface_analysis] with [KeyError]: for an entry of the left
    hemisphere before any program has run, for the mid-thickness surface
    of the right hemisphere after the mapping of the left hemisphere
    alone. *)
Theorem surface_analysis_missing_surface :
  forall (exec : list string -> gmap string string -> Z * gmap string string)
         (lib : Lib.LibCall -> gmap string string -> option PyExc * gmap string string)
         (subject_dir : string) (fs json_dict : gmap string string),
    (forall c w, fst (lib c w) = None) ->
    M0MtCorrection.load_json (PathLib.of_str subject_dir) fs = (Ok json_dict, fs) ->
    let sd := PathLib.of_str subject_dir in
    let run := SurfaceAnalysis.surface_analysis exec lib subject_dir (MkProc fs []) in
    (forall k, In k ["L_mid"; "L_pial"; "L_white"] -> json_dict !! k = None ->
       exists k', In k' ["L_mid"; "L_pial"; "L_white"]
                  /\ json_dict !! k' = None
                  /\ fst run = Raise (KeyError k')
                  /\ trace (snd run) = [])
    /\ (forall L_mid L_pial L_white,
          json_dict !! "L_mid" = Some L_mid ->
          json_dict !! "L_pial" = Some L_pial ->
          json_dict !! "L_white" = Some L_white ->
          json_dict !! "R_mid" = None ->
          fst run = Raise (KeyError "R_mid")
          /\ List.map ev_cmd (trace (snd run))
             = [ SurfaceAnalysis.ribbon_cmd
                   (PathLib.str (sd </> "T1w/ASL/TIs/Betas/beta_perf.nii.gz")) L_mid
                   (PathLib.str (sd </> "T1w/ASL/TIs/Betas/projected_betas"
                                    </> "L_beta_perf.func.gii"))
                   L_white L_pial ]).
Proof.
  intros exec lib subject_dir fs json_dict lib_ok Hload sd run.
  assert (Hmissing : forall k' : string,
            json_dict !! k' = None ->
            (k' = "L_mid"
             \/ (k' = "L_pial" /\ exists v, json_dict !! "L_mid" = Some v)
             \/ (k' = "L_white" /\ (exists v, json_dict !! "L_mid" = Some v)
                                 /\ exists v, json_dict !! "L_pial" = Some v)) ->
            fst run = Raise (KeyError k') /\ trace (snd run) = []).
  { intros k' Hk' Hcase. subst run.
    match goal with
    | |- fst ?X = _ /\ trace (snd ?X) = _ =>
        set (P := fun r : Result unit * Proc (gmap string string) =>
                    fst r = Raise (KeyError k') /\ trace (snd r) = []);
        change (P X)
    end.
    unfold SurfaceAnalysis.surface_analysis, SurfaceAnalysis.SIDES.
    cbv zeta. fold sd.
    rewrite (bind_ok _ _ _ _ _ (on_world_load _ _ _ _ Hload)).
    cbn [PyMonad.for_each]. cbv beta.
    destruct Hcase as [->|[(-> & v & Hv)|(-> & (v & Hv) & (v' & Hv'))]];
      run_surface lib_ok;
      (erewrite (bind_raise (AslPerfusion.getitem _ _))
         by (apply getitem_missing; exact Hk'));
      subst P; split; reflexivity. }
  split.
  - intros k Hk Hnone.
    destruct (json_dict !! "L_mid") as [v|] eqn:Hm.
    + destruct (json_dict !! "L_pial") as [v'|] eqn:Hp.
      * exists "L_white".
        assert (Hw : json_dict !! "L_white" = None).
        { cbn [In] in Hk. destruct Hk as [<-|[<-|[<-|[]]]]; congruence. }
        split; [cbn; tauto|]. split; [exact Hw|].
        apply Hmissing; [exact Hw|].
        right. right. split; [reflexivity|]. split; [exists v|exists v']; reflexivity.
      * exists "L_pial". split; [cbn; tauto|]. split; [exact Hp|].
        apply Hmissing; [exact Hp|].
        right. left. split; [reflexivity|]. exists v. reflexivity.
    + exists "L_mid". split; [cbn; tauto|]. split; [exact Hm|].
      apply Hmissing; [exact Hm|]. left. reflexivity.
  - intros L_mid L_pial L_white HLm HLp HLw HRm. subst run.
    match goal with
    | |- fst ?X = _ /\ List.map ev_cmd (trace (snd ?X)) = ?L =>
        set (P := fun r : Result unit * Proc (gmap string string) =>
                    fst r = Raise (KeyError "R_mid")
                    /\ List.map ev_cmd (trace (snd r)) = L);
        change (P X)
    end.
    unfold SurfaceAnalysis.surface_analysis, SurfaceAnalysis.SIDES.
    cbv zeta. fold sd.
    rewrite (bind_ok _ _ _ _ _ (on_world_load _ _ _ _ Hload)).
    rewrite beta_perf_stripped, projected_betas_dir.
    cbn [PyMonad.for_each]. cbv beta.
    run_surface lib_ok.
    erewrite (bind_raise (AslPerfusion.getitem _ _))
      by (apply getitem_missing; exact HRm).
    subst P. split; reflexivity.
Qed.

Lemma surface_analysis_missing_surface_witness :
  let run := SurfaceAnalysis.surface_analysis (fun _ fs => (0, fs)) (fun _ fs => (None, fs))
               "/s"
               (MkProc {[ "/s/ASL/ASL.json"
                          := Json.dumps {[ "L_mid" := "/s/L.midthickness.surf.gii" ]} ]} []) in
  exists k, fst run = Raise (KeyError k) /\ trace (snd run) = [].
Proof.
  cbv zeta.
  destruct (surface_analysis_missing_surface (fun _ fs => (0, fs)) (fun _ fs => (None, fs))
              "/s"
              {[ "/s/ASL/ASL.json"
                 := Json.dumps {[ "L_mid" := "/s/L.midthickness.surf.gii" ]} ]}
              {[ "L_mid" := "/s/L.midthickness.surf.gii" ]})
    as (Hleft & _).
  - intros c w. reflexivity.
  - apply load_json_text
      with (text := Json.dumps {[ "L_mid" := "/s/L.midthickness.surf.gii" ]}).
    + vm_compute. reflexivity.
    + apply loads_dumps.
  - destruct (Hleft "L_white") as (k & _ & _ & Hres & Htr).
    + cbn. tauto.
    + vm_compute. reflexivity.
    + exists k. split; [exact Hres|exact Htr].
Defined.


(** ** The ledger after [run_oxford_asl] *)

Section OxfordLedger.
Import PyStr PathLib PyMonad M0MtCorrection AslPerfusion.

Lemma update_local_ok (new_dict d w : gmap string string)
    (tr : list (Event (gmap string string))) (json_name : string) :
  (new_dict ∪ d) !! "json_name" = Some json_name ->
  update_local new_dict d (MkProc w tr)
  = (Ok (new_dict ∪ d),
     MkProc (<[str (of_str json_name) := Json.dumps (new_dict ∪ d)]> w) tr).
Proof.
  intros H. unfold update_local. cbn [world trace].
  rewrite (update_json_ok new_dict d w json_name H). reflexivity.
Qed.

Lemma update_local_no_path (new_dict d w : gmap string string)
    (tr : list (Event (gmap string string))) :
  (new_dict ∪ d) !! "json_name" = None ->
  update_local new_dict d (MkProc w tr) = (Raise (KeyError "json_name"), MkProc w tr).
Proof.
  intros H. unfold update_local. cbn [world trace].
  rewrite (update_json_no_path new_dict d w H). reflexivity.
Qed.

End OxfordLedger.

(** X14. [run_oxford_asl] runs one command and does not look at its exit
    status: whatever the status, the directory of the results is then
    recorded in the ledger under ["oxford_asl"], the ledger file is
    rewritten with the whole mapping, and the call returns normally.  A
    later [load_json] of the subject reads that entry back when the
    ledger file is the one of the subject.  When the ledger has no
    ["json_name"] the command has run all the same before [KeyError] is
    raised. *)
Theorem run_oxford_asl_records_directory :
  forall (exec : list string -> gmap string string -> Z * gmap string string)
         (subject_dir : Path) (nobc : bool) (fs json_dict : gmap string string)
         (structasl beta_perf T1w_acpc T1w_acpc_brain : string),
    M0MtCorrection.load_json subject_dir fs = (Ok json_dict, fs) ->
    json_dict !! "structasl" = Some structasl ->
    json_dict !! "beta_perf" = Some beta_perf ->
    json_dict !! "T1w_acpc" = Some T1w_acpc ->
    json_dict !! "T1w_acpc_brain" = Some T1w_acpc_brain ->
    let run := AslPerfusion.run_oxford_asl exec subject_dir nobc (MkProc fs []) in
    let oxford_dir :=
      PathLib.str (AslPerfusion.oxford_dir (PathLib.of_str structasl)
                     (AslPerfusion.ext_of nobc)) in
    let recorded : gmap string string := {[ "oxford_asl" := oxford_dir ]} ∪ json_dict in
    exists e,
      trace (snd run) = [e]
      /\ ev_before e = fs
      /\ (forall json_name,
            json_dict !! "json_name" = Some json_name ->
            fst run = Ok tt
            /\ world (snd run)
               = <[PathLib.str (PathLib.of_str json_name) := Json.dumps recorded]>
                   (ev_after e)
            /\ recorded !! "oxford_asl" = Some oxford_dir
            /\ (PathLib.of_str json_name = subject_dir </> "ASL/ASL.json" ->
                M0MtCorrection.load_json subject_dir (world (snd run))
                = (Ok recorded, world (snd run))))
      /\ (json_dict !! "json_name" = None ->
          fst run = Raise (KeyError "json_name") /\ world (snd run) = ev_after e).
Proof.
  intros exec subject_dir nobc fs json_dict structasl beta_perf T1w_acpc T1w_acpc_brain
         Hload Hs Hb Ht Htb run oxford_dir recorded.
  assert (Hname : forall v, json_dict !! "json_name" = v ->
                            recorded !! "json_name" = v).
  { intros v Hv. subst recorded. rewrite lookup_union_r; [exact Hv|].
    apply lookup_singleton_ne. discriminate. }
  subst run. unfold AslPerfusion.run_oxford_asl.
  rewrite (bind_ok _ _ _ _ _ (on_world_load _ _ _ _ Hload)).
  erewrite (bind_ok (AslPerfusion.getitem _ _)) by (apply getitem_ok; exact Hs).
  erewrite (bind_ok (AslPerfusion.getitem _ _)) by (apply getitem_ok; exact Hb).
  erewrite (bind_ok (AslPerfusion.getitem _ _)) by (apply getitem_ok; exact Ht).
  erewrite (bind_ok (AslPerfusion.getitem _ _)) by (apply getitem_ok; exact Htb).
  cbv zeta.
  match goal with
  | |- context [PyMonad.bind (subprocess_run exec ?cmd false) _ (MkProc ?w ?tr)] =>
      destruct (exec cmd w) as [status w'] eqn:E;
      rewrite (bind_ok _ _ _ _ _ (run_unchecked exec cmd w tr status w' E))
  end.
  cbn [app].
  change (PathLib.str
            (AslPerfusion.oxford_dir (PathLib.of_str structasl)
               (if nobc then Some "_nobc" else None)))
    with oxford_dir.
  fold recorded.
  eexists. split; [|split; [|split]].
  - destruct (json_dict !! "json_name") as [json_name|] eqn:Hj.
    + rewrite (bind_ok _ _ _ _ _
                 (update_local_ok _ _ _ _ json_name (Hname _ eq_refl))).
      reflexivity.
    + rewrite (bind_raise _ _ _ _ _ (update_local_no_path _ _ _ _ (Hname _ eq_refl))).
      reflexivity.
  - reflexivity.
  - intros json_name Hj.
    rewrite (bind_ok _ _ _ _ _ (update_local_ok _ _ _ _ json_name (Hname _ Hj))).
    unfold PyMonad.ret. cbn [fst snd world trace ev_after].
    split; [reflexivity|]. split; [reflexivity|]. split.
    + subst recorded. apply lookup_union_Some_l. apply lookup_singleton_eq.
    + intros Hfile. apply load_json_text with (text := Json.dumps recorded).
      * rewrite <- Hfile. apply lookup_insert_eq.
      * apply loads_dumps.
  - intros Hj.
    rewrite (bind_raise _ _ _ _ _ (update_local_no_path _ _ _ _ (Hname _ Hj))).
    split; reflexivity.
Qed.

(** The command fails (exit status 1): the directory is recorded all the
    same, and a later load reads it. *)
Lemma run_oxford_asl_records_directory_witness :
  let ledger : gmap string string :=
    list_to_map [("structasl", "/s/T1w/ASL");
                 ("beta_perf", "/s/beta_perf.nii.gz");
                 ("T1w_acpc", "/s/T1w.nii.gz");
                 ("T1w_acpc_brain", "/s/T1w_brain.nii.gz");
                 ("json_name", "/s/ASL/ASL.json")] in
  let run := AslPerfusion.run_oxford_asl (fun _ fs => (1, fs)) (PathLib.of_str "/s") false
               (MkProc {[ "/s/ASL/ASL.json" := Json.dumps ledger ]} []) in
  fst run = Ok tt
  /\ exists d,
       M0MtCorrection.load_json (PathLib.of_str "/s") (world (snd run))
       = (Ok d, world (snd run))
       /\ d !! "oxford_asl" = Some "/s/T1w/ASL/TIsNone/OxfordASL".
Proof.
  intros ledger run.
  destruct (run_oxford_asl_records_directory (fun _ fs => (1, fs)) (PathLib.of_str "/s")
              false {[ "/s/ASL/ASL.json" := Json.dumps ledger ]} ledger
              "/s/T1w/ASL" "/s/beta_perf.nii.gz" "/s/T1w.nii.gz" "/s/T1w_brain.nii.gz")
    as (e & _ & _ & Hok & _).
  - apply load_json_text with (text := Json.dumps ledger).
    + vm_compute. reflexivity.
    + apply loads_dumps.
  - vm_compute. reflexivity.
  - vm_compute. reflexivity.
  - vm_compute. reflexivity.
  - vm_compute. reflexivity.
  - destruct (Hok "/s/ASL/ASL.json") as (Hres & _ & Hrec & Hload).
    + vm_compute. reflexivity.
    + split; [exact Hres|]. eexists. split; [apply Hload; reflexivity|exact Hrec].
Defined.


(** ** The surfaces of the partial-volume estimation *)

(** X15. [estimate_pvs] looks for each of the four surfaces by a pattern
    in [fsaverage_LR32k] and goes on only when every pattern has exactly
    one match: the estimation then gets the white and pial surfaces of
    both hemispheres under the keys [LWS], [LPS], [RPS] and [RWS].  The
    first pattern without exactly one match fails the assertion with the
    message [Found multiple surfaces for K], also when there is no match
    at all, and nothing is estimated. *)
Theorem estimate_pvs_one_match_each :
  forall (Image : Type) (glob : string -> list string)
         (extract_fs_pvs : string -> gmap string string -> string -> Z -> Z -> PyExc + Image)
         (t1_dir t1_asl : string) (cores : Z),
    let pattern n := PathLib.op_joins t1_dir ["fsaverage_LR32k"; "*" +:+ n] in
    let run := PvEstimation.estimate_pvs Image glob extract_fs_pvs t1_dir t1_asl cores in
    (forall lws lps rps rws,
        glob (pattern "L.white.32k_fs_LR.surf.gii") = [lws] ->
        glob (pattern "L.pial.32k_fs_LR.surf.gii") = [lps] ->
        glob (pattern "R.pial.32k_fs_LR.surf.gii") = [rps] ->
        glob (pattern "R.white.32k_fs_LR.surf.gii") = [rws] ->
        exists surf_dict : gmap string string,
          surf_dict !! "LWS" = Some lws /\ surf_dict !! "LPS" = Some lps
          /\ surf_dict !! "RPS" = Some rps /\ surf_dict !! "RWS" = Some rws
          /\ (forall k, surf_dict !! k <> None -> In k ["LWS"; "LPS"; "RPS"; "RWS"])
          /\ run = match extract_fs_pvs (PathLib.op_join t1_dir "aparc+aseg.nii.gz")
                           surf_dict t1_asl 2 cores with
                   | inl e => inl (PvEstimation.Raised e)
                   | inr pvs_stacked => inr pvs_stacked
                   end)
    /\ (forall (i : nat) (k n : string),
          PvEstimation.surfaces !! i = Some (k, n) ->
          (forall (j : nat) (k' n' : string),
              (j < i)%nat -> PvEstimation.surfaces !! j = Some (k', n') ->
              length (glob (pattern n')) = 1%nat) ->
          length (glob (pattern n)) <> 1%nat ->
          run = inl (PvEstimation.AssertionError ("Found multiple surfaces for " +:+ k))).
Proof.
  intros Image glob extract_fs_pvs t1_dir t1_asl cores pattern run. split.
  - intros lws lps rps rws H1 H2 H3 H4.
    exists (<["RWS" := rws]> (<["RPS" := rps]> (<["LPS" := lps]> (<["LWS" := lws]> ∅)))).
    split; [rewrite !lookup_insert_ne by discriminate; apply lookup_insert_eq|].
    split; [rewrite !lookup_insert_ne by discriminate; apply lookup_insert_eq|].
    split; [rewrite !lookup_insert_ne by discriminate; apply lookup_insert_eq|].
    split; [apply lookup_insert_eq|].
    split.
    + intros k Hk.
      destruct (String.eqb_spec k "RWS") as [->|N1]; [cbn; tauto|].
      destruct (String.eqb_spec k "RPS") as [->|N2]; [cbn; tauto|].
      destruct (String.eqb_spec k "LPS") as [->|N3]; [cbn; tauto|].
      destruct (String.eqb_spec k "LWS") as [->|N4]; [cbn; tauto|].
      exfalso. apply Hk. rewrite !lookup_insert_ne by congruence. apply lookup_empty.
    + subst run. unfold PvEstimation.estimate_pvs, PvEstimation.surfaces.
      cbn [combine PvEstimation.find_surfaces]. fold (pattern "L.white.32k_fs_LR.surf.gii").
      fold (pattern "L.pial.32k_fs_LR.surf.gii"). fold (pattern "R.pial.32k_fs_LR.surf.gii").
      fold (pattern "R.white.32k_fs_LR.surf.gii").
      rewrite H1, H2, H3, H4. reflexivity.
  - intros i k n Hi Hbefore Hlen. subst run.
    unfold PvEstimation.estimate_pvs.
    assert (Hone : forall j k' n', (j < i)%nat -> PvEstimation.surfaces !! j = Some (k', n') ->
                     Nat.eqb (length (glob (pattern n'))) 1 = true).
    { intros j k' n' Hj Hs. apply Nat.eqb_eq. exact (Hbefore j k' n' Hj Hs). }
    assert (Hbad : Nat.eqb (length (glob (pattern n))) 1 = false).
    { apply Nat.eqb_neq. exact Hlen. }
    unfold PvEstimation.surfaces in *. cbn [combine] in *.
    assert (H0 := fun H => Hone 0%nat "LWS" "L.white.32k_fs_LR.surf.gii" H eq_refl).
    assert (H1 := fun H => Hone 1%nat "LPS" "L.pial.32k_fs_LR.surf.gii" H eq_refl).
    assert (H2 := fun H => Hone 2%nat "RPS" "R.pial.32k_fs_LR.surf.gii" H eq_refl).
    unfold pattern in Hbad, H0, H1, H2.
    destruct i as [|[|[|[|i]]]]; cbn in Hi; try discriminate;
      injection Hi as <- <-; cbn [PvEstimation.find_surfaces];
      rewrite ?H0, ?H1, ?H2 by lia; rewrite Hbad; reflexivity.
Qed.

Example estimate_pvs_no_surface :
  PvEstimation.estimate_pvs unit (fun _ => []) (fun _ _ _ _ _ => inr tt)
    "/s/T1w" "/s/grid.nii.gz" 1
  = inl (PvEstimation.AssertionError "Found multiple surfaces for LWS").
Proof.
  reflexivity.
Qed.


(** ** Binary masks *)

(** X16. [binarise_image] gives an image of the same size whose voxels
    are 0 or 1, with 1 where the value is above the threshold.  For a
    threshold from 0 up to, but not including, 1 (the default 0, and the
    0.5 of [binarise]) the mask of a mask is the mask itself. *)
Theorem binarise_image_idempotent :
  forall (data : list Q) (threshold : Q),
    let mask := DistcorrImages.binarise_image data threshold in
    length mask = length data
    /\ Forall (fun v => v = 0%Q \/ v = 1%Q) mask
    /\ (forall i v, nth_error data i = Some v ->
          nth_error mask i = Some (if Qlt_le_dec threshold v then 1%Q else 0%Q))
    /\ ((0 <= threshold)%Q -> (threshold < 1)%Q ->
        DistcorrImages.binarise_image mask threshold = mask).
Proof.
  intros data threshold mask. subst mask. unfold DistcorrImages.binarise_image.
  split; [apply List.length_map|]. split; [|split].
  - apply List.Forall_forall. intros v Hv. apply in_map_iff in Hv.
    destruct Hv as (x & <- & _). destruct (Qlt_le_dec threshold x); auto.
  - intros i v Hi. rewrite nth_error_map, Hi. reflexivity.
  - intros H0 H1. rewrite List.map_map. apply List.map_ext. intros v.
    destruct (Qlt_le_dec threshold v) as [Hv|Hv].
    + destruct (Qlt_le_dec threshold 1) as [_|H]; [reflexivity|].
      exfalso. apply (Qlt_not_le _ _ H1 H).
    + destruct (Qlt_le_dec threshold 0) as [H|_]; [|reflexivity].
      exfalso. apply (Qlt_not_le _ _ H H0).
Qed.


(** ** Failures of the projection *)

(** X17. [project_to_surface] fails before it changes anything when the
    ledger cannot be loaded or has no ["oxford_asl"] entry: the error of
    the load, or [KeyError('oxford_asl')], is raised, no library call is
    made and no program runs.  For the target ['asl'], when the
    registration [DistCorr/asl2struct.mat] beside the results directory
    cannot be imported, the error of the import is raised and again no
    program runs. *)
Theorem project_to_surface_fails_early :
  forall (exec : list string -> gmap string string -> Z * gmap string string)
         (lib : Lib.LibCall -> gmap string string -> option PyExc * gmap string string)
         (subject_dir : Path) (target : string) (fs : gmap string string),
    let run := Projection.project_to_surface exec lib subject_dir target (MkProc fs []) in
    (forall e fs', M0MtCorrection.load_json subject_dir fs = (Raise e, fs') ->
       run = (Raise e, MkProc fs' []))
    /\ (forall json_dict,
          M0MtCorrection.load_json subject_dir fs = (Ok json_dict, fs) ->
          json_dict !! "oxford_asl" = None ->
          run = (Raise (KeyError "oxford_asl"), MkProc fs []))
    /\ (forall json_dict oxford_asl ex fs',
          M0MtCorrection.load_json subject_dir fs = (Ok json_dict, fs) ->
          json_dict !! "oxford_asl" = Some oxford_asl ->
          target = "asl" ->
          lib (Lib.FromFlirt
                 (PathLib.str (PathLib.parent (PathLib.of_str oxford_asl)
                               </> "DistCorr/asl2struct.mat"))
                 (PathLib.str (PathLib.of_str oxford_asl
                               </> "native_space/perfusion.nii.gz"))
                 (PathLib.str (subject_dir </> "T1w/T1w_acpc_dc_restore.nii.gz")))
              fs = (Some ex, fs') ->
          run = (Raise ex, MkProc fs' [])).
Proof.
  intros exec lib subject_dir target fs run. subst run.
  unfold Projection.project_to_surface. split; [|split].
  - intros e fs' Hload.
    apply bind_raise. unfold AslPerfusion.on_world. cbn [world trace].
    rewrite Hload. reflexivity.
  - intros json_dict Hload Hnone.
    rewrite (bind_ok _ _ _ _ _ (on_world_load _ _ _ _ Hload)).
    apply bind_raise. apply getitem_missing. exact Hnone.
  - intros json_dict oxford_asl ex fs' Hload Hox -> Hlib.
    rewrite (bind_ok _ _ _ _ _ (on_world_load _ _ _ _ Hload)).
    erewrite (bind_ok (AslPerfusion.getitem _ _)) by (apply getitem_ok; exact Hox).
    cbv zeta. cbn [String.eqb Ascii.eqb Bool.eqb].
    rewrite !bind_assoc. apply bind_raise.
    unfold Lib.call. cbn [world trace]. rewrite Hlib. reflexivity.
Qed.
